(** * AIRankTrackerGenie: tracking engine, worker, scoring and scheduling

    A shallow embedding of the backend of the AI rank tracker
    ([app/backend/src]) together with the properties its specification
    states about it.

    Conventions of the model.
    - JavaScript strings are [string]s of ASCII characters; the string
      primitives the code calls ([toLowerCase], [trim], [split], ...) are
      defined in module [JS] and act on the ASCII range.
    - JavaScript numbers that hold counts, indices and ranks are [nat] or
      [Z]; scores, which the code computes with divisions, are exact
      rationals [Q].  Module [Binary64] repeats on binary64 numbers the
      computations whose value the specification states.
    - The relational store is a record of tables, each a list of rows; a
      SQL statement is the function on tables it denotes.  The statements
      of the tracking engine, of the worker and of the scheduling route
      are rejected as the schema has them rejected (module [Store]): for
      a parameter that is no UUID, no [TEXT], no [INTEGER], no [JSONB] or
      no [DECIMAL(6,2)], and for a reference to a row that does not
      exist.  The identifiers of the rows are short names that stand for
      UUIDs.  The statements of the scoring service, of the daily metrics
      and of the alert routes are given identifiers of that kind.
    - A provider adapter is a function from the query text and the
      instant of the call to its outcome, an answer or a thrown error,
      and the time it took. *)

From Stdlib Require Import String Ascii List Bool Arith ZArith QArith Qminmax Lia.
From Stdlib Require Import Qround Qabs DecimalString.
From Stdlib Require Floats.
Import ListNotations.

Local Open Scope string_scope.

(* ===================================================================== *)
(** * JavaScript string primitives                                        *)
(* ===================================================================== *)

Module JS.

Definition is_upper (c : ascii) : bool :=
  let n := nat_of_ascii c in (65 <=? n)%nat && (n <=? 90)%nat.

Definition lower_char (c : ascii) : ascii :=
  if is_upper c then ascii_of_nat (nat_of_ascii c + 32) else c.

(** [s.toLowerCase()] *)
Fixpoint toLowerCase (s : string) : string :=
  match s with
  | EmptyString => EmptyString
  | String c s' => String (lower_char c) (toLowerCase s')
  end.

(** The white space of [\s] and of [trim()]: TAB, LF, VT, FF, CR, SPACE. *)
Definition is_space (c : ascii) : bool :=
  let n := nat_of_ascii c in
  ((9 <=? n)%nat && (n <=? 13)%nat) || (n =? 32)%nat.

Fixpoint trimStart (s : string) : string :=
  match s with
  | EmptyString => EmptyString
  | String c s' => if is_space c then trimStart s' else s
  end.

Fixpoint trimEnd (s : string) : string :=
  match s with
  | EmptyString => EmptyString
  | String c s' =>
      match trimEnd s' with
      | EmptyString => if is_space c then EmptyString else String c EmptyString
      | r => String c r
      end
  end.

(** [s.trim()] *)
Definition trim (s : string) : string := trimEnd (trimStart s).

(** [s.startsWith(p)] *)
Definition startsWith (s p : string) : bool := String.prefix p s.

(** [s.replace(/^www\./, '')] *)
Definition strip_www (s : string) : string :=
  if startsWith s "www." then substring 4 (String.length s - 4) s else s.

(** [s.endsWith(suffix)] *)
Definition endsWith (s suffix : string) : bool :=
  let n := String.length s in
  let m := String.length suffix in
  if (m <=? n)%nat then String.eqb (substring (n - m) m s) suffix else false.

(** [s.includes(sub)] *)
Fixpoint includes (s sub : string) : bool :=
  String.prefix sub s ||
  match s with
  | EmptyString => false
  | String _ s' => includes s' sub
  end.

(** [s.substring(0, n)] *)
Definition substring0 (n : nat) (s : string) : string := substring 0 n s.

(** [s.lastIndexOf(c)], [None] standing for the [-1] of JavaScript. *)
Fixpoint lastIndexOf (c : ascii) (s : string) : option nat :=
  match s with
  | EmptyString => None
  | String a s' =>
      match lastIndexOf c s' with
      | Some i => Some (S i)
      | None => if Ascii.eqb a c then Some 0%nat else None
      end
  end.

Definition index_or_minus1 (o : option nat) : Z :=
  match o with
  | Some i => Z.of_nat i
  | None => (-1)%Z
  end.

(** [s.split(/[set]+/)]: the pieces between maximal runs of separator
    characters.  [in_run] tells that the previous character was a
    separator, so that the current one continues the same match. *)
Fixpoint split_runs (sep : ascii -> bool) (in_run : bool) (s : string)
  : list string :=
  match s with
  | EmptyString => [EmptyString]
  | String c s' =>
      if sep c then
        if in_run then split_runs sep true s'
        else EmptyString :: split_runs sep true s'
      else
        match split_runs sep false s' with
        | p :: ps => String c p :: ps
        | [] => [String c EmptyString]
        end
  end.

Definition split (sep : ascii -> bool) (s : string) : list string :=
  split_runs sep false s.

(** [parts.join(sep)] *)
Definition join (sep : string) (parts : list string) : string :=
  String.concat sep parts.

(** Truthiness of an optional string: [undefined] and [''] are falsy. *)
Definition truthy_string (o : option string) : bool :=
  match o with
  | Some s => negb (String.eqb s "")
  | None => false
  end.

(** Truthiness of an optional number: [undefined], [null] and [0] are
    falsy. *)
Definition truthy_number (o : option Z) : bool :=
  match o with
  | Some z => negb (z =? 0)%Z
  | None => false
  end.

(** [n.toString()] for an integer. *)
Definition toString (z : Z) : string := NilEmpty.string_of_int (Z.to_int z).

(** The double-quote character, for the template literals that contain it. *)
Definition dquote : string := String (ascii_of_nat 34) EmptyString.

End JS.


(** The outcome of a computation that may [throw]. *)
Inductive Outcome (A : Type) : Type :=
| Returns (a : A)
| Throws (message : string).

Arguments Returns {A} a.
Arguments Throws {A} message.

(* ===================================================================== *)
(** * Types ([types/index.ts]) and tables ([db/schema.sql])              *)
(* ===================================================================== *)

Inductive AIPlatform : Type :=
| GOOGLE_AI_OVERVIEW | GEMINI | CHATGPT | PERPLEXITY
| COPILOT | CLAUDE | GROK | DEEPSEEK.

(** [Object.values(AIPlatform)] *)
Definition all_platforms : list AIPlatform :=
  [GOOGLE_AI_OVERVIEW; GEMINI; CHATGPT; PERPLEXITY;
   COPILOT; CLAUDE; GROK; DEEPSEEK].

Definition platform_value (p : AIPlatform) : string :=
  match p with
  | GOOGLE_AI_OVERVIEW => "google_ai_overview"
  | GEMINI => "gemini"
  | CHATGPT => "chatgpt"
  | PERPLEXITY => "perplexity"
  | COPILOT => "copilot"
  | CLAUDE => "claude"
  | GROK => "grok"
  | DEEPSEEK => "deepseek"
  end.

Definition platform_eqb (p q : AIPlatform) : bool :=
  match p, q with
  | GOOGLE_AI_OVERVIEW, GOOGLE_AI_OVERVIEW | GEMINI, GEMINI
  | CHATGPT, CHATGPT | PERPLEXITY, PERPLEXITY | COPILOT, COPILOT
  | CLAUDE, CLAUDE | GROK, GROK | DEEPSEEK, DEEPSEEK => true
  | _, _ => false
  end.

Inductive Sentiment : Type := positive | neutral | negative.

Inductive JobStatus : Type :=
| pending | processing | completed | failed | retrying.

Inductive AlertType : Type :=
| new_citation | lost_citation | position_change | competitor_gain
| new_platform | sentiment_shift | volume_spike.

Inductive Severity : Type := info | warning | critical.

(** Instants are milliseconds on the clock of the process. *)
Definition Time := Z.
Bind Scope Z_scope with Time.

Record AICitation : Type := {
  url : string;
  title : option string;
  snippet : option string;
  position : Z;
  domain : string;
  is_you : bool
}.

Record AIPlatformResponse : Type := {
  response_platform : AIPlatform;
  query : string;
  response_text : string;
  response_citations : list AICitation;
  response_time_ms : Z;
  response_error : option string
}.

Record CompetitorCitation : Type := {
  cc_domain : string;
  cc_url : string;
  cc_position : Z;
  cc_context : option string
}.

Record Citation : Type := {
  keyword_id : string;
  project_id : string;
  platform : AIPlatform;
  tracked_at : Time;
  domain_mentioned : bool;
  specific_url : option string;
  citation_position : option Z;
  citation_context : option string;
  full_response_text : string;
  response_summary : string;
  sentiment : Sentiment;
  confidence_score : Q;
  word_count : nat;
  competitor_citations : list CompetitorCitation;
  total_sources_cited : nat
}.

(** The worker builds its project object from a joined row that carries
    neither [name] nor [competitor_domains]; both are optional here. *)
Record Project : Type := {
  p_id : string;
  organization_id : string;
  name : option string;
  primary_domain : string;
  competitor_domains : option (list string)
}.

Record Keyword : Type := {
  k_id : string;
  k_project_id : string;
  keyword_text : string;
  k_is_active : bool;
  last_tracked_at : option Time
}.

Record TrackResult : Type := {
  success : bool;
  citation : option Citation;
  error : option string;
  result_platform : AIPlatform;
  responseTimeMs : Z
}.

Record TrackingJob : Type := {
  j_id : nat;
  j_project_id : string;
  j_keyword_id : string;
  j_platform : AIPlatform;
  status : JobStatus;
  scheduled_at : Time;
  started_at : option Time;
  completed_at : option Time;
  citation_found : option bool;
  result_data : option TrackResult;
  error_message : option string;
  retry_count : nat
}.

Record Alert : Type := {
  a_project_id : string;
  a_organization_id : string;
  alert_type : AlertType;
  a_title : string;
  description : string;
  severity : Severity;
  a_keyword_id : string;
  a_keyword_text : string;
  a_platform : AIPlatform;
  previous_value : option string;
  current_value : option string;
  change_percent : option Q
}.

(** The tables the core reads and writes; of [organizations], the ids.
    [next_uuid] is the state of [uuid_generate_v4()], the default of
    [tracking_jobs.id]. *)
Record DB : Type := {
  organizations : list string;
  projects : list Project;
  keywords : list Keyword;
  citations : list Citation;
  tracking_jobs : list TrackingJob;
  alerts : list Alert;
  next_uuid : nat
}.

(* ===================================================================== *)
(** * Control: state and exceptions                                      *)
(* ===================================================================== *)

(** What an [async] function of the backend acts on: the store and the
    clock.  A computation returns a value or throws, and leaves a world
    in both cases. *)
Record World : Type := {
  db : DB;
  now : Time
}.

Definition M (A : Type) : Type := World -> Outcome A * World.

Definition ret {A : Type} (a : A) : M A := fun w => (Returns a, w).

Definition throw {A : Type} (message : string) : M A :=
  fun w => (Throws message, w).

Definition bind {A B : Type} (m : M A) (f : A -> M B) : M B :=
  fun w =>
    match m w with
    | (Returns a, w') => f a w'
    | (Throws e, w') => (Throws e, w')
    end.

(** [try { m } catch (error) { handler(error) }] *)
Definition try_catch {A : Type} (m : M A) (handler : string -> M A) : M A :=
  fun w =>
    match m w with
    | (Returns a, w') => (Returns a, w')
    | (Throws e, w') => handler e w'
    end.

Declare Scope monad_scope.
Delimit Scope monad_scope with monad.
Notation "x <- m ;; k" := (bind m (fun x => k))
  (at level 61, m at next level, right associativity) : monad_scope.
Notation "m ;;; k" := (bind m (fun _ => k))
  (at level 61, right associativity) : monad_scope.

Local Open Scope monad_scope.

(** [Date.now()], [new Date()] and SQL [NOW()] *)
Definition clock : M Time := fun w => (Returns (now w), w).

Definition read_db : M DB := fun w => (Returns (db w), w).

Definition write_db (f : DB -> DB) : M unit :=
  fun w => (Returns tt, {| db := f (db w); now := now w |}).

(** A provider adapter: from the query text and the instant of the call
    to its outcome and the time the call took. *)
Definition Adapter : Type := string -> Time -> Outcome AIPlatformResponse * Z.

Definition call (a : Adapter) (text : string) : M AIPlatformResponse :=
  fun w =>
    let '(o, elapsed) := a text (now w) in
    (o, {| db := db w; now := (now w + elapsed)%Z |}).

(* ===================================================================== *)
(** * The store: what its statements reject ([db/schema.sql])            *)
(* ===================================================================== *)

(** A statement of [pool.query] is rejected, and the call throws, when a
    parameter cannot be read at the type of its column or when the row
    breaks a constraint.  The ids of the rows are UUIDs: the model writes
    them as short names, which stand for them, so that a string is taken
    for a UUID when a UUID column of the store holds it or when it has
    the form of a UUID.  The literals ['test'] and [''] of the code have
    not that form. *)
Module Store.

Definition is_hex (c : ascii) : bool :=
  let n := nat_of_ascii c in
  ((48 <=? n) && (n <=? 57) || (97 <=? n) && (n <=? 102) ||
   (65 <=? n) && (n <=? 70))%nat.

(** [n] pairs of hexadecimal digits from pair [i] on; a hyphen may follow
    a pair of odd index, the last one apart.  What is left of [s]. *)
Fixpoint uuid_pairs (n i : nat) (s : string) : option string :=
  match n with
  | O => Some s
  | S n' =>
      match s with
      | String a (String b rest) =>
          if is_hex a && is_hex b then
            uuid_pairs n' (S i)
              (match rest with
               | String "-" rest' =>
                   if Nat.odd i && (i <? 15)%nat then rest' else rest
               | _ => rest
               end)
          else None
      | _ => None
      end
  end.

(** The form of a UUID: 32 hexadecimal digits, with the hyphens of the
    standard form or fewer, between braces or not. *)
Definition is_uuid (s : string) : bool :=
  match s with
  | String "{" body =>
      match uuid_pairs 16 0 body with
      | Some rest => String.eqb rest "}"
      | None => false
      end
  | _ =>
      match uuid_pairs 16 0 s with
      | Some rest => String.eqb rest ""
      | None => false
      end
  end.

(** [s] is held in a UUID column of [organizations], [projects] or
    [keywords]: the id of a row, or its reference to another. *)
Definition names (d : DB) (s : string) : bool :=
  existsb (String.eqb s) (organizations d) ||
  existsb (fun p => String.eqb (p_id p) s ||
                    String.eqb (organization_id p) s) (projects d) ||
  existsb (fun k => String.eqb (k_id k) s ||
                    String.eqb (k_project_id k) s) (keywords d).

Definition takes_uuid (d : DB) (s : string) : bool :=
  names d s || is_uuid s.

(** A text holds the character of code 0, which no [TEXT] takes. *)
Fixpoint has_nul (s : string) : bool :=
  match s with
  | EmptyString => false
  | String c s' => (nat_of_ascii c =? 0)%nat || has_nul s'
  end.

Definition invalid_bytes : string :=
  "invalid byte sequence for encoding " ++ JS.dquote ++ "UTF8" ++
  JS.dquote ++ ": 0x00".

Definition invalid_uuid (s : string) : string :=
  "invalid input syntax for type uuid: " ++ JS.dquote ++ s ++ JS.dquote.

Definition out_of_range (z : Z) : string :=
  "value " ++ JS.dquote ++ JS.toString z ++ JS.dquote ++
  " is out of range for type integer".

(** [JSONB] takes no escape [\u0000], which [JSON.stringify] writes for
    the character of code 0. *)
Definition bad_escape : string := "unsupported Unicode escape sequence".

Definition overflow : string := "numeric field overflow".

Definition violates (table constraint : string) : string :=
  "insert or update on table " ++ JS.dquote ++ table ++ JS.dquote ++
  " violates foreign key constraint " ++ JS.dquote ++ constraint ++
  JS.dquote.

(** The error of a parameter, if it has one. *)
Definition text (s : string) : option string :=
  if has_nul s then Some invalid_bytes else None.

Definition opt_text (o : option string) : option string :=
  match o with
  | Some s => text s
  | None => None
  end.

Definition uuid (d : DB) (s : string) : option string :=
  if takes_uuid d s then None
  else if has_nul s then Some invalid_bytes
  else Some (invalid_uuid s).

(** A number for an [INTEGER] column.  JavaScript writes a number of 22
    digits or more with an exponent; it is rejected as well, with a
    message of its own. *)
Definition int4 (z : Z) : option string :=
  if ((-2147483648 <=? z) && (z <=? 2147483647))%Z then None
  else Some (out_of_range z).

Definition opt_int4 (o : option Z) : option string :=
  match o with
  | Some z => int4 z
  | None => None
  end.

(** The text [JSON.stringify] makes of a value that holds the strings
    [l], for a [JSONB] column. *)
Definition jsonb (l : list string) : option string :=
  if existsb has_nul l then Some bad_escape else None.

(** A number for a [DECIMAL(6,2)] column: rounded to hundredths, it must
    be below 10000 in absolute value. *)
Definition decimal_6_2 (o : option Q) : option string :=
  match o with
  | Some q =>
      let r := Qfloor (Qabs q * 100 + (1 # 2)) in
      if (r <? 1000000)%Z then None else Some overflow
  | None => None
  end.

(** A reference to a row that must exist. *)
Definition references (found : bool) (table constraint : string)
  : option string :=
  if found then None else Some (violates table constraint).

(** The first error of a statement: those of its parameters in their
    order, then those of its constraints. *)
Fixpoint first_error (checks : list (option string)) : option string :=
  match checks with
  | [] => None
  | Some e :: _ => Some e
  | None :: rest => first_error rest
  end.

(** The strings of the competitor entries of a citation. *)
Definition competitor_strings (l : list CompetitorCitation) : list string :=
  flat_map (fun e =>
              [cc_domain e; cc_url e] ++
              match cc_context e with
              | Some s => [s]
              | None => []
              end)%list
           l.

(** [INSERT INTO citations (...) VALUES ($1, ..., $15)].  The parameters
    left out here take every value the engine gives them: the platform
    is one of the enumeration, the instant an ISO text, the confidence a
    number of [[0.5, 0.9]], the two counts lengths of a text and of an
    array held in memory. *)
Definition rejects_citation (d : DB) (c : Citation) : option string :=
  first_error
    [uuid d (keyword_id c);
     uuid d (project_id c);
     opt_text (specific_url c);
     opt_int4 (citation_position c);
     opt_text (citation_context c);
     text (full_response_text c);
     text (response_summary c);
     jsonb (competitor_strings (competitor_citations c));
     references
       (existsb (fun k => String.eqb (k_id k) (keyword_id c)) (keywords d))
       "citations" "citations_keyword_id_fkey";
     references
       (existsb (fun p => String.eqb (p_id p) (project_id c)) (projects d))
       "citations" "citations_project_id_fkey"].

(** [INSERT INTO alerts (...) VALUES ($1, ..., $13)] *)
Definition rejects_alert (d : DB) (a : Alert) : option string :=
  first_error
    [uuid d (a_project_id a);
     uuid d (a_organization_id a);
     text (a_title a);
     text (description a);
     uuid d (a_keyword_id a);
     text (a_keyword_text a);
     opt_text (previous_value a);
     opt_text (current_value a);
     decimal_6_2 (change_percent a);
     references
       (existsb (fun p => String.eqb (p_id p) (a_project_id a)) (projects d))
       "alerts" "alerts_project_id_fkey";
     references
       (existsb (String.eqb (a_organization_id a)) (organizations d))
       "alerts" "alerts_organization_id_fkey";
     references
       (existsb (fun k => String.eqb (k_id k) (a_keyword_id a)) (keywords d))
       "alerts" "alerts_keyword_id_fkey"].

(** The strings of a result, as [JSON.stringify(result)] writes them. *)
Definition result_strings (r : TrackResult) : list string :=
  (match citation r with
   | Some c =>
       [keyword_id c; project_id c] ++
       match specific_url c with Some s => [s] | None => [] end ++
       match citation_context c with Some s => [s] | None => [] end ++
       [full_response_text c; response_summary c] ++
       competitor_strings (competitor_citations c)
   | None => []
   end ++
   match error r with
   | Some e => [e]
   | None => []
   end)%list.

(** [INSERT INTO tracking_jobs (project_id, keyword_id, platform,
    scheduled_at, status)] *)
Definition rejects_job (d : DB) (projectId keywordId : string)
  : option string :=
  first_error
    [uuid d projectId;
     uuid d keywordId;
     references
       (existsb (fun p => String.eqb (p_id p) projectId) (projects d))
       "tracking_jobs" "tracking_jobs_project_id_fkey";
     references
       (existsb (fun k => String.eqb (k_id k) keywordId) (keywords d))
       "tracking_jobs" "tracking_jobs_keyword_id_fkey"].

(** The parameters of a query are read: it throws the first error. *)
Definition reading (checks : list (option string)) : M unit :=
  match first_error checks with
  | Some e => throw e
  | None => ret tt
  end.

End Store.

(* ===================================================================== *)
(** * The tracking engine ([services/trackingEngine.ts])                 *)
(* ===================================================================== *)

Module TrackingEngine.

(** The services the constructor initialises, one per API key given. *)
Record TrackingEngineConfig : Type := {
  geminiService : option Adapter;
  serpApiService : option Adapter;
  perplexityService : option Adapter;
  openaiService : option Adapter
}.

Definition normalize (d : string) : string :=
  JS.trim (JS.strip_www (JS.toLowerCase d)).

(** Check if domains match (handles www and subdomains). *)
Definition domainMatches (citationDomain targetDomain : string) : bool :=
  let normalizedCitation := normalize citationDomain in
  let normalizedTarget := normalize targetDomain in
  String.eqb normalizedCitation normalizedTarget ||
  JS.endsWith normalizedCitation ("." ++ normalizedTarget).

(** Check if domain is mentioned in response. *)
Definition isDomainMentioned (response : AIPlatformResponse) (target : string)
  : bool :=
  existsb (fun c => domainMatches (domain c) target)
          (response_citations response).

Definition positiveWords : list string :=
  ["best"; "excellent"; "top"; "recommended"; "leading"; "outstanding";
   "superior"].

Definition negativeWords : list string :=
  ["worst"; "poor"; "avoid"; "bad"; "terrible"; "disappointing"].

(** The character class [[.!?]]. *)
Definition sentence_end (c : ascii) : bool :=
  Ascii.eqb c "." || Ascii.eqb c "!" || Ascii.eqb c "?".

Definition relevantSentences (text target : string) : list string :=
  filter (fun s => JS.includes (JS.toLowerCase s) (JS.toLowerCase target))
         (JS.split sentence_end text).

(** [words.filter(w => relevantText.includes(w)).length] *)
Definition wordsPresent (words : list string) (relevantText : string) : nat :=
  List.length (filter (fun w => JS.includes relevantText w) words).

(** Analyze sentiment of response regarding target domain. *)
Definition analyzeSentiment (text target : string) : Sentiment :=
  let relevant := relevantSentences text target in
  match relevant with
  | [] => neutral
  | _ =>
      let relevantText := JS.toLowerCase (JS.join " " relevant) in
      let positiveCount := wordsPresent positiveWords relevantText in
      let negativeCount := wordsPresent negativeWords relevantText in
      if (negativeCount <? positiveCount)%nat then positive
      else if (positiveCount <? negativeCount)%nat then negative
      else neutral
  end.

(** Calculate confidence score for the citation. *)
Definition calculateConfidence (response : AIPlatformResponse) : Q :=
  let score := 5 # 10 in
  let n := List.length (response_citations response) in
  let score :=
    if (5 <=? n)%nat then score + (2 # 10)
    else if (3 <=? n)%nat then score + (1 # 10)
    else score in
  let score :=
    if (response_time_ms response <? 3000)%Z then score + (1 # 10)
    else score in
  let score :=
    if (500 <? String.length (response_text response))%nat
    then score + (1 # 10)
    else score in
  Qmin 1 (Qmax 0 score).

(** Generate summary of response text.  The test
    [lastSentence > maxLength * 0.7] is taken over the integers. *)
Definition generateSummary_at (maxLength : nat) (text : string) : string :=
  if (String.length text <=? maxLength)%nat then text
  else
    let truncated := JS.substring0 maxLength text in
    let lastSentence := JS.index_or_minus1 (JS.lastIndexOf "." truncated) in
    if (7 * Z.of_nat maxLength <? 10 * lastSentence)%Z
    then JS.substring0 (Z.to_nat (lastSentence + 1)) truncated
    else truncated ++ "...".

(** [maxLength] defaults to 500 and no caller passes another value. *)
Definition generateSummary (text : string) : string :=
  generateSummary_at 500 text.

Definition failure (message : string) (p : AIPlatform) (ms : Z) : TrackResult :=
  {| success := false; citation := None; error := Some message;
     result_platform := p; responseTimeMs := ms |}.

Definition competitor_of (c : AICitation) : CompetitorCitation :=
  {| cc_domain := domain c; cc_url := url c; cc_position := position c;
     cc_context := snippet c |}.

(** The part of [trackOnPlatform] that follows the query: analyse the
    citations of an answer that carries no error and build the record. *)
Definition analyze (keyword : Keyword) (project : Project)
    (p : AIPlatform) (tracked : Time) (response : AIPlatformResponse)
  : Citation :=
  let target := primary_domain project in
  let domainMentioned := isDomainMentioned response target in
  let yourCitation :=
    if domainMentioned
    then find (fun c => domainMatches (domain c) target)
              (response_citations response)
    else None in
  let competitorCitations :=
    map competitor_of
        (filter (fun c => negb (domainMatches (domain c) target))
                (response_citations response)) in
  let sentiment := analyzeSentiment (response_text response) target in
  {| keyword_id := k_id keyword;
     project_id := p_id project;
     platform := p;
     tracked_at := tracked;
     domain_mentioned := domainMentioned;
     specific_url := option_map url yourCitation;
     citation_position := option_map position yourCitation;
     citation_context :=
       match yourCitation with Some c => snippet c | None => None end;
     full_response_text := response_text response;
     response_summary := generateSummary (response_text response);
     sentiment := sentiment;
     confidence_score := calculateConfidence response;
     word_count :=
       List.length (JS.split JS.is_space (response_text response));
     competitor_citations := competitorCitations;
     total_sources_cited := List.length (response_citations response) |}.

Definition after_query (keyword : Keyword) (project : Project)
    (p : AIPlatform) (startTime : Time) (response : AIPlatformResponse)
  : M TrackResult :=
  endTime <- clock ;;
  let responseTimeMs := (endTime - startTime)%Z in
  if JS.truthy_string (response_error response) then
    ret {| success := false; citation := None;
           error := response_error response;
           result_platform := p; responseTimeMs := responseTimeMs |}
  else
    tracked <- clock ;;
    ret {| success := true;
           citation := Some (analyze keyword project p tracked response);
           error := None;
           result_platform := p; responseTimeMs := responseTimeMs |}.

(** Track keyword on a specific platform. *)
Definition trackOnPlatform (cfg : TrackingEngineConfig) (keyword : Keyword)
    (project : Project) (p : AIPlatform) : M TrackResult :=
  startTime <- clock ;;
  let query_with (service : option Adapter) (unconfigured : string) :=
    match service with
    | None => ret (failure unconfigured p 0)
    | Some a =>
        response <- call a (keyword_text keyword) ;;
        after_query keyword project p startTime response
    end in
  match p with
  | GEMINI => query_with (geminiService cfg) "Gemini not configured"
  | GOOGLE_AI_OVERVIEW =>
      query_with (serpApiService cfg) "SERP API not configured"
  | PERPLEXITY =>
      query_with (perplexityService cfg) "Perplexity not configured"
  | CHATGPT => query_with (openaiService cfg) "OpenAI not configured"
  | _ =>
      ret (failure ("Platform " ++ platform_value p ++ " not supported") p 0)
  end.

(** Store citation in database: [INSERT INTO citations ...]. *)
Definition storeCitation (c : Citation) : M unit :=
  d <- read_db ;;
  match Store.rejects_citation d c with
  | Some e => throw e
  | None =>
      write_db (fun d =>
        {| organizations := organizations d; projects := projects d;
           keywords := keywords d;
           citations := citations d ++ [c];
           tracking_jobs := tracking_jobs d; alerts := alerts d;
           next_uuid := next_uuid d |})
  end.

Definition touch (keywordId : string) (t : Time) (k : Keyword) : Keyword :=
  if String.eqb (k_id k) keywordId then
    {| k_id := k_id k; k_project_id := k_project_id k;
       keyword_text := keyword_text k; k_is_active := k_is_active k;
       last_tracked_at := Some t |}
  else k.

(** Update keyword's last tracked timestamp:
    [UPDATE keywords SET last_tracked_at = NOW() WHERE id = $1]. *)
Definition updateKeywordTrackingTime (keywordId : string) : M unit :=
  d <- read_db ;;
  Store.reading [Store.uuid d keywordId] ;;;
  t <- clock ;;
  write_db (fun d =>
    {| organizations := organizations d; projects := projects d;
       keywords := map (touch keywordId t) (keywords d);
       citations := citations d;
       tracking_jobs := tracking_jobs d; alerts := alerts d;
       next_uuid := next_uuid d |}).

(** [if (result.success && result.citation)
       await this.storeCitation(result.citation)] *)
Definition store_if_successful (result : TrackResult) : M unit :=
  match success result, citation result with
  | true, Some c => storeCitation c
  | _, _ => ret tt
  end.

(** One turn of the loop of [trackKeyword]: the [try] block and its
    [catch].  It yields the results the turn pushed: the result is pushed
    before its citation is stored, so that it stays in the list when the
    store rejects the citation and the [catch] pushes a failure after
    it. *)
Definition track_one (cfg : TrackingEngineConfig) (keyword : Keyword)
    (project : Project) (p : AIPlatform) : M (list TrackResult) :=
  try_catch
    (result <- trackOnPlatform cfg keyword project p ;;
     try_catch
       (store_if_successful result ;;; ret [result])
       (fun message => ret [result; failure message p 0]))
    (fun message => ret [failure message p 0]).

Fixpoint track_all (cfg : TrackingEngineConfig) (keyword : Keyword)
    (project : Project) (platforms : list AIPlatform)
  : M (list TrackResult) :=
  match platforms with
  | [] => ret []
  | p :: rest =>
      pushed <- track_one cfg keyword project p ;;
      others <- track_all cfg keyword project rest ;;
      ret (pushed ++ others)%list
  end.

(** Track a single keyword across specified platforms. *)
Definition trackKeyword (cfg : TrackingEngineConfig) (keyword : Keyword)
    (project : Project) (platforms : list AIPlatform)
  : M (list TrackResult) :=
  results <- track_all cfg keyword project platforms ;;
  updateKeywordTrackingTime (k_id keyword) ;;;
  ret results.

End TrackingEngine.

(* ===================================================================== *)
(** * The scores in binary64                                             *)
(* ===================================================================== *)

(** JavaScript computes with binary64 numbers.  The two computations
    whose value the specification pins down are given here a second
    time, on the floats of the kernel, to compare with the rationals. *)
Module Binary64.

Import PrimFloat.

#[local] Set Warnings "-inexact-float".

(** [Math.min] and [Math.max] on numbers that are not [NaN]. *)
Definition min (a b : float) : float := if ltb a b then a else b.
Definition max (a b : float) : float := if ltb a b then b else a.

(** Calculate confidence score for the citation. *)
Definition calculateConfidence (response : AIPlatformResponse) : float :=
  let score := 0.5%float in
  let n := List.length (response_citations response) in
  let score :=
    if (5 <=? n)%nat then (score + 0.2)%float
    else if (3 <=? n)%nat then (score + 0.1)%float
    else score in
  let score :=
    if (response_time_ms response <? 3000)%Z then (score + 0.1)%float
    else score in
  let score :=
    if (500 <? String.length (response_text response))%nat
    then (score + 0.1)%float
    else score in
  min 1 (max 0 score).

(** An integer below [2^53] as a number. *)
Definition of_Z (z : Z) : float :=
  match z with
  | Z0 => 0%float
  | Zpos _ => of_uint63 (Uint63.of_Z z)
  | Zneg q => (- of_uint63 (Uint63.of_Z (Zpos q)))%float
  end.

(** [(positionChange / previous.citation_position) * 100] *)
Definition change_percent (prev curr : Z) : float :=
  (of_Z (prev - curr) / of_Z prev * 100)%float.

(** [maxLength * 0.7] *)
Definition summary_threshold (maxLength : Z) : float :=
  (of_Z maxLength * 0.7)%float.

(** The interval [[0.5, 0.9]]. *)
Definition within_confidence_range (x : float) : bool :=
  leb 0.5 x && leb x 0.9.

(** The numbers a [DECIMAL(6,2)] column keeps as 66.67. *)
Definition kept_as_66_67 (x : float) : bool :=
  ltb 66.665 x && ltb x 66.675.

Definition is_350 (x : float) : bool := eqb x 350.

End Binary64.

(* ===================================================================== *)
(** * Alerts ([routes/alerts.ts])                                        *)
(* ===================================================================== *)

Module Alerts.

(** Rounding to the nearest integer, halves away from zero, as the store
    rounds a value it is given for a [DECIMAL] column. *)
Definition round_half_away (x : Q) : Z :=
  if Qle_bool 0 x then Qfloor (x + (1 # 2)) else Qceiling (x - (1 # 2)).

(** The value a [DECIMAL(6,2)] column keeps of a number. *)
Definition decimal_2 (x : Q) : Q := round_half_away (x * 100) # 100.

Definition stored (a : Alert) : Alert :=
  {| a_project_id := a_project_id a;
     a_organization_id := a_organization_id a;
     alert_type := alert_type a; a_title := a_title a;
     description := description a; severity := severity a;
     a_keyword_id := a_keyword_id a; a_keyword_text := a_keyword_text a;
     a_platform := a_platform a;
     previous_value := previous_value a; current_value := current_value a;
     change_percent := option_map decimal_2 (change_percent a) |}.

(** [INSERT INTO alerts ...], inside a [try] whose [catch] only logs:
    when the store rejects the row nothing is written and nothing is
    thrown. *)
Definition createAlert (data : Alert) : M unit :=
  try_catch
    (d <- read_db ;;
     match Store.rejects_alert d data with
     | Some e => throw e
     | None =>
         write_db (fun d =>
           {| organizations := organizations d; projects := projects d;
              keywords := keywords d;
              citations := citations d; tracking_jobs := tracking_jobs d;
              alerts := alerts d ++ [stored data];
              next_uuid := next_uuid d |})
     end)
    (fun _ => ret tt).

End Alerts.

(* ===================================================================== *)
(** * The worker ([worker/index.ts])                                     *)
(* ===================================================================== *)

Module Worker.

Import TrackingEngine.

Record TrackingJobData : Type := {
  jobId : nat;
  projectId : string;
  keywordId : string;
  job_platform : AIPlatform
}.

(** [UPDATE tracking_jobs SET ... WHERE id = $1] *)
Definition update_job (id : nat) (set : TrackingJob -> TrackingJob) : M unit :=
  write_db (fun d =>
    {| organizations := organizations d; projects := projects d;
       keywords := keywords d;
       citations := citations d;
       tracking_jobs :=
         map (fun j => if (j_id j =? id)%nat then set j else j)
             (tracking_jobs d);
       alerts := alerts d; next_uuid := next_uuid d |}).

(** [SET status = 'processing', started_at = NOW()] *)
Definition set_processing (t : Time) (j : TrackingJob) : TrackingJob :=
  {| j_id := j_id j; j_project_id := j_project_id j;
     j_keyword_id := j_keyword_id j; j_platform := j_platform j;
     status := processing; scheduled_at := scheduled_at j;
     started_at := Some t; completed_at := completed_at j;
     citation_found := citation_found j; result_data := result_data j;
     error_message := error_message j; retry_count := retry_count j |}.

(** [SET status = 'completed', completed_at = NOW(), citation_found = $2,
    result_data = $3] *)
Definition set_completed (t : Time) (found : bool) (result : TrackResult)
    (j : TrackingJob) : TrackingJob :=
  {| j_id := j_id j; j_project_id := j_project_id j;
     j_keyword_id := j_keyword_id j; j_platform := j_platform j;
     status := completed; scheduled_at := scheduled_at j;
     started_at := started_at j; completed_at := Some t;
     citation_found := Some found; result_data := Some result;
     error_message := error_message j; retry_count := retry_count j |}.

(** [SET status = 'failed', error_message = $2,
    retry_count = retry_count + 1] *)
Definition set_failed (message : string) (j : TrackingJob) : TrackingJob :=
  {| j_id := j_id j; j_project_id := j_project_id j;
     j_keyword_id := j_keyword_id j; j_platform := j_platform j;
     status := failed; scheduled_at := scheduled_at j;
     started_at := started_at j; completed_at := completed_at j;
     citation_found := citation_found j; result_data := result_data j;
     error_message := Some message; retry_count := S (retry_count j) |}.

(** [SELECT k.*, p.primary_domain, p.organization_id FROM keywords k
    JOIN projects p ON k.project_id = p.id WHERE k.id = $1], first row. *)
Definition select_keyword (d : DB) (id : string) : option (Keyword * Project) :=
  match find (fun k => String.eqb (k_id k) id) (keywords d) with
  | Some k =>
      match find (fun p => String.eqb (p_id p) (k_project_id k))
                 (projects d) with
      | Some p => Some (k, p)
      | None => None
      end
  | None => None
  end.

(** [ORDER BY tracked_at DESC], by insertion. *)
Fixpoint insert_desc (c : Citation) (l : list Citation) : list Citation :=
  match l with
  | [] => [c]
  | x :: l' =>
      if (tracked_at x <=? tracked_at c)%Z then c :: l
      else x :: insert_desc c l'
  end.

Definition order_by_tracked_at_desc (l : list Citation) : list Citation :=
  fold_right insert_desc [] l.

(** [SELECT domain_mentioned, citation_position FROM citations
    WHERE keyword_id = $1 AND platform = $2
    ORDER BY tracked_at DESC OFFSET 1 LIMIT 1], first row. *)
Definition select_previous (d : DB) (keywordId : string) (p : AIPlatform)
  : option Citation :=
  nth_error
    (order_by_tracked_at_desc
       (filter (fun c => String.eqb (keyword_id c) keywordId &&
                         platform_eqb (platform c) p)
               (citations d)))
    1.

Definition mentioned (c : option Citation) : bool :=
  match c with
  | Some c => domain_mentioned c
  | None => false
  end.

Definition position_of (c : option Citation) : option Z :=
  match c with
  | Some c => citation_position c
  | None => None
  end.

Definition alert (projectId keywordId keywordText : string) (p : AIPlatform)
    (type : AlertType) (title text : string) (s : Severity)
    (previous current : option string) (change : option Q) : Alert :=
  {| a_project_id := projectId; a_organization_id := "";
     alert_type := type; a_title := title; description := text;
     severity := s; a_keyword_id := keywordId;
     a_keyword_text := keywordText; a_platform := p;
     previous_value := previous; current_value := current;
     change_percent := change |}.

(** The branches of [checkForAlerts]: the alert it creates, if any, for
    the row [previous] the query returned and the citation [current] of
    the result. *)
Definition decide_alert (projectId keywordId keywordText : string)
    (p : AIPlatform) (previous current : option Citation) : option Alert :=
  let mk := alert projectId keywordId keywordText p in
  let cited := JS.dquote ++ keywordText ++ JS.dquote ++ " on " ++
               platform_value p in
  if negb (match previous with Some _ => true | None => false end)
     && mentioned current
  then
    Some (mk new_citation "New Citation Detected"
             ("Your domain was cited for " ++ cited) info None None None)
  else if mentioned previous && negb (mentioned current)
  then
    Some (mk lost_citation "Citation Lost"
             ("Your domain is no longer cited for " ++ cited) warning
             (option_map JS.toString (position_of previous)) None None)
  else if JS.truthy_number (position_of previous)
          && JS.truthy_number (position_of current)
  then
    match position_of previous, position_of current with
    | Some prev, Some curr =>
        let positionChange := (prev - curr)%Z in
        if (2 <=? Z.abs positionChange)%Z then
          Some (mk position_change
                  (if (0 <? positionChange)%Z then "Position Improved"
                   else "Position Declined")
                  ("Your citation position for " ++ cited ++
                   " changed from " ++ JS.toString prev ++ " to " ++
                   JS.toString curr)
                  (if (0 <? positionChange)%Z then info else warning)
                  (Some (JS.toString prev)) (Some (JS.toString curr))
                  (Some ((inject_Z positionChange / inject_Z prev) * 100)))
        else None
    | _, _ => None
    end
  else None.

Definition checkForAlerts (projectId keywordId keywordText : string)
    (p : AIPlatform) (result : TrackResult) : M unit :=
  try_catch
    (d <- read_db ;;
     Store.reading [Store.uuid d keywordId] ;;;
     let previous := select_previous d keywordId p in
     let current := citation result in
     match decide_alert projectId keywordId keywordText p previous current
     with
     | Some a => Alerts.createAlert a
     | None => ret tt
     end)
    (fun _ => ret tt).

(** [const keyword = { id: row.id, ... }]: the keyword the worker hands
    to the engine, made of the joined row. *)
Definition keyword_of (row : Keyword) : Keyword :=
  {| k_id := k_id row; k_project_id := k_project_id row;
     keyword_text := keyword_text row;
     k_is_active := k_is_active row; last_tracked_at := None |}.

(** [const project = { id: row.project_id, ... }]: the joined row has
    neither [name] nor [competitor_domains]. *)
Definition project_of (row : Keyword) (joined : Project) : Project :=
  {| p_id := k_project_id row;
     organization_id := organization_id joined;
     name := None; primary_domain := primary_domain joined;
     competitor_domains := None |}.

(** The id of the job stands for the UUID of its row.  The [catch]
    writes the message of the exception; the messages the [try] block
    raises are those of the store and its own, which hold no character of
    code 0. *)
Definition processTrackingJob (cfg : TrackingEngineConfig)
    (job : TrackingJobData) : M unit :=
  try_catch
    (t <- clock ;;
     update_job (jobId job) (set_processing t) ;;;
     d <- read_db ;;
     Store.reading [Store.uuid d (keywordId job)] ;;;
     match select_keyword d (keywordId job) with
     | None => throw "Keyword not found"
     | Some (row, joined) =>
         let keyword := keyword_of row in
         let project := project_of row joined in
         results <- trackKeyword cfg keyword project [job_platform job] ;;
         match results with
         | [] => throw "Cannot read properties of undefined"
         | result :: _ =>
             Store.reading [Store.jsonb (Store.result_strings result)] ;;;
             t' <- clock ;;
             update_job (jobId job)
               (set_completed t' (mentioned (citation result)) result) ;;;
             checkForAlerts (projectId job) (keywordId job)
               (keyword_text keyword) (job_platform job) result
         end
     end)
    (fun message =>
       update_job (jobId job) (set_failed message) ;;;
       throw message).

End Worker.

(* ===================================================================== *)
(** * The scoring service ([services/scoring.ts])                        *)
(* ===================================================================== *)

Module Scoring.

(** A row of the per-platform aggregate of [calculateVisibilityScore]. *)
Record Row : Type := {
  row_platform : AIPlatform;
  citation_count : nat;
  keywords_ranked : nat;
  avg_position : option Q;
  positive_mentions : nat;
  negative_mentions : nat
}.

(** [thirtyDaysAgo.setDate(thirtyDaysAgo.getDate() - 30)] *)
Definition thirty_days : Z := 30 * 24 * 60 * 60 * 1000.

(** [WHERE project_id = $1 AND tracked_at >= $2] *)
Definition in_window (projectId : string) (since : Time) (c : Citation)
  : bool :=
  String.eqb (project_id c) projectId && (since <=? tracked_at c)%Z.

(** [COUNT( * ) FILTER (WHERE f)] *)
Definition count_filter {A : Type} (f : A -> bool) (l : list A) : nat :=
  List.length (filter f l).

Definition ranked_positions (g : list Citation) : list Z :=
  flat_map (fun c =>
              if domain_mentioned c then
                match citation_position c with
                | Some z => [z]
                | None => []
                end
              else [])
           g.

(** [AVG(...)], [NULL] over no value. *)
Definition average (l : list Z) : option Q :=
  match l with
  | [] => None
  | _ => Some (inject_Z (fold_right Z.add 0%Z l) /
               inject_Z (Z.of_nat (List.length l)))
  end.

Definition is_positive (c : Citation) : bool :=
  match sentiment c with positive => true | _ => false end.

Definition is_negative (c : Citation) : bool :=
  match sentiment c with negative => true | _ => false end.

(** The aggregates of one group of [GROUP BY platform]. *)
Definition group_row (cs : list Citation) (p : AIPlatform) : Row :=
  let g := filter (fun c => platform_eqb (platform c) p) cs in
  {| row_platform := p;
     citation_count := count_filter domain_mentioned g;
     keywords_ranked :=
       List.length
         (nodup string_dec (map keyword_id (filter domain_mentioned g)));
     avg_position := average (ranked_positions g);
     positive_mentions := count_filter is_positive g;
     negative_mentions := count_filter is_negative g |}.

(** The citation query of [calculateVisibilityScore]: one row for each
    platform that has a citation of the project in the window. *)
Definition select_citation_rows (d : DB) (projectId : string) (since : Time)
  : list Row :=
  let cs := filter (in_window projectId since) (citations d) in
  map (group_row cs)
      (filter (fun p => existsb (fun c => platform_eqb (platform c) p) cs)
              all_platforms).

(** [SELECT COUNT( * ) FROM keywords WHERE project_id = $1
    AND is_active = true] *)
Definition count_active_keywords (d : DB) (projectId : string) : nat :=
  count_filter
    (fun k => String.eqb (k_project_id k) projectId && k_is_active k)
    (keywords d).

(** [rows.reduce((sum, row) => sum + parseInt(row.citation_count), 0)] *)
Definition totalCitations (rows : list Row) : nat :=
  fold_left (fun sum row => sum + citation_count row)%nat rows 0%nat.

Definition Q_of_nat (n : nat) : Q := inject_Z (Z.of_nat n).

(** Calculate frequency score (40% weight). *)
Definition calculateFrequencyScore (rows : list Row) (totalKeywords : nat)
  : Q :=
  if (totalKeywords =? 0)%nat then 0
  else
    let citationsPerKeyword :=
      Q_of_nat (totalCitations rows) / Q_of_nat totalKeywords in
    Qmin 100 (citationsPerKeyword * 20).

(** The [frequencyScore] of [calculateVisibilityScore], run at instant
    [t] on the store [d]. *)
Definition frequencyScore (d : DB) (t : Time) (projectId : string) : Q :=
  calculateFrequencyScore
    (select_citation_rows d projectId (t - thirty_days)%Z)
    (count_active_keywords d projectId).

(** The citations the specification calls [C_self]: those of the project
    in the window that mention the domain. *)
Definition C_self (d : DB) (t : Time) (projectId : string) : list Citation :=
  filter domain_mentioned
         (filter (in_window projectId (t - thirty_days)%Z) (citations d)).

(** The frequency component as the specification words it:
    [min(100, (|C_self| / max(K,1)) * 20)]. *)
Definition frequency_as_specified (c_self k : nat) : Q :=
  Qmin 100 ((Q_of_nat c_self / Q_of_nat (Nat.max k 1)) * 20).

End Scoring.

(* ===================================================================== *)
(** * The tracking routes ([routes/]: [/schedule], [/quick-test])        *)
(* ===================================================================== *)

Module Routes.

Import TrackingEngine.

Record ScheduleBody : Type := {
  body_project_id : string;
  keyword_ids : option (list string);
  body_platforms : option (list AIPlatform);
  body_scheduled_at : option Time
}.

(** The unique constraints of [tracking_jobs]: its primary key, and no
    other. *)
Definition conflicts (row : TrackingJob) (jobs : list TrackingJob) : bool :=
  existsb (fun j => (j_id j =? j_id row)%nat) jobs.

(** [INSERT INTO tracking_jobs (project_id, keyword_id, platform,
    scheduled_at, status) VALUES ($1, $2, $3, $4, 'pending')
    ON CONFLICT DO NOTHING RETURNING *] *)
Definition insert_job (projectId keywordId : string) (p : AIPlatform)
    (scheduledTime : Time) : M (list TrackingJob) :=
  fun w =>
    let d := db w in
    let row :=
      {| j_id := next_uuid d; j_project_id := projectId;
         j_keyword_id := keywordId; j_platform := p; status := pending;
         scheduled_at := scheduledTime; started_at := None;
         completed_at := None; citation_found := None;
         result_data := None; error_message := None;
         retry_count := 0 |} in
    match Store.rejects_job d projectId keywordId with
    | Some e => (Throws e, w)
    | None =>
        if conflicts row (tracking_jobs d) then
          (Returns [],
           {| db := {| organizations := organizations d;
                       projects := projects d; keywords := keywords d;
                       citations := citations d;
                       tracking_jobs := tracking_jobs d; alerts := alerts d;
                       next_uuid := S (next_uuid d) |};
              now := now w |})
        else
          (Returns [row],
           {| db := {| organizations := organizations d;
                       projects := projects d; keywords := keywords d;
                       citations := citations d;
                       tracking_jobs := tracking_jobs d ++ [row];
                       alerts := alerts d;
                       next_uuid := S (next_uuid d) |};
              now := now w |})
    end.

Fixpoint for_platforms (projectId keywordId : string)
    (platformList : list AIPlatform) (scheduledTime : Time)
  : M (list TrackingJob) :=
  match platformList with
  | [] => ret []
  | p :: rest =>
      rows <- insert_job projectId keywordId p scheduledTime ;;
      more <- for_platforms projectId keywordId rest scheduledTime ;;
      ret (rows ++ more)%list
  end.

(** The course of a handler: the answer it sent, [jobsScheduled], and the
    exception that ended it, if one did. *)
Record Course : Type := {
  answered : option nat;
  raised : option string
}.

(** The loop over the keywords.  The source does not close it before
    [res.status(201).json(...)]: the answer stands inside the loop, after
    the jobs of a keyword.  The first turn sends it; the second finds the
    headers sent, and [json] throws. *)
Fixpoint for_keywords (projectId : string) (keywordRows : list Keyword)
    (platformList : list AIPlatform) (scheduledTime : Time)
    (jobs : list TrackingJob) (sent : option nat) : M Course :=
  match keywordRows with
  | [] => ret {| answered := sent; raised := None |}
  | k :: rest =>
      rows <- for_platforms projectId (k_id k) platformList scheduledTime ;;
      let jobs := (jobs ++ rows)%list in
      match sent with
      | None =>
          for_keywords projectId rest platformList scheduledTime jobs
                       (Some (List.length jobs))
      | Some _ =>
          ret {| answered := sent;
                 raised :=
                   Some "Cannot set headers after they are sent to the client"
              |}
      end
  end.

Definition nonempty {A : Type} (o : option (list A)) : bool :=
  match o with
  | Some (_ :: _) => true
  | _ => false
  end.

(** The keywords query of [/schedule]. *)
Definition select_keywords (d : DB) (body : ScheduleBody) : list Keyword :=
  if nonempty (keyword_ids body) then
    filter (fun k =>
              String.eqb (k_project_id k) (body_project_id body) &&
              existsb (String.eqb (k_id k))
                      (match keyword_ids body with
                       | Some ids => ids
                       | None => []
                       end))
           (keywords d)
  else
    filter (fun k =>
              String.eqb (k_project_id k) (body_project_id body) &&
              k_is_active k)
           (keywords d).

(** [keyword_ids?.length], and the ids then. *)
Definition ids_of (body : ScheduleBody) : list string :=
  match keyword_ids body with
  | Some ids => ids
  | None => []
  end.

(** [router.post('/schedule')]: what it answers as [jobsScheduled], and
    how its handler ends. *)
Definition schedule (organizationId : string) (body : ScheduleBody)
  : M Course :=
  d <- read_db ;;
  Store.reading [Store.uuid d (body_project_id body);
                 Store.uuid d organizationId] ;;;
  if existsb (fun p => String.eqb (p_id p) (body_project_id body) &&
                       String.eqb (organization_id p) organizationId)
             (projects d)
  then
    Store.reading (Store.uuid d (body_project_id body)
                   :: if nonempty (keyword_ids body)
                      then map (Store.uuid d) (ids_of body)
                      else []) ;;;
    let keywordRows := select_keywords d body in
    let platformList :=
      match body_platforms body with
      | Some l => l
      | None => all_platforms
      end in
    t <- clock ;;
    let scheduledTime :=
      match body_scheduled_at body with
      | Some s => s
      | None => t
      end in
    for_keywords (body_project_id body) keywordRows platformList
                 scheduledTime [] None
  else throw "Project not found".

Record QuickTestBody : Type := {
  body_keyword : option string;
  quick_platforms : option (list AIPlatform);
  body_domain : option string
}.

Record QuickTestRow : Type := {
  row_platform : AIPlatform;
  row_success : bool;
  row_citations : nat;
  row_domainMentioned : option bool;
  row_position : option Z;
  row_responseTimeMs : Z;
  row_error : option string
}.

Definition quick_row (r : TrackResult) : QuickTestRow :=
  {| row_platform := result_platform r;
     row_success := success r;
     row_citations :=
       match citation r with
       | Some c => total_sources_cited c
       | None => 0
       end;
     row_domainMentioned := option_map domain_mentioned (citation r);
     row_position :=
       match citation r with
       | Some c => citation_position c
       | None => None
       end;
     row_responseTimeMs := responseTimeMs r;
     row_error := error r |}.

(** [DELETE FROM citations WHERE keyword_id = $1] *)
Definition delete_citations_of (keywordId : string) : M unit :=
  d <- read_db ;;
  Store.reading [Store.uuid d keywordId] ;;;
  write_db (fun d =>
    {| organizations := organizations d; projects := projects d;
       keywords := keywords d;
       citations :=
         filter (fun c => negb (String.eqb (keyword_id c) keywordId))
                (citations d);
       tracking_jobs := tracking_jobs d; alerts := alerts d;
       next_uuid := next_uuid d |}).

(** [router.post('/quick-test')] *)
Definition quick_test (cfg : TrackingEngineConfig) (body : QuickTestBody)
  : M (list QuickTestRow) :=
  match body_keyword body with
  | Some keyword =>
      if String.eqb keyword "" then throw "Keyword is required"
      else
        let platformList :=
          match quick_platforms body with
          | Some l => l
          | None => [GEMINI; GOOGLE_AI_OVERVIEW]
          end in
        let mockKeyword :=
          {| k_id := "test"; k_project_id := "test";
             keyword_text := keyword; k_is_active := true;
             last_tracked_at := None |} in
        let mockProject :=
          {| p_id := "test"; organization_id := "test";
             name := Some "Test";
             primary_domain :=
               if JS.truthy_string (body_domain body)
               then match body_domain body with
                    | Some dom => dom
                    | None => "example.com"
                    end
               else "example.com";
             competitor_domains := Some [] |} in
        results <- trackKeyword cfg mockKeyword mockProject platformList ;;
        delete_citations_of "test" ;;;
        ret (map quick_row results)
  | None => throw "Keyword is required"
  end.

End Routes.

(* ===================================================================== *)
(** * Vocabulary of the properties                                       *)
(* ===================================================================== *)

(** The store [d] with the rows [added] appended to [citations]. *)
Definition with_citations (d : DB) (added : list Citation) : DB :=
  {| organizations := organizations d; projects := projects d;
     keywords := keywords d;
     citations := citations d ++ added;
     tracking_jobs := tracking_jobs d; alerts := alerts d;
     next_uuid := next_uuid d |}.

(** The entries of an answer whose host matches the primary domain. *)
Definition target_entries (project : Project) (response : AIPlatformResponse)
  : list AICitation :=
  filter (fun c => TrackingEngine.domainMatches (domain c)
                     (primary_domain project))
         (response_citations response).

(** The contribution of the target the specification expects in
    [total_sources_cited]. *)
Definition target_contribution (c : Citation) : nat :=
  if domain_mentioned c then 1 else 0.

(** Concrete stores, answers and engines. *)
Module Sample.

Definition cite (u d : string) (rank : Z) : AICitation :=
  {| url := u; title := None; snippet := None; position := rank;
     domain := d; is_you := false |}.

Definition answer (text : string) (cs : list AICitation)
    (err : option string) : AIPlatformResponse :=
  {| response_platform := GEMINI; query := "best crm";
     response_text := text; response_citations := cs;
     response_time_ms := 120; response_error := err |}.

(** An adapter that answers [r] to every query, in 120 ms. *)
Definition answering (r : AIPlatformResponse) : Adapter :=
  fun _ _ => (Returns r, 120%Z).

(** An engine with the Gemini service only. *)
Definition engine (a : Adapter) : TrackingEngine.TrackingEngineConfig :=
  {| TrackingEngine.geminiService := Some a;
     TrackingEngine.serpApiService := None;
     TrackingEngine.perplexityService := None;
     TrackingEngine.openaiService := None |}.

Definition acme : Project :=
  {| p_id := "p1"; organization_id := "o1"; name := Some "Acme";
     primary_domain := "acme.com"; competitor_domains := Some [] |}.

Definition crm (active : bool) : Keyword :=
  {| k_id := "k1"; k_project_id := "p1"; keyword_text := "best crm";
     k_is_active := active; last_tracked_at := None |}.

Definition store (active : bool) (cs : list Citation)
    (jobs : list TrackingJob) : DB :=
  {| organizations := ["o1"]; projects := [acme];
     keywords := [crm active]; citations := cs;
     tracking_jobs := jobs; alerts := [];
     next_uuid := List.length jobs |}.

Definition at_noon (d : DB) : World := {| db := d; now := 1000000%Z |}.

(** A persisted citation of keyword [k1] on [p], tracked at [t]. *)
Definition prior (p : AIPlatform) (t : Time) (mentioned : bool)
    (rank : option Z) : Citation :=
  {| keyword_id := "k1"; project_id := "p1"; platform := p;
     tracked_at := t; domain_mentioned := mentioned;
     specific_url := None; citation_position := rank;
     citation_context := None; full_response_text := "";
     response_summary := ""; sentiment := neutral;
     confidence_score := 5 # 10; word_count := 1;
     competitor_citations := []; total_sources_cited := 0 |}.

(** Two entries of the primary domain and one of a competitor. *)
Definition two_of_acme : AIPlatformResponse :=
  answer "Acme and Other sell CRM software."
         [cite "https://acme.com/a" "acme.com" 1;
          cite "https://www.acme.com/b" "www.acme.com" 2;
          cite "https://other.com/x" "other.com" 3]
         None.

(** The answer of the first scenario of the specification. *)
Definition acme_second : AIPlatformResponse :=
  answer "Acme.com is a leading provider."
         [cite "https://www.acme.com/guide" "www.acme.com" 2;
          cite "https://other.com/x" "other.com" 1]
         None.

(** Acme first, at rank 1, and one competitor. *)
Definition acme_first : AIPlatformResponse :=
  answer "Acme leads the field."
         [cite "https://www.acme.com/guide" "www.acme.com" 1;
          cite "https://other.com/x" "other.com" 2]
         None.

(** An answer that cites a competitor only. *)
Definition others_only : AIPlatformResponse :=
  answer "Other is a solid choice."
         [cite "https://other.com/x" "other.com" 1]
         None.

(** An answer whose text holds the character of code 0. *)
Definition with_nul : AIPlatformResponse :=
  answer (String Ascii.zero "Acme leads the field.")
         [cite "https://www.acme.com/guide" "www.acme.com" 1]
         None.

(** The provider refuses the query: the answer carries an error. *)
Definition rate_limited : AIPlatformResponse :=
  answer "" [] (Some "rate_limited").

(** Job 0 of the queue, for keyword [k1] on Gemini, with [retries]
    failures behind it. *)
Definition job (retries : nat) : TrackingJob :=
  {| j_id := 0; j_project_id := "p1"; j_keyword_id := "k1";
     j_platform := GEMINI; status := pending; scheduled_at := 5000;
     started_at := None; completed_at := None; citation_found := None;
     result_data := None; error_message := None;
     retry_count := retries |}.

Definition task : Worker.TrackingJobData :=
  {| Worker.jobId := 0; Worker.projectId := "p1";
     Worker.keywordId := "k1"; Worker.job_platform := GEMINI |}.

(** The message of job 0 after its keyword was replaced: it names a
    keyword the store no longer has. *)
Definition stray_task : Worker.TrackingJobData :=
  {| Worker.jobId := 0; Worker.projectId := "p1";
     Worker.keywordId := "6f1d2c3a-0b7e-4c59-9a41-2d8e5f60b7c3";
     Worker.job_platform := GEMINI |}.

(** A schedule request for the active keywords of [p1] on Gemini, at a
    given instant. *)
Definition batch : Routes.ScheduleBody :=
  {| Routes.body_project_id := "p1"; Routes.keyword_ids := None;
     Routes.body_platforms := Some [GEMINI];
     Routes.body_scheduled_at := Some 5000%Z |}.

End Sample.


(** The combination that identifies a planned job in the specification,
    and the status of the row. *)
Definition planned (j : TrackingJob)
  : string * string * AIPlatform * Time * JobStatus :=
  (j_project_id j, j_keyword_id j, j_platform j, scheduled_at j, status j).

(** The most recent citation of a keyword on a platform. *)
Definition most_recent (d : DB) (keywordId : string) (p : AIPlatform)
  : option Citation :=
  nth_error
    (Worker.order_by_tracked_at_desc
       (filter (fun c => String.eqb (keyword_id c) keywordId &&
                         platform_eqb (platform c) p)
               (citations d)))
    0.

(** Some character of [s] satisfies [f]. *)
Fixpoint has_char (f : ascii -> bool) (s : string) : bool :=
  match s with
  | EmptyString => false
  | String c s' => f c || has_char f s'
  end.

(** The status the specification gives a job whose processing raised,
    from its incremented [retry_count]. *)
Definition status_as_specified (maxRetries retry_count : nat) : JobStatus :=
  if (retry_count <? maxRetries)%nat then retrying else failed.

(** The invariant of the specification on a citation record: a citation
    that does not mention the domain has no position. *)
Definition position_only_if_mentioned (c : Citation) : Prop :=
  domain_mentioned c = false -> citation_position c = None.

(** A text of [n] copies of one character. *)
Fixpoint replicate (n : nat) (c : ascii) : string :=
  match n with
  | O => EmptyString
  | S n' => String c (replicate n' c)
  end.

(** The three bonuses, as the specification lists them. *)
Definition citation_bonus (r : AIPlatformResponse) : Q :=
  let n := List.length (response_citations r) in
  if (5 <=? n)%nat then 2 # 10 else if (3 <=? n)%nat then 1 # 10 else 0.

Definition time_bonus (r : AIPlatformResponse) : Q :=
  if (response_time_ms r <? 3000)%Z then 1 # 10 else 0.

Definition length_bonus (r : AIPlatformResponse) : Q :=
  if (500 <? String.length (response_text r))%nat then 1 # 10 else 0.

(** The number of places of [s] at which [sub] occurs. *)
Fixpoint occurrences (s sub : string) : nat :=
  (if String.prefix sub s then 1 else 0) +
  match s with
  | EmptyString => 0
  | String _ s' => occurrences s' sub
  end.

(** Counting as the specification words it: every occurrence of every
    word of the lexicon. *)
Definition occurrences_of (words : list string) (relevantText : string) : nat :=
  fold_right (fun w n => occurrences relevantText w + n)%nat 0%nat words.

Definition sentiment_as_specified (text target : string) : Sentiment :=
  match TrackingEngine.relevantSentences text target with
  | [] => neutral
  | kept =>
      let relevantText := JS.toLowerCase (JS.join " " kept) in
      let positiveCount := occurrences_of TrackingEngine.positiveWords relevantText in
      let negativeCount := occurrences_of TrackingEngine.negativeWords relevantText in
      if (negativeCount <? positiveCount)%nat then positive
      else if (positiveCount <? negativeCount)%nat then negative
      else neutral
  end.

(** Counting as the code does: the words of the lexicon that occur at
    all. *)
Definition words_occurring (words : list string) (relevantText : string)
  : nat :=
  List.length (filter (fun w => (0 <? occurrences relevantText w)%nat) words).

(** Running a computation: unfold the operations of the monad. *)
Ltac run := unfold bind, ret, throw, clock, call, read_db, write_db; simpl.

(** What the [catch] of [processTrackingJob] leaves of a row it was
    processing since [t]. *)
Definition after_failure (id : nat) (message : string) (t : Time)
    (j : TrackingJob) : TrackingJob :=
  if (j_id j =? id)%nat then Worker.set_failed message (Worker.set_processing t j) else j.

(* ===================================================================== *)
(** * The tracking engine, continued: a whole project                    *)
(* ===================================================================== *)

Module ProjectTracking.

Import TrackingEngine.

Record TrackProjectOptions : Type := {
  platforms : option (list AIPlatform);
  keywordFilter : option (list string)
}.

Record TrackProjectResult : Type := {
  totalKeywords : nat;
  successfulTracks : nat;
  failedTracks : nat;
  newCitations : nat
}.

(** [await this.sleep(ms)] *)
Definition sleep (ms : Z) : M unit :=
  fun w => (Returns tt, {| db := db w; now := (now w + ms)%Z |}).

(** [options?.platforms], with the default of the parameter of
    [trackKeyword] when it is [undefined]. *)
Definition platforms_of (options : option TrackProjectOptions)
  : list AIPlatform :=
  match options with
  | Some o =>
      match platforms o with
      | Some l => l
      | None => all_platforms
      end
  | None => all_platforms
  end.

(** [options?.keywordFilter?.length] *)
Definition filter_of (options : option TrackProjectOptions)
  : option (list string) :=
  match options with
  | Some o =>
      match keywordFilter o with
      | Some (id :: ids) => Some (id :: ids)
      | _ => None
      end
  | None => None
  end.

(** [SELECT * FROM keywords WHERE project_id = $1 AND is_active = true],
    with [AND id = ANY($2)] when a filter is given. *)
Definition selected (projectId : string) (ids : option (list string))
    (k : Keyword) : bool :=
  String.eqb (k_project_id k) projectId && k_is_active k &&
  match ids with
  | Some l => existsb (String.eqb (k_id k)) l
  | None => true
  end.

(** The body of [results.forEach]. *)
Definition count_result (acc : TrackProjectResult) (result : TrackResult)
  : TrackProjectResult :=
  if success result then
    {| totalKeywords := totalKeywords acc;
       successfulTracks := S (successfulTracks acc);
       failedTracks := failedTracks acc;
       newCitations :=
         match citation result with
         | Some c => if domain_mentioned c then S (newCitations acc)
                     else newCitations acc
         | None => newCitations acc
         end |}
  else
    {| totalKeywords := totalKeywords acc;
       successfulTracks := successfulTracks acc;
       failedTracks := S (failedTracks acc);
       newCitations := newCitations acc |}.

Definition count_failure (acc : TrackProjectResult) : TrackProjectResult :=
  {| totalKeywords := totalKeywords acc;
     successfulTracks := successfulTracks acc;
     failedTracks := S (failedTracks acc);
     newCitations := newCitations acc |}.

(** The loop over the keywords: a [try] around [trackKeyword], then a
    pause of one second. *)
Fixpoint track_keywords (cfg : TrackingEngineConfig) (project : Project)
    (platformList : list AIPlatform) (keywordRows : list Keyword)
    (acc : TrackProjectResult) : M TrackProjectResult :=
  match keywordRows with
  | [] => ret acc
  | keyword :: rest =>
      acc' <- try_catch
                (results <- trackKeyword cfg keyword project platformList ;;
                 ret (fold_left count_result results acc))
                (fun _ => ret (count_failure acc)) ;;
      sleep 1000 ;;;
      track_keywords cfg project platformList rest acc'
  end.

(** Track all active keywords for a project. *)
Definition trackProject (cfg : TrackingEngineConfig) (projectId : string)
    (options : option TrackProjectOptions) : M TrackProjectResult :=
  d <- read_db ;;
  Store.reading [Store.uuid d projectId] ;;;
  match find (fun p => String.eqb (p_id p) projectId) (projects d) with
  | None => throw ("Project " ++ projectId ++ " not found")
  | Some project =>
      Store.reading (Store.uuid d projectId
                     :: match filter_of options with
                        | Some ids => map (Store.uuid d) ids
                        | None => []
                        end) ;;;
      let keywordRows :=
        filter (selected projectId (filter_of options)) (keywords d) in
      track_keywords cfg project (platforms_of options) keywordRows
        {| totalKeywords := List.length keywordRows;
           successfulTracks := 0; failedTracks := 0; newCitations := 0 |}
  end.

Record TrackingStatus : Type := {
  status_total : nat;
  trackedKeywords : nat;
  pendingKeywords : nat;
  lastTrackTime : option Time
}.

(** [MAX(last_tracked_at)], [NULL] over no value. *)
Definition latest (ks : list Keyword) : option Time :=
  fold_right
    (fun k m =>
       match last_tracked_at k, m with
       | Some t, Some t' => Some (Z.max t t')
       | Some t, None => Some t
       | None, _ => m
       end)
    None ks.

Definition is_tracked (k : Keyword) : bool :=
  match last_tracked_at k with
  | Some _ => true
  | None => false
  end.

(** Get tracking status for a project. *)
Definition getProjectTrackingStatus (projectId : string) : M TrackingStatus :=
  d <- read_db ;;
  Store.reading [Store.uuid d projectId] ;;;
  let ks := filter (selected projectId None) (keywords d) in
  ret {| status_total := List.length ks;
         trackedKeywords := List.length (filter is_tracked ks);
         pendingKeywords :=
           List.length (filter (fun k => negb (is_tracked k)) ks);
         lastTrackTime := latest ks |}.

End ProjectTracking.

(* ===================================================================== *)
(** * The scoring service, continued: the other components               *)
(* ===================================================================== *)

Module ScoreComponents.

Import Scoring.

(** [parseFloat(row.avg_position) || 99]: [NULL] and 0 give 99. *)
Definition position_or_99 (row : Row) : Q :=
  match avg_position row with
  | Some q => if Qeq_bool q 0 then 99 else q
  | None => 99
  end.

(** [rows.reduce((sum, row) => sum + citations * position, 0)] *)
Definition weightedPositionSum (rows : list Row) : Q :=
  fold_left
    (fun sum row => sum + Q_of_nat (citation_count row) * position_or_99 row)
    rows 0.

(** Calculate position score (30% weight). *)
Definition calculatePositionScore (rows : list Row) : Q :=
  match rows with
  | [] => 0
  | _ =>
      if (totalCitations rows =? 0)%nat then 0
      else
        let avgPosition :=
          weightedPositionSum rows / Q_of_nat (totalCitations rows) in
        Qmax 0 (100 - (avgPosition - 1) * 11)
  end.

(** Calculate platform diversity score (15% weight);
    [Object.keys(AIPlatform).length] is the number of platforms. *)
Definition calculateDiversityScore (rows : list Row) : Q :=
  let platformsWithCitations :=
    List.length (filter (fun r => (0 <? citation_count r)%nat) rows) in
  let totalPlatforms := List.length all_platforms in
  (Q_of_nat platformsWithCitations / Q_of_nat totalPlatforms) * 100.

(** The two sums of [calculateContextScore], as its [forEach] leaves
    them: all mentions with a sentiment, and the positive ones. *)
Definition context_sums (rows : list Row) : nat * nat :=
  fold_left
    (fun sums row =>
       let positive := positive_mentions row in
       let negative := negative_mentions row in
       (fst sums + (positive + negative), snd sums + positive)%nat)
    rows (0, 0)%nat.

(** Calculate context/sentiment score (10% weight). *)
Definition calculateContextScore (rows : list Row) : Q :=
  let (totalMentions, positiveMentions) := context_sums rows in
  if (totalMentions =? 0)%nat then 50
  else (Q_of_nat positiveMentions / Q_of_nat totalMentions) * 100.

Definition day : Z := 24 * 60 * 60 * 1000.
Definition week : Z := 7 * day.

(** [DATE_TRUNC('week', t)]: the Monday, at midnight, of the week of
    [t], in a session whose time zone is UTC.  Instant 0 is a Thursday,
    and instant [4 * day] the first Monday after it. *)
Definition week_start (t : Time) : Time :=
  (t - (t - 4 * day) mod week)%Z.

(** The two counts of [calculateMomentumScore]. *)
Definition citations_this_week (d : DB) (t : Time) (projectId : string)
  : nat :=
  count_filter
    (fun c => String.eqb (project_id c) projectId && domain_mentioned c &&
              (week_start t <=? tracked_at c)%Z)
    (citations d).

Definition citations_last_week (d : DB) (t : Time) (projectId : string)
  : nat :=
  count_filter
    (fun c => String.eqb (project_id c) projectId && domain_mentioned c &&
              (week_start (t - week) <=? tracked_at c)%Z &&
              (tracked_at c <? week_start t)%Z)
    (citations d).

(** The score [calculateMomentumScore] derives from the two counts. *)
Definition momentum (thisWeek lastWeek : nat) : Q :=
  if (lastWeek =? 0)%nat then
    if (0 <? thisWeek)%nat then 100 else 0
  else
    let growth :=
      ((Q_of_nat thisWeek - Q_of_nat lastWeek) / Q_of_nat lastWeek) * 100 in
    let normalizedGrowth := Qmax (-100) (Qmin 100 growth) in
    (normalizedGrowth + 100) / 2.

(** Calculate momentum score (5% weight), based on week-over-week
    growth. *)
Definition calculateMomentumScore (d : DB) (t : Time) (projectId : string)
  : Q :=
  momentum (citations_this_week d t projectId)
           (citations_last_week d t projectId).

(** Assign letter grade based on score. *)
Definition assignGrade (score : Q) : string :=
  if Qle_bool 90 score then "A+"
  else if Qle_bool 80 score then "A"
  else if Qle_bool 70 score then "B"
  else if Qle_bool 60 score then "C"
  else if Qle_bool 50 score then "D"
  else "F".

(** [Math.round(x)]: the nearest integer, halves upwards. *)
Definition round (x : Q) : Z := Qfloor (x + (1 # 2)).

(** [Math.round(x * 100) / 100] *)
Definition round2 (x : Q) : Q := inject_Z (round (x * 100)) / 100.

(** Calculate individual platform score. *)
Definition calculatePlatformScore (citationCount : nat) (avgPosition : Q)
    (keywordsRanked totalKeywords : nat) : Q :=
  let frequencyComponent := Qmin 40 ((Q_of_nat citationCount / 5) * 40) in
  let positionComponent :=
    if Qle_bool avgPosition 5 then ((6 - avgPosition) / 5) * 35 else 0 in
  let coverageComponent :=
    if (0 <? totalKeywords)%nat
    then (Q_of_nat keywordsRanked / Q_of_nat totalKeywords) * 25
    else 0 in
  round2 (frequencyComponent + positionComponent + coverageComponent).

Record PlatformScore : Type := {
  score : Q;
  citations_count : nat;
  ps_keywords_ranked : nat;
  ps_avg_position : Q;
  share_of_voice : Q
}.

Record VisibilityScore : Type := {
  vs_project_id : string;
  calculated_at : Time;
  platform_scores : list (AIPlatform * PlatformScore);
  overall_score : Q;
  overall_grade : string;
  frequency_score : Q;
  position_score : Q;
  diversity_score : Q;
  context_score : Q;
  momentum_score : Q;
  week_over_week_change : Q;
  month_over_month_change : Q
}.

Definition platform_score_of (totalKeywords : nat) (row : Row)
  : AIPlatform * PlatformScore :=
  let citationCount := citation_count row in
  let keywordsRanked := keywords_ranked row in
  let avgPosition := position_or_99 row in
  let sov :=
    if (0 <? totalKeywords)%nat
    then (Q_of_nat keywordsRanked / Q_of_nat totalKeywords) * 100
    else 0 in
  (row_platform row,
   {| score := calculatePlatformScore citationCount avgPosition
                                      keywordsRanked totalKeywords;
      citations_count := citationCount;
      ps_keywords_ranked := keywordsRanked;
      ps_avg_position := avgPosition;
      share_of_voice := sov |}).

(** The weighted sum of the five components. *)
Definition overall (frequencyScore positionScore diversityScore
                    contextScore momentumScore : Q) : Q :=
  frequencyScore * (40 # 100) + positionScore * (30 # 100) +
  diversityScore * (15 # 100) + contextScore * (10 # 100) +
  momentumScore * (5 # 100).

(** Calculate visibility score for a project: the record the function
    returns, and stores, when it runs at instant [t] on the store [d]. *)
Definition calculateVisibilityScore (d : DB) (t : Time) (projectId : string)
  : VisibilityScore :=
  let rows := select_citation_rows d projectId (t - thirty_days)%Z in
  let totalKeywords := count_active_keywords d projectId in
  let frequencyScore := calculateFrequencyScore rows totalKeywords in
  let positionScore := calculatePositionScore rows in
  let diversityScore := calculateDiversityScore rows in
  let contextScore := calculateContextScore rows in
  let momentumScore := calculateMomentumScore d t projectId in
  let overallScore :=
    overall frequencyScore positionScore diversityScore contextScore
            momentumScore in
  {| vs_project_id := projectId;
     calculated_at := t;
     platform_scores := map (platform_score_of totalKeywords) rows;
     overall_score := round2 overallScore;
     overall_grade := assignGrade overallScore;
     frequency_score := round2 frequencyScore;
     position_score := round2 positionScore;
     diversity_score := round2 diversityScore;
     context_score := round2 contextScore;
     momentum_score := round2 momentumScore;
     week_over_week_change := 0;
     month_over_month_change := 0 |}.

End ScoreComponents.


(* ===================================================================== *)
(** * Share of voice ([services/scoring.ts], [calculateShareOfVoice])    *)
(* ===================================================================== *)

Module ShareOfVoice.

Import Scoring ScoreComponents.

(** [domainCounts]: an object used as a counter.  Every read of it is
    [domainCounts[k] || 0], so it is kept as the function that read
    computes; names of [Object.prototype] are not domains. *)
Definition Counts : Type := string -> nat.

Definition no_counts : Counts := fun _ => 0%nat.

(** [domainCounts[k] = (domainCounts[k] || 0) + 1] *)
Definition incr (counts : Counts) (k : string) : Counts :=
  fun k' => if String.eqb k' k then (counts k + 1)%nat else counts k'.

Record Tally : Type := {
  domainCounts : Counts;
  totalMentions : nat
}.

Definition mention (acc : Tally) (domain : string) : Tally :=
  {| domainCounts := incr (domainCounts acc) domain;
     totalMentions := (totalMentions acc + 1)%nat |}.

(** Count competitor mentions: [if (c.domain) { ... }]. *)
Definition count_competitor (acc : Tally) (c : CompetitorCitation) : Tally :=
  if JS.truthy_string (Some (cc_domain c))
  then mention acc (cc_domain c)
  else acc.

(** The body of [citationsResult.rows.forEach]. *)
Definition count_row (yourDomain : string) (acc : Tally) (row : Citation)
  : Tally :=
  let acc := if domain_mentioned row then mention acc yourDomain else acc in
  fold_left count_competitor (competitor_citations row) acc.

(** [projectResult.rows[0]?.primary_domain || ''] *)
Definition yourDomain_of (d : DB) (projectId : string) : string :=
  match find (fun p => String.eqb (p_id p) projectId) (projects d) with
  | Some p => primary_domain p
  | None => ""
  end.

Definition tally (d : DB) (t : Time) (projectId : string) : Tally :=
  fold_left (count_row (yourDomain_of d projectId))
            (filter (in_window projectId (t - thirty_days)%Z) (citations d))
            {| domainCounts := no_counts; totalMentions := 0 |}.

(** [totalMentions > 0 ? ((domainCounts[domain] || 0) / totalMentions) * 100
    : 0] *)
Definition share (acc : Tally) (domain : string) : Q :=
  if (0 <? totalMentions acc)%nat
  then (Q_of_nat (domainCounts acc domain) / Q_of_nat (totalMentions acc))
       * 100
  else 0.

Record Shares : Type := {
  yourShare : Q;
  competitorShares : list (string * Q);
  shares_totalMentions : nat
}.

(** Calculate share of voice for a project, at instant [t] on the store
    [d].  [competitorShares] lists the entries in the order the loop
    assigns them. *)
Definition calculateShareOfVoice (d : DB) (t : Time) (projectId : string)
    (competitorDomains : list string) : Shares :=
  let acc := tally d t projectId in
  {| yourShare := round2 (share acc (yourDomain_of d projectId));
     competitorShares :=
       map (fun domain => (domain, share acc domain)) competitorDomains;
     shares_totalMentions := totalMentions acc |}.

End ShareOfVoice.

(* ===================================================================== *)
(** * Daily metrics ([services/scoring.ts], [generateDailyMetrics])      *)
(* ===================================================================== *)

Module DailyMetrics.

Import Scoring ScoreComponents.

(** A row of [daily_metrics]; [dm_date] is the day number of the date. *)
Record DailyMetric : Type := {
  dm_project_id : string;
  dm_date : Z;
  dm_platform : AIPlatform;
  total_keywords_tracked : nat;
  keywords_with_citations : nat;
  total_citations : nat;
  avg_citation_position : option Q;
  first_position_citations : nat;
  top3_citations : nat;
  share_of_voice_percent : option Q;
  dm_positive_mentions : nat;
  dm_neutral_mentions : nat;
  dm_negative_mentions : nat
}.

(** [date.toISOString().split('T')[0]] and [DATE(tracked_at)], in a
    session whose time zone is UTC: the day of an instant. *)
Definition date_of (t : Time) : Z := (t / day)%Z.

(** [WHERE project_id = $1 AND DATE(tracked_at) = $2::date] *)
Definition on_day (projectId : string) (date : Z) (c : Citation) : bool :=
  String.eqb (project_id c) projectId && (date_of (tracked_at c) =? date)%Z.

(** [domain_mentioned = true AND citation_position <op> n]; a [NULL]
    position satisfies no comparison. *)
Definition mentioned_at (f : Z -> bool) (c : Citation) : bool :=
  domain_mentioned c &&
  match citation_position c with
  | Some z => f z
  | None => false
  end.

Definition is_neutral (c : Citation) : bool :=
  match sentiment c with neutral => true | _ => false end.

(** The row the [SELECT] computes for one group of [GROUP BY platform]. *)
Definition metric_of (projectId : string) (date : Z) (cs : list Citation)
    (p : AIPlatform) : DailyMetric :=
  let g := filter (fun c => platform_eqb (platform c) p) cs in
  {| dm_project_id := projectId;
     dm_date := date;
     dm_platform := p;
     total_keywords_tracked :=
       List.length (nodup string_dec (map keyword_id g));
     keywords_with_citations :=
       List.length
         (nodup string_dec (map keyword_id (filter domain_mentioned g)));
     total_citations := count_filter domain_mentioned g;
     avg_citation_position := average (ranked_positions g);
     first_position_citations := count_filter (mentioned_at (Z.eqb 1)) g;
     top3_citations := count_filter (mentioned_at (fun z => z <=? 3)%Z) g;
     share_of_voice_percent := Some 0;
     dm_positive_mentions := count_filter is_positive g;
     dm_neutral_mentions := count_filter is_neutral g;
     dm_negative_mentions := count_filter is_negative g |}.

Definition select_metrics (d : DB) (projectId : string) (date : Z)
  : list DailyMetric :=
  let cs := filter (on_day projectId date) (citations d) in
  map (metric_of projectId date cs)
      (filter (fun p => existsb (fun c => platform_eqb (platform c) p) cs)
              all_platforms).

(** A [DECIMAL(4,2)] column rounds to hundredths and holds what is then
    below 100 in absolute value. *)
Definition fits_decimal_4_2 (q : Q) : bool :=
  Qle_bool (- (9999 # 100)) (Alerts.decimal_2 q) &&
  Qle_bool (Alerts.decimal_2 q) (9999 # 100).

Definition fits (m : DailyMetric) : bool :=
  match avg_citation_position m with
  | Some q => fits_decimal_4_2 q
  | None => true
  end.

(** The row as its columns keep it. *)
Definition kept (m : DailyMetric) : DailyMetric :=
  {| dm_project_id := dm_project_id m;
     dm_date := dm_date m;
     dm_platform := dm_platform m;
     total_keywords_tracked := total_keywords_tracked m;
     keywords_with_citations := keywords_with_citations m;
     total_citations := total_citations m;
     avg_citation_position :=
       option_map Alerts.decimal_2 (avg_citation_position m);
     first_position_citations := first_position_citations m;
     top3_citations := top3_citations m;
     share_of_voice_percent := share_of_voice_percent m;
     dm_positive_mentions := dm_positive_mentions m;
     dm_neutral_mentions := dm_neutral_mentions m;
     dm_negative_mentions := dm_negative_mentions m |}.

(** [UNIQUE(project_id, date, platform)] *)
Definition same_key (a b : DailyMetric) : bool :=
  String.eqb (dm_project_id a) (dm_project_id b) &&
  (dm_date a =? dm_date b)%Z &&
  platform_eqb (dm_platform a) (dm_platform b).

(** [DO UPDATE SET c = EXCLUDED.c] for the nine columns the statement
    lists; the share of voice of the row stays. *)
Definition excluded (new old : DailyMetric) : DailyMetric :=
  {| dm_project_id := dm_project_id old;
     dm_date := dm_date old;
     dm_platform := dm_platform old;
     total_keywords_tracked := total_keywords_tracked new;
     keywords_with_citations := keywords_with_citations new;
     total_citations := total_citations new;
     avg_citation_position := avg_citation_position new;
     first_position_citations := first_position_citations new;
     top3_citations := top3_citations new;
     share_of_voice_percent := share_of_voice_percent old;
     dm_positive_mentions := dm_positive_mentions new;
     dm_neutral_mentions := dm_neutral_mentions new;
     dm_negative_mentions := dm_negative_mentions new |}.

(** [INSERT ... ON CONFLICT (project_id, date, platform) DO UPDATE] of
    one row. *)
Definition upsert (table : list DailyMetric) (new : DailyMetric)
  : list DailyMetric :=
  if existsb (same_key new) table
  then map (fun old => if same_key new old then excluded new old else old)
           table
  else (table ++ [new])%list.

(** Generate daily metrics for a project: the table after the statement,
    or the error that leaves it as it was. *)
Definition generateDailyMetrics (d : DB) (table : list DailyMetric)
    (projectId : string) (date : Time) : Outcome (list DailyMetric) :=
  let rows := select_metrics d projectId (date_of date) in
  if forallb fits rows
  then Returns (fold_left upsert (map kept rows) table)
  else Throws "numeric field overflow".

End DailyMetrics.

(* ===================================================================== *)
(** * The alert routes ([routes/alerts.ts])                              *)
(* ===================================================================== *)

Module AlertRoutes.

Import Scoring.

(** A row of [alerts]: what [createAlert] stored, the key the store gave
    it, and the columns of its status.  [is_read] defaults to [false] and
    no statement of the application sets it to [NULL]. *)
Record AlertRow : Type := {
  ar_id : string;
  ar_alert : Alert;
  is_read : bool;
  read_at : option Time;
  read_by : option string
}.

(** [organization_id = $n] *)
Definition of_org (organizationId : string) (r : AlertRow) : bool :=
  String.eqb (a_organization_id (ar_alert r)) organizationId.

Definition has_severity (s : Severity) (r : AlertRow) : bool :=
  match severity (ar_alert r), s with
  | info, info | warning, warning | critical, critical => true
  | _, _ => false
  end.

Record UnreadCount : Type := {
  unreadCount : nat;
  criticalUnread : nat;
  warningUnread : nat
}.

(** [GET /unread-count] *)
Definition unread_count (organizationId : string) (table : list AlertRow)
  : UnreadCount :=
  let rows :=
    filter (fun r => of_org organizationId r && negb (is_read r)) table in
  {| unreadCount := List.length rows;
     criticalUnread := count_filter (has_severity critical) rows;
     warningUnread := count_filter (has_severity warning) rows |}.

(** [SET is_read = true, read_at = NOW(), read_by = $n] *)
Definition read_now (userId : string) (t : Time) (r : AlertRow) : AlertRow :=
  {| ar_id := ar_id r; ar_alert := ar_alert r; is_read := true;
     read_at := Some t; read_by := Some userId |}.

(** [WHERE id = $1 AND organization_id = $2] *)
Definition is_alert (id organizationId : string) (r : AlertRow) : bool :=
  String.eqb (ar_id r) id && of_org organizationId r.

(** [PATCH /:id/read]: the answer and the table after it. *)
Definition mark_read (id organizationId userId : string) (t : Time)
    (table : list AlertRow) : Outcome AlertRow * list AlertRow :=
  let table' :=
    map (fun r => if is_alert id organizationId r then read_now userId t r
                  else r)
        table in
  match map (read_now userId t) (filter (is_alert id organizationId) table)
  with
  | [] => (Throws "Alert not found", table')
  | row :: _ => (Returns row, table')
  end.

(** [WHERE organization_id = $1 AND is_read = false], and
    [AND project_id = $3] when the body names a project. *)
Definition to_mark (organizationId : string) (project_id : option string)
    (r : AlertRow) : bool :=
  of_org organizationId r && negb (is_read r) &&
  (if JS.truthy_string project_id
   then match project_id with
        | Some p => String.eqb (a_project_id (ar_alert r)) p
        | None => true
        end
   else true).

(** [POST /mark-all-read]: the count of the answer and the table after
    it. *)
Definition mark_all_read (organizationId userId : string)
    (project_id : option string) (t : Time) (table : list AlertRow)
  : nat * list AlertRow :=
  (List.length (filter (to_mark organizationId project_id) table),
   map (fun r => if to_mark organizationId project_id r
                 then read_now userId t r else r)
       table).

(** [DELETE /:id]: the answer and the table after it. *)
Definition delete_alert (id organizationId : string) (table : list AlertRow)
  : Outcome string * list AlertRow :=
  let table' := filter (fun r => negb (is_alert id organizationId r)) table in
  match filter (is_alert id organizationId) table with
  | [] => (Throws "Alert not found", table')
  | _ :: _ => (Returns "Alert deleted successfully", table')
  end.

End AlertRoutes.

(* ===================================================================== *)
(** * The services of the platforms: what they make of an answer         *)
(** ([services/serpapi.ts], [services/openai.ts], [services/gemini.ts],  *)
(**  [services/perplexity.ts])                                           *)
(* ===================================================================== *)

Module Adapters.

(** [a || b] on values that are strings or [undefined]. *)
Definition or_else (a b : option string) : option string :=
  if JS.truthy_string a then a else b.

(** [a || ''] *)
Definition or_empty (a : option string) : string :=
  match or_else a (Some "") with
  | Some s => s
  | None => ""
  end.

(** [l.map((x, index) => f(x, index))], from index [i]. *)
Fixpoint map_index {A B : Type} (f : A -> nat -> B) (i : nat) (l : list A)
  : list B :=
  match l with
  | [] => []
  | x :: l' => f x i :: map_index f (S i) l'
  end.

Section UrlParser.

(** [new URL(url).hostname], [None] when the constructor throws. *)
Variable hostname : string -> option string.

(** Extract domain from URL. *)
Definition extractDomain (url : string) : string :=
  match hostname url with
  | Some h => JS.strip_www h
  | None => ""
  end.

(** The same in the SERP service, which first answers [''] to a value
    that is falsy. *)
Definition extractDomain_serp (url : option string) : string :=
  if JS.truthy_string url
  then match url with
       | Some u => extractDomain u
       | None => ""
       end
  else "".

(** A reference as the SERP answer carries it. *)
Record RawReference : Type := {
  raw_title : option string;
  raw_name : option string;
  raw_link : option string;
  raw_url : option string;
  raw_source : option string;
  raw_displayed_link : option string;
  raw_date : option string;
  raw_date_published : option string
}.

Record SerpReference : Type := {
  ref_title : string;
  ref_link : string;
  ref_source : string;
  ref_date : option string
}.

Record AIOOverviewResult : Type := {
  text_block : option string;
  references : list SerpReference;
  serpapi_link : option string
}.

(** Parse references from AI Overview; [None] is a value that is no
    array. *)
Definition parseReferences (refs : option (list RawReference))
  : list SerpReference :=
  match refs with
  | None => []
  | Some refs =>
      filter (fun ref => JS.truthy_string (Some (ref_link ref)))
        (map_index
           (fun ref index =>
              {| ref_title :=
                   match or_else (raw_title ref) (raw_name ref) with
                   | Some s =>
                       if JS.truthy_string (Some s) then s
                       else "Source " ++ JS.toString (Z.of_nat index + 1)
                   | None => "Source " ++ JS.toString (Z.of_nat index + 1)
                   end;
                 ref_link := or_empty (or_else (raw_link ref) (raw_url ref));
                 ref_source :=
                   match or_else (raw_source ref) (raw_displayed_link ref)
                   with
                   | Some s =>
                       if JS.truthy_string (Some s) then s
                       else extractDomain_serp
                              (or_else (raw_link ref) (raw_url ref))
                   | None =>
                       extractDomain_serp
                         (or_else (raw_link ref) (raw_url ref))
                   end;
                 ref_date := or_else (raw_date ref) (raw_date_published ref)
              |})
           0 refs)
  end.

(** The AI Overview as the SERP answer carries it. *)
Record RawOverview : Type := {
  raw_text_block : option string;
  raw_snippet : option string;
  raw_text : option string;
  raw_references : option (list RawReference);
  raw_links : option (list RawReference);
  raw_serpapi_link : option string
}.

(** The places of a SERP answer where an AI Overview may be. *)
Record SerpResponse : Type := {
  ai_overview : option RawOverview;
  aiOverview : option RawOverview;
  answer_box_ai_overview : option RawOverview
}.

Definition first_of {A : Type} (a b : option A) : option A :=
  match a with
  | Some _ => a
  | None => b
  end.

(** Extract AI Overview from SERP response. *)
Definition extractAIOOverview (response : SerpResponse)
  : option AIOOverviewResult :=
  match first_of (ai_overview response)
          (first_of (aiOverview response) (answer_box_ai_overview response))
  with
  | None => None
  | Some o =>
      Some {| text_block :=
                or_else (raw_text_block o)
                        (or_else (raw_snippet o) (raw_text o));
              references :=
                parseReferences (first_of (raw_references o) (raw_links o));
              serpapi_link := raw_serpapi_link o |}
  end.

(** Extract citations from AI Overview. *)
Definition extractCitationsFromAIOOverview
    (overview : option AIOOverviewResult) : list AICitation :=
  match overview with
  | None => []
  | Some o =>
      map_index
        (fun ref index =>
           {| url := ref_link ref;
              title := Some (ref_title ref);
              snippet := Some "";
              position := Z.of_nat index + 1;
              domain := extractDomain_serp (Some (ref_link ref));
              is_you := false |})
        0 (references o)
  end.

(** The answer [searchWithAIOOverview] makes of a SERP response that
    took [responseTime]. *)
Definition serp_answer (keyword : string) (response : SerpResponse)
    (responseTime : Z) : AIPlatformResponse :=
  let overview := extractAIOOverview response in
  {| response_platform := GOOGLE_AI_OVERVIEW;
     query := keyword;
     response_text :=
       or_empty (match overview with
                 | Some o => text_block o
                 | None => None
                 end);
     response_citations := extractCitationsFromAIOOverview overview;
     response_time_ms := responseTime;
     response_error := None |}.

(** Extract citations from Perplexity response: the array of URLs of the
    answer, [None] an entry that is no string. *)
Definition perplexity_citations (citationUrls : list (option string))
  : list AICitation :=
  flat_map (fun c => c)
    (map_index
       (fun url index =>
          if JS.truthy_string url
          then match url with
               | Some u =>
                   [{| url := u; title := Some ""; snippet := Some "";
                       position := Z.of_nat index + 1;
                       domain := extractDomain u; is_you := false |}]
               | None => []
               end
          else [])
       0 citationUrls).

End UrlParser.

(** The [Map] of the OpenAI service, from URL to citation, in the order
    of insertion. *)
Definition UrlMap : Type := list (string * AICitation).

Definition map_get (seen : UrlMap) (k : string) : option AICitation :=
  option_map snd (find (fun e => String.eqb (fst e) k) seen).

(** [seen.set(k, v)]: a key that is present keeps its place. *)
Fixpoint map_set (seen : UrlMap) (k : string) (v : AICitation) : UrlMap :=
  match seen with
  | [] => [(k, v)]
  | (k', v') :: seen' =>
      if String.eqb k' k then (k', v) :: seen'
      else (k', v') :: map_set seen' k v
  end.

(** The body of [citations.forEach]. *)
Definition keep_best (seen : UrlMap) (c : AICitation) : UrlMap :=
  match map_get seen (url c) with
  | None => map_set seen (url c) c
  | Some existing =>
      if JS.truthy_string (title c) && negb (JS.truthy_string (title existing))
      then map_set seen (url c) c
      else seen
  end.

(** [{ ...c, position: i + 1 }] *)
Definition at_position (c : AICitation) (i : nat) : AICitation :=
  {| url := url c; title := title c; snippet := snippet c;
     position := Z.of_nat i + 1; domain := domain c; is_you := is_you c |}.

(** Deduplicate citations by URL (the OpenAI service). *)
Definition deduplicateCitations (citations : list AICitation)
  : list AICitation :=
  map_index at_position 0 (map snd (fold_left keep_best citations [])).

(** Deduplicate citations by URL (the Gemini service):
    [citations.filter] with the [Set] of the URLs seen. *)
Fixpoint unseen (seen : list string) (citations : list AICitation)
  : list AICitation :=
  match citations with
  | [] => []
  | c :: rest =>
      if existsb (String.eqb (url c)) seen then unseen seen rest
      else c :: unseen (url c :: seen) rest
  end.

Definition deduplicateCitations_gemini (citations : list AICitation)
  : list AICitation :=
  unseen [] citations.

End Adapters.

(* ===================================================================== *)
(** * The rate limits of the services                                    *)
(* ===================================================================== *)

Module RateLimit.

(** [this.config.rateLimitPerMinute || 60]: the limit configured, or the
    default when it is [undefined] or 0. *)
Definition limit_of (configured : option Z) (default : Z) : Z :=
  if JS.truthy_number configured
  then match configured with
       | Some z => z
       | None => default
       end
  else default.

(** What [checkRateLimit] does before it records the request: nothing, or
    [await this.sleep(waitTime)]; [waitTime] is [NaN] when there is no
    oldest timestamp. *)
Inductive Wait : Type :=
| no_wait
| wait_for (waitTime : Z)
| wait_NaN.

(** Check and enforce rate limit (the Gemini, Perplexity and OpenAI
    services), called at instant [now]: the timestamps after the call and
    the wait on the way. *)
Definition checkRateLimit (limit : Z) (now : Time)
    (requestTimestamps : list Time) : list Time * Wait :=
  let oneMinuteAgo := (now - 60000)%Z in
  let requestTimestamps :=
    filter (fun t => (oneMinuteAgo <? t)%Z) requestTimestamps in
  let wait :=
    if (limit <=? Z.of_nat (List.length requestTimestamps))%Z
    then match requestTimestamps with
         | oldestTimestamp :: _ =>
             wait_for (60000 - (now - oldestTimestamp))%Z
         | [] => wait_NaN
         end
    else no_wait in
  ((requestTimestamps ++ [now])%list, wait).

(** The instant the request goes out when the timer fires as it is due;
    a delay that is no number counts as 1. *)
Definition request_at (now : Time) (wait : Wait) : Time :=
  match wait with
  | no_wait => now
  | wait_for waitTime => (now + waitTime)%Z
  | wait_NaN => (now + 1)%Z
  end.

(** Calls one after another, each begun at its instant: the instants
    their requests go out. *)
Fixpoint requests (limit : Z) (calls : list Time)
    (requestTimestamps : list Time) : list Time :=
  match calls with
  | [] => []
  | now :: calls' =>
      let '(requestTimestamps', wait) :=
        checkRateLimit limit now requestTimestamps in
      request_at now wait :: requests limit calls' requestTimestamps'
  end.

Section Months.

(** [date.getMonth()] *)
Variable getMonth : Time -> Z.

(** The counter of the SERP service. *)
Record Quota : Type := {
  monthlyRequests : Z;
  lastResetDate : Time
}.

(** [this.config.rateLimitPerMonth || 250] *)
Definition monthly_limit (configured : option Z) : Z :=
  limit_of configured 250.

(** Check and enforce rate limit (the SERP service). *)
Definition checkRateLimit_serp (limit : Z) (now : Time) (q : Quota)
  : Outcome unit * Quota :=
  let q :=
    if (getMonth now =? getMonth (lastResetDate q))%Z then q
    else {| monthlyRequests := 0; lastResetDate := now |} in
  if (limit <=? monthlyRequests q)%Z
  then (Throws "Monthly SERP API rate limit exceeded", q)
  else (Returns tt, {| monthlyRequests := monthlyRequests q + 1;
                       lastResetDate := lastResetDate q |}).

Record QuotaInfo : Type := {
  used : Z;
  quota_limit : Z;
  remaining : Z;
  resetDate : Time
}.

(** Get remaining quota. *)
Definition getQuotaInfo (limit : Z) (q : Quota) : QuotaInfo :=
  {| used := monthlyRequests q;
     quota_limit := limit;
     remaining := limit - monthlyRequests q;
     resetDate := lastResetDate q |}.

(** Calls one after another: the counter after them and the number of
    them that passed. *)
Fixpoint checks (limit : Z) (calls : list Time) (q : Quota) : nat * Quota :=
  match calls with
  | [] => (0%nat, q)
  | now :: calls' =>
      let '(outcome, q') := checkRateLimit_serp limit now q in
      let '(passed, q'') := checks limit calls' q' in
      (match outcome with
       | Returns _ => S passed
       | Throws _ => passed
       end, q'')
  end.

End Months.

End RateLimit.
(* ===================================================================== *)
(** * Vocabulary of the further properties                               *)
(* ===================================================================== *)

From Stdlib Require Import Sorted.

(** The platforms [trackOnPlatform] has a case for. *)
Definition supported (p : AIPlatform) : bool :=
  match p with
  | GEMINI | GOOGLE_AI_OVERVIEW | PERPLEXITY | CHATGPT => true
  | _ => false
  end.

(** The service [trackOnPlatform] asks for a platform. *)
Definition service_of (cfg : TrackingEngine.TrackingEngineConfig)
    (p : AIPlatform) : option Adapter :=
  match p with
  | GEMINI => TrackingEngine.geminiService cfg
  | GOOGLE_AI_OVERVIEW => TrackingEngine.serpApiService cfg
  | PERPLEXITY => TrackingEngine.perplexityService cfg
  | CHATGPT => TrackingEngine.openaiService cfg
  | _ => None
  end.

(** The citation [c] is the analysis of an answer the service of
    platform [p] gave, without an error, to the text of the keyword; it
    is dated at the instant the answer came. *)
Definition answer_analysed (cfg : TrackingEngine.TrackingEngineConfig)
    (keyword : Keyword) (project : Project) (p : AIPlatform) (c : Citation)
  : Prop :=
  exists a t response elapsed,
    service_of cfg p = Some a /\
    a (keyword_text keyword) t = (Returns response, elapsed) /\
    JS.truthy_string (response_error response) = false /\
    c = TrackingEngine.analyze keyword project p (t + elapsed)%Z response.

(** The citation a result has the engine store. *)
Definition to_store (r : TrackResult) : list Citation :=
  if success r then
    match citation r with
    | Some c => [c]
    | None => []
    end
  else [].

(** The store takes the citation. *)
Definition accepts (d : DB) (c : Citation) : bool :=
  match Store.rejects_citation d c with
  | None => true
  | Some _ => false
  end.

(** The citation of a result that the store takes. *)
Definition stored_for (d : DB) (r : TrackResult) : list Citation :=
  filter (accepts d) (to_store r).

(** What a turn of the loop of [trackKeyword] pushes for the result [r]
    of [trackOnPlatform]: [r], and after it the failure of the [catch]
    when the store rejects the citation of [r]. *)
Definition pushed_for (d : DB) (p : AIPlatform) (r : TrackResult)
  : list TrackResult :=
  r :: flat_map (fun c =>
                   match Store.rejects_citation d c with
                   | Some e => [TrackingEngine.failure e p 0]
                   | None => []
                   end)
                (to_store r).

(** What holds of the result the engine gives for platform [p]. *)
Definition result_of (p : AIPlatform) (r : TrackResult) : Prop :=
  result_platform r = p /\
  (success r = true <-> citation r <> None) /\
  (forall c, citation r = Some c -> platform c = p) /\
  (supported p = false ->
   r = TrackingEngine.failure
         ("Platform " ++ platform_value p ++ " not supported") p 0).

(** The result [r] is what [trackOnPlatform] made of platform [p], or the
    failure the [catch] of the loop made of its exception. *)
Definition first_result (cfg : TrackingEngine.TrackingEngineConfig)
    (keyword : Keyword) (project : Project) (p : AIPlatform) (r : TrackResult)
  : Prop :=
  result_of p r /\
  forall c, citation r = Some c -> answer_analysed cfg keyword project p c.



(** The store [d] with the rows [jobs] for [tracking_jobs]. *)
Definition with_jobs (d : DB) (jobs : list TrackingJob) : DB :=
  {| organizations := organizations d; projects := projects d;
     keywords := keywords d; citations := citations d;
     tracking_jobs := jobs; alerts := alerts d;
     next_uuid := next_uuid d |}.

(** The store [d] after [updateKeywordTrackingTime] at instant [t]. *)
Definition stamp (keywordId : string) (t : Time) (d : DB) : DB :=
  {| organizations := organizations d; projects := projects d;
     keywords := map (TrackingEngine.touch keywordId t) (keywords d);
     citations := citations d;
     tracking_jobs := tracking_jobs d; alerts := alerts d;
     next_uuid := next_uuid d |}.

(** A keyword row [k'] is the row [k] after a run that tracked the
    keywords [ids]: the same keyword, stamped if it is one of them, and
    still stamped if it was. *)
Definition stamped (ids : list string) (k k' : Keyword) : Prop :=
  k_id k' = k_id k /\
  k_project_id k' = k_project_id k /\
  keyword_text k' = keyword_text k /\
  k_is_active k' = k_is_active k /\
  (ProjectTracking.is_tracked k = true ->
   ProjectTracking.is_tracked k' = true) /\
  (In (k_id k) ids -> ProjectTracking.is_tracked k' = true).

(** The successful results of a list. *)
Definition successes (results : list TrackResult) : nat :=
  List.length (filter success results).

(** What [processTrackingJob] leaves of a row of the job it completed:
    processing since [t], completed at [t'] with [result]. *)
Definition after_completion (id : nat) (t t' : Time) (result : TrackResult)
    (j : TrackingJob) : TrackingJob :=
  if (j_id j =? id)%nat then
    Worker.set_completed t' (Worker.mentioned (citation result)) result
      (Worker.set_processing t j)
  else j.

(** The alerts [checkForAlerts] can create. *)
Definition per_citation_alert (a : Alert) : Prop :=
  a_organization_id a = "" /\
  (alert_type a = new_citation \/ alert_type a = lost_citation \/
   alert_type a = position_change).

(** The weighted sum of the positions, from the right. *)
Definition weighted (rows : list Scoring.Row) : Q :=
  fold_right
    (fun row acc =>
       Scoring.Q_of_nat (Scoring.citation_count row)
       * ScoreComponents.position_or_99 row + acc)
    0 rows.

(** The platforms on which some citation of [cs] was made. *)
Definition platforms_in (cs : list Citation) : list AIPlatform :=
  filter (fun p => existsb (fun c => platform_eqb (platform c) p) cs)
         all_platforms.

(** The citations of a project in the 30-day window, whether or not
    they mention the domain. *)
Definition in_the_window (d : DB) (t : Time) (projectId : string)
  : list Citation :=
  filter (Scoring.in_window projectId (t - Scoring.thirty_days)%Z)
         (citations d).


(** Every citation of the project that mentions the domain belongs to an
    active keyword of the project. *)
Definition of_active_keywords (d : DB) (projectId : string) : Prop :=
  forall c, In c (citations d) -> project_id c = projectId ->
            domain_mentioned c = true ->
            exists k, In k (keywords d) /\ k_id k = keyword_id c /\
                      k_project_id k = projectId /\ k_is_active k = true.

(** A platform score and its share of voice are percentages. *)
Definition percentages (ps : ScoreComponents.PlatformScore) : Prop :=
  (0 <= ScoreComponents.score ps /\ ScoreComponents.score ps <= 100) /\
  (0 <= ScoreComponents.share_of_voice ps /\
   ScoreComponents.share_of_voice ps <= 100).

(** The competitor entries of a citation that carry a domain. *)
Definition named_competitors (c : Citation) : list CompetitorCitation :=
  filter (fun e => JS.truthy_string (Some (cc_domain e)))
         (competitor_citations c).

(** The number of mentions of the domains [ks] in a tally. *)
Definition mentions_of (acc : ShareOfVoice.Tally) (ks : list string) : nat :=
  list_sum (map (ShareOfVoice.domainCounts acc) ks).

(** The sum of the shares of a list of entries. *)
Definition sum_of_shares (l : list (string * Q)) : Q :=
  fold_right Qplus 0 (map snd l).

(** The counts of a row of the daily metrics agree with one another. *)
Definition consistent (m : DailyMetrics.DailyMetric) : Prop :=
  (DailyMetrics.first_position_citations m
   <= DailyMetrics.top3_citations m)%nat /\
  (DailyMetrics.top3_citations m <= DailyMetrics.total_citations m)%nat /\
  (DailyMetrics.keywords_with_citations m
   <= DailyMetrics.total_keywords_tracked m)%nat /\
  (DailyMetrics.keywords_with_citations m
   <= DailyMetrics.total_citations m)%nat.

(** The table has a row with the key of [m], and every such row carries the
    nine columns of [m]. *)
Definition reported (table : list DailyMetrics.DailyMetric)
    (m : DailyMetrics.DailyMetric) : Prop :=
  existsb (DailyMetrics.same_key m) table = true /\
  forall e, In e table -> DailyMetrics.same_key m e = true ->
            DailyMetrics.excluded m e = e.

(** The rows of a table outside one project and day. *)
Definition other_days (projectId : string) (date : Z)
    (table : list DailyMetrics.DailyMetric)
  : list DailyMetrics.DailyMetric :=
  filter (fun e => negb (String.eqb (DailyMetrics.dm_project_id e) projectId
                         && (DailyMetrics.dm_date e =? date)%Z))
         table.

(** [c] is the domain [t] or a subdomain of it. *)
Definition same_or_subdomain (c t : string) : Prop :=
  c = t \/ exists label, c = (label ++ "." ++ t)%string.

(** The alerts of the other organizations. *)
Definition of_others (organizationId : string)
    (table : list AlertRoutes.AlertRow) : list AlertRoutes.AlertRow :=
  filter (fun r => negb (AlertRoutes.of_org organizationId r)) table.

Definition none_unread : AlertRoutes.UnreadCount :=
  {| AlertRoutes.unreadCount := 0; AlertRoutes.criticalUnread := 0;
     AlertRoutes.warningUnread := 0 |}.

(** The citations carry the positions 1, 2, ... in their order. *)
Definition ranked (l : list AICitation) : Prop :=
  map position l = map (fun i => Z.of_nat i + 1)%Z (seq 0 (List.length l)).

(** The strings of a list in the order of their first occurrence, less
    those of [seen]. *)
Fixpoint first_seen (seen l : list string) : list string :=
  match l with
  | [] => []
  | u :: l' =>
      if existsb (String.eqb u) seen then first_seen seen l'
      else u :: first_seen (u :: seen) l'
  end.

(** Two citations that differ in their position at most. *)
Definition same_source (c c' : AICitation) : Prop :=
  url c = url c' /\ title c = title c' /\ snippet c = snippet c' /\
  domain c = domain c' /\ is_you c = is_you c'.

(** The positions grow along the list. *)
Definition increasing (l : list AICitation) : Prop :=
  StronglySorted (fun a b => (position a < position b)%Z) l.

(** A stored position is a rank among the sources the citation counts. *)
Definition position_is_a_rank (c : Citation) : Prop :=
  forall z, citation_position c = Some z ->
            (1 <= z <= Z.of_nat (total_sources_cited c))%Z.

(** The number of the instants of [l] in the minute that ends at [t]. *)
Definition in_the_minute_to (t : Time) (l : list Time) : nat :=
  List.length (filter (fun x => (t - 60000 <? x)%Z && (x <=? t)%Z) l).
(* ===================================================================== *)
(** * Properties                                                         *)
(* ===================================================================== *)

(** ** The string primitives on small inputs *)

Example split_mid : JS.split (fun c => Ascii.eqb c ".") "a..b" = ["a"; "b"].
Proof. reflexivity. Qed.

Example split_trailing : JS.split (fun c => Ascii.eqb c ".") "a." = ["a"; ""].
Proof. reflexivity. Qed.

Example split_leading : JS.split (fun c => Ascii.eqb c ".") ".a" = [""; "a"].
Proof. reflexivity. Qed.

Example split_empty : JS.split (fun c => Ascii.eqb c ".") "" = [""].
Proof. reflexivity. Qed.

Example trim_both : JS.trim "  a b  " = "a b".
Proof. reflexivity. Qed.

Example strip_www_ex : JS.strip_www "www.acme.com" = "acme.com".
Proof. reflexivity. Qed.

Example endsWith_ex : JS.endsWith "foo.example.com" ".example.com" = true.
Proof. reflexivity. Qed.

Example includes_ex : JS.includes "the stop sign" "top" = true.
Proof. reflexivity. Qed.

Example lastIndexOf_ex : JS.lastIndexOf "." "a.b.c" = Some 3%nat.
Proof. reflexivity. Qed.

(** ** Lengths, prefixes and indices *)

Section StringFacts.

Lemma length_append (s t : string) :
  String.length (s ++ t) = (String.length s + String.length t)%nat.
Proof.
  induction s as [|c s IH]; simpl; [reflexivity | now rewrite IH].
Qed.

Lemma length_substring0 (n : nat) (s : string) :
  String.length (JS.substring0 n s) = Nat.min n (String.length s).
Proof.
  unfold JS.substring0.
  revert n; induction s as [|c s IH]; intros [|n]; simpl; auto.
Qed.

Lemma substring0_all (n : nat) (s : string) :
  (String.length s <= n)%nat -> JS.substring0 n s = s.
Proof.
  unfold JS.substring0.
  revert n; induction s as [|c s IH]; intros [|n] H; simpl in *;
    try reflexivity; try lia.
  f_equal; apply IH; lia.
Qed.

Lemma substring0_substring0 (m n : nat) (s : string) :
  (m <= n)%nat -> JS.substring0 m (JS.substring0 n s) = JS.substring0 m s.
Proof.
  unfold JS.substring0.
  revert m n; induction s as [|c s IH]; intros [|m] [|n] H; simpl;
    try reflexivity; try lia.
  f_equal; apply IH; lia.
Qed.

Lemma get_substring0 (i n : nat) (s : string) :
  (i < n)%nat -> String.get i (JS.substring0 n s) = String.get i s.
Proof.
  unfold JS.substring0.
  revert i n; induction s as [|c s IH]; intros i [|n] H; simpl;
    try reflexivity; try lia.
  destruct i as [|i]; [reflexivity | apply IH; lia].
Qed.

Lemma lastIndexOf_None (c : ascii) (s : string) :
  JS.lastIndexOf c s = None -> forall j, String.get j s <> Some c.
Proof.
  induction s as [|a s IH]; intros H j; simpl in *.
  - destruct j; discriminate.
  - destruct (JS.lastIndexOf c s) as [k|]; [discriminate|].
    destruct (Ascii.eqb a c) eqn:Eac; [discriminate|].
    destruct j as [|j].
    + intros [= ->]. rewrite Ascii.eqb_refl in Eac. discriminate.
    + now apply IH.
Qed.

(** [lastIndexOf] finds an occurrence, and the last one. *)
Lemma lastIndexOf_Some (c : ascii) (s : string) (i : nat) :
  JS.lastIndexOf c s = Some i ->
  String.get i s = Some c /\
  (i < String.length s)%nat /\
  forall j, (i < j)%nat -> String.get j s <> Some c.
Proof.
  revert i; induction s as [|a s IH]; intros i H; simpl in H.
  - discriminate.
  - destruct (JS.lastIndexOf c s) as [k|] eqn:E.
    + injection H as <-.
      destruct (IH k eq_refl) as (Hg & Hl & Hlast).
      repeat split; simpl; auto; try lia.
      intros [|j] Hj; [lia|]. simpl. apply Hlast. lia.
    + destruct (Ascii.eqb a c) eqn:Eac; [|discriminate].
      injection H as <-. apply Ascii.eqb_eq in Eac; subst a.
      repeat split; simpl; auto; try lia.
      intros [|j] Hj; [lia|]. simpl.
      now apply lastIndexOf_None.
Qed.

End StringFacts.

(** ** Filters *)

Lemma filter_none {A : Type} (f : A -> bool) (l : list A) :
  Forall (fun x => f x = false) l -> filter f l = [].
Proof.
  induction 1 as [|x l Hx _ IH]; simpl; [reflexivity|]. now rewrite Hx.
Qed.

Lemma filter_all {A : Type} (f : A -> bool) (l : list A) :
  (forall x, In x l -> f x = true) -> filter f l = l.
Proof.
  induction l as [|x l IH]; intros H; simpl; [reflexivity|].
  rewrite (H x) by now left. f_equal. apply IH. intros y Hy. apply H. now right.
Qed.

(** ** The response summary *)

Section Summary.

Import TrackingEngine.

Lemma generateSummary_fits (text : string) :
  (String.length text <= 500)%nat -> generateSummary text = text.
Proof.
  intros H. unfold generateSummary, generateSummary_at.
  apply Nat.leb_le in H. now rewrite H.
Qed.

(** What [generateSummary] returns for a text that does not fit: either
    the prefix that ends at the last full stop of the first 500
    characters, when its index exceeds 350, or those 500 characters and
    an ellipsis. *)
Lemma generateSummary_long (text : string) :
  (500 < String.length text)%nat ->
  (exists i,
      (350 < i < 500)%nat /\
      String.get i text = Some "."%char /\
      (forall j, (i < j < 500)%nat -> String.get j text <> Some "."%char) /\
      generateSummary text = JS.substring0 (S i) text /\
      String.length (generateSummary text) = S i)
  \/
  ((forall j, (350 < j < 500)%nat -> String.get j text <> Some "."%char) /\
   generateSummary text = JS.substring0 500 text ++ "..." /\
   String.length (generateSummary text) = 503%nat).
Proof.
  intros Hlen. unfold generateSummary, generateSummary_at.
  destruct (String.length text <=? 500)%nat eqn:E;
    [apply Nat.leb_le in E; lia|].
  set (truncated := JS.substring0 500 text).
  assert (Htl : String.length truncated = 500%nat).
  { unfold truncated. rewrite length_substring0. lia. }
  assert (Hdone : String.length (truncated ++ "...") = 503%nat).
  { rewrite length_append, Htl. reflexivity. }
  destruct (JS.lastIndexOf "." truncated) as [i|] eqn:Hi; simpl JS.index_or_minus1.
  - destruct (lastIndexOf_Some _ _ _ Hi) as (Hg & Hlt & Hlast).
    rewrite Htl in Hlt.
    destruct (7 * Z.of_nat 500 <? 10 * Z.of_nat i)%Z eqn:Hcmp.
    + apply Z.ltb_lt in Hcmp. left. exists i.
      replace (Z.to_nat (Z.of_nat i + 1)) with (S i) by lia.
      unfold truncated in *.
      rewrite substring0_substring0 by lia.
      rewrite get_substring0 in Hg by lia.
      repeat split; try lia; auto.
      * intros j Hj. rewrite <- (get_substring0 j 500) by lia.
        apply Hlast. lia.
      * rewrite length_substring0. lia.
    + apply Z.ltb_ge in Hcmp. right. repeat split; auto.
      intros j Hj. unfold truncated in *.
      rewrite <- (get_substring0 j 500) by lia.
      apply Hlast. lia.
  - right. repeat split; auto.
    intros j Hj. unfold truncated in *.
    rewrite <- (get_substring0 j 500) by lia.
    now apply lastIndexOf_None.
Qed.

(** C5, as the code has it.  The summary of a text of at most 500
    characters is the text; a longer text is cut after the last full stop
    of its first 500 characters when that full stop sits at an index above
    350, which gives between 352 and 500 characters, and otherwise its
    first 500 characters are followed by an ellipsis, 503 characters in
    all.  So the bound that always holds is 503. *)
Theorem generateSummary_shape (text : string) :
  (String.length (generateSummary text) <= 503)%nat /\
  ((String.length text <= 500)%nat -> generateSummary text = text) /\
  ((500 < String.length text)%nat ->
   (exists i,
       (350 < i < 500)%nat /\
       String.get i text = Some "."%char /\
       (forall j, (i < j < 500)%nat -> String.get j text <> Some "."%char) /\
       generateSummary text = JS.substring0 (S i) text /\
       (352 <= String.length (generateSummary text) <= 500)%nat)
   \/
   ((forall j, (350 < j < 500)%nat -> String.get j text <> Some "."%char) /\
    generateSummary text = JS.substring0 500 text ++ "..." /\
    String.length (generateSummary text) = 503%nat)).
Proof.
  split; [|split].
  - destruct (Nat.le_gt_cases (String.length text) 500) as [H|H].
    + rewrite generateSummary_fits by assumption. lia.
    + destruct (generateSummary_long text H)
        as [(i & Hi & _ & _ & _ & Hl) | (_ & _ & Hl)]; lia.
  - apply generateSummary_fits.
  - intros H.
    destruct (generateSummary_long text H)
      as [(i & Hi & Hg & Hlast & Heq & Hl) | Hhard].
    + left. exists i. repeat split; auto; lia.
    + right. exact Hhard.
Qed.

(** C5 as stated fails: 501 characters without a full stop are summarised
    in 503 characters. *)
Lemma generateSummary_exceeds_500 :
  String.length (generateSummary (replicate 501 "a")) = 503%nat /\
  ~ (String.length (generateSummary (replicate 501 "a")) <= 500)%nat.
Proof.
  assert (H : String.length (generateSummary (replicate 501 "a")) = 503%nat)
    by (vm_compute; reflexivity).
  split; [exact H | rewrite H; lia].
Qed.

(** The threshold [500 * 0.7] is the number 350 in binary64 too, so
    the test of the code is [lastSentence > 350]. *)
Example summary_threshold_500 :
  Binary64.is_350 (Binary64.summary_threshold 500) = true.
Proof. vm_compute. reflexivity. Qed.

(** A full stop at index 350 exactly is not late enough: the text is
    cut hard. *)
Example generateSummary_stop_at_350 :
  generateSummary (replicate 350 "a" ++ "." ++ replicate 150 "b")
  = replicate 350 "a" ++ "." ++ replicate 149 "b" ++ "...".
Proof. vm_compute. reflexivity. Qed.

Example generateSummary_stop_at_351 :
  generateSummary (replicate 351 "a" ++ "." ++ replicate 149 "b")
  = replicate 351 "a" ++ ".".
Proof. vm_compute. reflexivity. Qed.

End Summary.

(** ** The confidence score *)

Section Confidence.

Import TrackingEngine.

Local Open Scope Q_scope.

Lemma citation_bonus_range r : 0 <= citation_bonus r <= 2 # 10.
Proof.
  unfold citation_bonus.
  destruct (5 <=? _)%nat; [|destruct (3 <=? _)%nat];
    split; unfold Qle; simpl; lia.
Qed.

Lemma time_bonus_range r : 0 <= time_bonus r <= 1 # 10.
Proof.
  unfold time_bonus. destruct (_ <? _)%Z; split; unfold Qle; simpl; lia.
Qed.

Lemma length_bonus_range r : 0 <= length_bonus r <= 1 # 10.
Proof.
  unfold length_bonus. destruct (_ <? _)%nat; split; unfold Qle; simpl; lia.
Qed.

(** The clamp never acts: the score is the base and the bonuses. *)
Lemma calculateConfidence_sum r :
  calculateConfidence r ==
  (1 # 2) + citation_bonus r + time_bonus r + length_bonus r.
Proof.
  unfold calculateConfidence, citation_bonus, time_bonus, length_bonus.
  destruct (5 <=? _)%nat; [|destruct (3 <=? _)%nat];
    destruct (_ <? _)%Z; destruct (_ <? _)%nat;
    vm_compute; reflexivity.
Qed.

(** The same bounds hold of the binary64 numbers JavaScript computes:
    the largest score is [0.5 + 0.2 + 0.1 + 0.1], which rounds below
    [0.9]. *)
Lemma calculateConfidence_binary64_range (r : AIPlatformResponse) :
  Binary64.within_confidence_range (Binary64.calculateConfidence r) = true.
Proof.
  unfold Binary64.calculateConfidence.
  destruct (5 <=? _)%nat; [|destruct (3 <=? _)%nat];
    destruct (_ <? _)%Z; destruct (_ <? _)%nat;
    vm_compute; reflexivity.
Qed.

(** C10.  The confidence score of every response is the base 0.5 plus
    the bonuses for the number of citations (0.2 from five, 0.1 from
    three), for a response time under 3000 ms (0.1) and for a text of
    more than 500 characters (0.1); the bonuses total at most 0.4 and the
    score lies in [0.5, 0.9], whatever the response, in exact arithmetic
    and in binary64. *)
Theorem calculateConfidence_range (r : AIPlatformResponse) :
  calculateConfidence r ==
    (1 # 2) + citation_bonus r + time_bonus r + length_bonus r /\
  citation_bonus r + time_bonus r + length_bonus r <= 4 # 10 /\
  1 # 2 <= calculateConfidence r /\
  calculateConfidence r <= 9 # 10 /\
  Binary64.within_confidence_range (Binary64.calculateConfidence r) = true.
Proof.
  pose proof (citation_bonus_range r) as [Hc0 Hc1].
  pose proof (time_bonus_range r) as [Ht0 Ht1].
  pose proof (length_bonus_range r) as [Hl0 Hl1].
  pose proof (calculateConfidence_sum r) as Hs.
  pose proof (calculateConfidence_binary64_range r) as Hf.
  assert (Hb : citation_bonus r + time_bonus r + length_bonus r <= 4 # 10).
  { setoid_replace (4 # 10) with ((2 # 10) + (1 # 10) + (1 # 10))
      by (vm_compute; reflexivity).
    repeat apply Qplus_le_compat; assumption. }
  assert (Hn : 0 <= citation_bonus r + time_bonus r + length_bonus r).
  { setoid_replace 0 with (0 + 0 + 0) by (vm_compute; reflexivity).
    repeat apply Qplus_le_compat; assumption. }
  repeat split; auto.
  - rewrite Hs.
    setoid_replace (1 # 2) with ((1 # 2) + 0) at 1 by (vm_compute; reflexivity).
    rewrite <- !Qplus_assoc. apply Qplus_le_compat; [apply Qle_refl|].
    rewrite Qplus_assoc. exact Hn.
  - rewrite Hs.
    setoid_replace (9 # 10) with ((1 # 2) + (4 # 10)) by (vm_compute; reflexivity).
    rewrite <- !Qplus_assoc. apply Qplus_le_compat; [apply Qle_refl|].
    rewrite Qplus_assoc. exact Hb.
Qed.

(** Both ends are reached: by an empty, slow answer, and by a long, fast
    answer with five citations. *)
Example calculateConfidence_least :
  calculateConfidence
    {| response_platform := GEMINI; query := "q"; response_text := "";
       response_citations := []; response_time_ms := 4000;
       response_error := None |} == 1 # 2.
Proof. vm_compute. reflexivity. Qed.

Example calculateConfidence_most :
  calculateConfidence
    {| response_platform := GEMINI; query := "q";
       response_text := replicate 501 "a";
       response_citations :=
         repeat (Sample.cite "https://other.com/x" "other.com" 1) 5;
       response_time_ms := 120; response_error := None |} == 9 # 10.
Proof. vm_compute. reflexivity. Qed.

End Confidence.

(** ** Sentiment *)

Section SentimentAnalysis.

Import TrackingEngine.

Lemma includes_occurrences (s sub : string) :
  JS.includes s sub = (0 <? occurrences s sub)%nat.
Proof.
  induction s as [|c s IH].
  - simpl. destruct sub; reflexivity.
  - cbn [JS.includes occurrences]. rewrite IH.
    destruct (String.prefix sub (String c s)); reflexivity.
Qed.

Lemma wordsPresent_occurring (words : list string) (relevantText : string) :
  wordsPresent words relevantText = words_occurring words relevantText.
Proof.
  unfold wordsPresent, words_occurring. f_equal.
  apply filter_ext. intros w. apply includes_occurrences.
Qed.

Lemma words_occurring_le (words : list string) (relevantText : string) :
  (words_occurring words relevantText <= List.length words)%nat.
Proof. unfold words_occurring. apply filter_length_le. Qed.

(** C6, as the code has it.  The sentences are the pieces between runs
    of [.!?]; those whose lower-case form contains the lower-case domain
    are kept.  With none kept the sentiment is neutral.  Otherwise the
    positive count is the number of words of the positive lexicon that
    occur in the kept text, and likewise the negative count: a word
    counts once however often it occurs, so the counts are at most 7 and
    6.  The sentiment is positive when the positive count is the larger,
    negative when the negative count is, and neutral on a tie. *)
Theorem analyzeSentiment_counts_words (text target : string) :
  let kept := relevantSentences text target in
  let relevantText := JS.toLowerCase (JS.join " " kept) in
  let positiveCount := words_occurring positiveWords relevantText in
  let negativeCount := words_occurring negativeWords relevantText in
  (kept = [] -> analyzeSentiment text target = neutral) /\
  (kept <> [] ->
   (analyzeSentiment text target = positive <->
    (negativeCount < positiveCount)%nat) /\
   (analyzeSentiment text target = negative <->
    (positiveCount < negativeCount)%nat) /\
   (analyzeSentiment text target = neutral <->
    positiveCount = negativeCount)) /\
  (positiveCount <= 7)%nat /\ (negativeCount <= 6)%nat.
Proof.
  cbv zeta. unfold analyzeSentiment.
  rewrite !wordsPresent_occurring.
  set (kept := relevantSentences text target).
  set (P := words_occurring positiveWords _).
  set (N := words_occurring negativeWords _).
  split; [|split; [|split]].
  - intros ->. reflexivity.
  - intros Hne. destruct kept as [|s kept']; [contradiction|].
    destruct (N <? P)%nat eqn:E1; [|destruct (P <? N)%nat eqn:E2].
    + apply Nat.ltb_lt in E1.
      repeat split; intros; try discriminate; try lia; auto.
    + apply Nat.ltb_ge in E1. apply Nat.ltb_lt in E2.
      repeat split; intros; try discriminate; try lia; auto.
    + apply Nat.ltb_ge in E1. apply Nat.ltb_ge in E2.
      repeat split; intros; try discriminate; try lia; auto.
  - apply (words_occurring_le positiveWords).
  - apply (words_occurring_le negativeWords).
Qed.

(** C6 as stated fails: with "best" twice and "bad" once in the sentence
    that names the domain, counting occurrences gives positive, and the
    code answers neutral. *)
Lemma analyzeSentiment_repeats_count_once :
  analyzeSentiment "Acme is the best of the best but bad" "acme" = neutral /\
  sentiment_as_specified "Acme is the best of the best but bad" "acme"
  = positive.
Proof. split; vm_compute; reflexivity. Qed.

Example analyzeSentiment_substring :
  analyzeSentiment "Acme asks you to stop" "acme" = positive.
Proof. vm_compute. reflexivity. Qed.

Example analyzeSentiment_dotted_domain :
  analyzeSentiment "Acme.com is a leading provider." "acme.com" = neutral.
Proof. vm_compute. reflexivity. Qed.

(** *** A domain with a full stop in it *)

Lemma split_runs_pieces (sep : ascii -> bool) (in_run : bool) (s : string) :
  Forall (fun piece => has_char sep piece = false)
         (JS.split_runs sep in_run s).
Proof.
  revert in_run; induction s as [|c s IH]; intros in_run; simpl.
  - repeat constructor.
  - destruct (sep c) eqn:E.
    + destruct in_run; [apply IH | constructor; [reflexivity | apply IH]].
    + specialize (IH false).
      destruct (JS.split_runs sep false s) as [|piece rest].
      * repeat constructor. simpl. now rewrite E.
      * inversion IH as [|? ? Hp Hr]; subst.
        constructor; [simpl; now rewrite E, Hp | exact Hr].
Qed.

Lemma prefix_has_char (f : ascii -> bool) (sub s : string) :
  String.prefix sub s = true -> has_char f sub = true -> has_char f s = true.
Proof.
  revert s; induction sub as [|a sub IH]; intros s Hp Hs; simpl in *.
  - discriminate.
  - destruct s as [|b s]; [discriminate|].
    simpl in Hp. destruct (ascii_dec a b) as [->|]; [|discriminate].
    simpl. apply orb_true_iff in Hs as [Hs|Hs].
    + now rewrite Hs.
    + rewrite (IH s Hp Hs). apply orb_true_r.
Qed.

Lemma includes_has_char (f : ascii -> bool) (s sub : string) :
  JS.includes s sub = true -> has_char f sub = true -> has_char f s = true.
Proof.
  induction s as [|c s IH]; intros Hi Hs.
  - simpl in Hi. rewrite orb_false_r in Hi.
    destruct sub; [discriminate Hs | discriminate Hi].
  - cbn [JS.includes] in Hi. apply orb_true_iff in Hi as [Hi|Hi].
    + now apply (prefix_has_char f sub).
    + simpl. rewrite (IH Hi Hs). apply orb_true_r.
Qed.

Lemma sentence_end_lower (c : ascii) :
  sentence_end (JS.lower_char c) = sentence_end c.
Proof. destruct c as [[] [] [] [] [] [] [] []]; reflexivity. Qed.

Lemma has_sentence_end_lower (s : string) :
  has_char sentence_end (JS.toLowerCase s) = has_char sentence_end s.
Proof.
  induction s as [|c s IH]; simpl; [reflexivity|].
  now rewrite sentence_end_lower, IH.
Qed.

(** X1.  No sentence contains a domain in which [.], [!] or [?] occurs:
    the sentences are the pieces between those characters.  The sentiment
    about such a domain, ["acme.com"] for one, is neutral whatever the
    text. *)
Theorem analyzeSentiment_domain_with_stop (text target : string) :
  has_char sentence_end target = true ->
  relevantSentences text target = [] /\
  analyzeSentiment text target = neutral.
Proof.
  intros Ht.
  assert (Hnone : relevantSentences text target = []).
  { unfold relevantSentences, JS.split. apply filter_none.
    eapply Forall_impl; [|apply split_runs_pieces].
    intros piece Hp. simpl in Hp.
    destruct (JS.includes (JS.toLowerCase piece) (JS.toLowerCase target))
      eqn:E; [|reflexivity].
    apply (includes_has_char sentence_end) in E.
    - rewrite has_sentence_end_lower in E. congruence.
    - now rewrite has_sentence_end_lower. }
  split; [exact Hnone|].
  unfold analyzeSentiment. now rewrite Hnone.
Qed.

(** The witness of X1: the text of the first scenario. *)
Lemma analyzeSentiment_domain_with_stop_witness :
  relevantSentences "Acme.com is a leading provider." "acme.com" = [] /\
  analyzeSentiment "Acme.com is a leading provider." "acme.com" = neutral.
Proof.
  apply (analyzeSentiment_domain_with_stop
           "Acme.com is a leading provider." "acme.com").
  reflexivity.
Defined.

End SentimentAnalysis.

(** ** What a run of the engine does to the store *)

Section EngineEffect.

Import TrackingEngine.

Variable cfg : TrackingEngineConfig.
Variable keyword : Keyword.
Variable project : Project.

Lemma with_citations_nil d : with_citations d [] = d.
Proof. unfold with_citations. rewrite app_nil_r. now destruct d. Qed.

Lemma with_citations_twice d l1 l2 :
  with_citations (with_citations d l1) l2 = with_citations d (l1 ++ l2).
Proof. unfold with_citations. simpl. now rewrite app_assoc. Qed.

(** Stamping a keyword changes no id: the store takes the same strings
    for UUIDs. *)
Lemma existsb_touch (id : string) (t : Time) (s : string) (ks : list Keyword) :
  existsb (fun k => String.eqb (k_id k) s || String.eqb (k_project_id k) s)
          (map (touch id t) ks) =
  existsb (fun k => String.eqb (k_id k) s || String.eqb (k_project_id k) s)
          ks.
Proof.
  induction ks as [|k ks IH]; simpl; [reflexivity|].
  rewrite IH. f_equal. unfold touch.
  now destruct (String.eqb (k_id k) id).
Qed.

Lemma names_stamp (id : string) (t : Time) (d : DB) (s : string) :
  Store.names (stamp id t d) s = Store.names d s.
Proof. unfold Store.names, stamp. simpl. now rewrite existsb_touch. Qed.

Lemma uuid_stamp (id : string) (t : Time) (d : DB) (s : string) :
  Store.uuid (stamp id t d) s = Store.uuid d s.
Proof. unfold Store.uuid, Store.takes_uuid. now rewrite names_stamp. Qed.

Lemma uuid_of_name (d : DB) (s : string) :
  Store.names d s = true -> Store.uuid d s = None.
Proof. intros H. unfold Store.uuid, Store.takes_uuid. now rewrite H. Qed.

(** The id of a row of the store is read as a UUID. *)
Lemma uuid_of_keyword (d : DB) (k : Keyword) :
  In k (keywords d) -> Store.uuid d (k_id k) = None.
Proof.
  intros Hin. apply uuid_of_name. unfold Store.names.
  replace (existsb (fun k0 => String.eqb (k_id k0) (k_id k) ||
                              String.eqb (k_project_id k0) (k_id k))
                   (keywords d))
    with true.
  - now rewrite !orb_true_r.
  - symmetry. apply existsb_exists. exists k. split; [exact Hin|].
    now rewrite String.eqb_refl.
Qed.

Lemma uuid_of_project (d : DB) (p : Project) :
  In p (projects d) ->
  Store.uuid d (p_id p) = None /\ Store.uuid d (organization_id p) = None.
Proof.
  intros Hin.
  split; apply uuid_of_name; unfold Store.names;
    match goal with
    | |- context [existsb ?f (projects d)] =>
        replace (existsb f (projects d)) with true;
          [now rewrite orb_true_r
          |symmetry; apply existsb_exists; exists p; split; [exact Hin|];
           rewrite !String.eqb_refl; now rewrite ?orb_true_r]
    end.
Qed.

(** A string that names no row and has not the form of a UUID is
    rejected. *)
Lemma uuid_of_test (d : DB) :
  Store.names d "test" = false ->
  Store.uuid d "test" = Some (Store.invalid_uuid "test").
Proof. intros H. unfold Store.uuid, Store.takes_uuid. now rewrite H. Qed.

Lemma uuid_of_empty (d : DB) :
  Store.names d "" = false ->
  Store.uuid d "" = Some (Store.invalid_uuid "").
Proof. intros H. unfold Store.uuid, Store.takes_uuid. now rewrite H. Qed.

Lemma after_query_run p startTime response w :
  after_query keyword project p startTime response w =
  (Returns
     (if JS.truthy_string (response_error response) then
        {| success := false; citation := None;
           error := response_error response;
           result_platform := p; responseTimeMs := now w - startTime |}
      else
        {| success := true;
           citation := Some (analyze keyword project p (now w) response);
           error := None;
           result_platform := p; responseTimeMs := now w - startTime |}),
   w).
Proof.
  unfold after_query. run.
  now destruct (JS.truthy_string (response_error response)).
Qed.

Lemma result_of_failure (message : string) (p : AIPlatform) (ms : Z) :
  supported p = true -> result_of p (failure message p ms).
Proof.
  intros Hp. unfold result_of, failure. simpl. repeat split.
  - discriminate.
  - intros H. now contradiction H.
  - discriminate.
  - rewrite Hp. discriminate.
Qed.

(** [trackOnPlatform] writes nothing; the result it returns is of the
    platform, and its citation, if it has one, is the analysis of the
    answer of the service of the platform. *)
Lemma trackOnPlatform_effect p w :
  db (snd (trackOnPlatform cfg keyword project p w)) = db w /\
  (forall r, fst (trackOnPlatform cfg keyword project p w) = Returns r ->
             first_result cfg keyword project p r) /\
  (forall e, fst (trackOnPlatform cfg keyword project p w) = Throws e ->
             supported p = true).
Proof.
  assert (Hq : forall service unconfigured,
    supported p = true ->
    service_of cfg p = service ->
    let m := match service with
             | None => ret (failure unconfigured p 0)
             | Some a =>
                 bind (call a (keyword_text keyword))
                      (fun response =>
                         after_query keyword project p (now w) response)
             end in
    db (snd (m w)) = db w /\
    (forall r, fst (m w) = Returns r -> first_result cfg keyword project p r) /\
    (forall e, fst (m w) = Throws e -> supported p = true)).
  { intros [a|] unconfigured Hp Hs; cbv zeta.
    - unfold bind, call.
      destruct (a (keyword_text keyword) (now w)) as [[response|e] elapsed]
        eqn:Ea.
      + rewrite after_query_run. cbn [fst snd db now].
        split; [reflexivity|]. split; [|discriminate].
        intros r [= <-].
        destruct (JS.truthy_string (response_error response)) eqn:Et.
        * split.
          -- unfold result_of. simpl. repeat split; try discriminate.
             ++ intros H. now contradiction H.
             ++ rewrite Hp. discriminate.
          -- simpl. discriminate.
        * split.
          -- unfold result_of. simpl. repeat split; try discriminate.
             ++ intros c [= <-]. reflexivity.
             ++ rewrite Hp. discriminate.
          -- simpl. intros c [= <-].
             exists a, (now w), response, elapsed. auto.
      + cbn [fst snd db]. split; [reflexivity|]. split; [discriminate|].
        intros _ _. exact Hp.
    - unfold ret. cbn [fst snd]. split; [reflexivity|].
      split; [|discriminate]. intros r [= <-]. split.
      + now apply result_of_failure.
      + simpl. discriminate. }
  unfold trackOnPlatform. unfold bind at 1. unfold clock at 1.
  destruct p; try (apply Hq; reflexivity);
    (unfold ret; cbn [fst snd]; split; [reflexivity|];
     split; [|discriminate]; intros r [= <-]; split;
     [ unfold result_of, failure; simpl; repeat split;
       try discriminate; intros H; now contradiction H
     | simpl; discriminate ]).
Qed.

(** An unsupported platform gets the failure of the [default] case,
    whatever the services. *)
Lemma trackOnPlatform_unsupported p w :
  supported p = false ->
  trackOnPlatform cfg keyword project p w =
  (Returns (failure ("Platform " ++ platform_value p ++ " not supported") p 0),
   w).
Proof. destruct p; simpl; intros H; try discriminate; reflexivity. Qed.

(** A turn of the loop: the result of [trackOnPlatform], or the failure
    made of its exception, then the failure made of the rejection of its
    citation; the store gains the citation it takes. *)
Lemma track_one_effect p w :
  exists r w',
    track_one cfg keyword project p w = (Returns (pushed_for (db w) p r), w') /\
    db w' = with_citations (db w) (stored_for (db w) r) /\
    first_result cfg keyword project p r.
Proof.
  unfold track_one, try_catch. unfold bind at 1.
  destruct (trackOnPlatform_effect p w) as (Hdb & Hres & Hthrows).
  destruct (trackOnPlatform cfg keyword project p w) as [[r|e] w1] eqn:E;
    cbn [fst snd] in Hdb, Hres, Hthrows.
  - specialize (Hres r eq_refl).
    assert (Hkeep : with_citations (db w) [] = db w1)
      by (now rewrite with_citations_nil).
    unfold store_if_successful.
    destruct (success r) eqn:Hs; [destruct (citation r) as [c|] eqn:Hc|].
    + unfold storeCitation, bind, read_db. rewrite Hdb.
      destruct (Store.rejects_citation (db w) c) as [message|] eqn:Er.
      * exists r, w1.
        unfold pushed_for, stored_for, to_store, accepts.
        rewrite Hs, Hc. simpl. rewrite Er. unfold throw, ret.
        split; [reflexivity|]. split; [|exact Hres]. now symmetry.
      * eexists r, _.
        unfold pushed_for, stored_for, to_store, accepts.
        rewrite Hs, Hc. simpl. rewrite Er. unfold write_db, ret.
        split; [reflexivity|]. split; [|exact Hres].
        simpl. rewrite Hdb. reflexivity.
    + exists r, w1. unfold pushed_for, stored_for, to_store.
      rewrite Hs, Hc. unfold bind, ret. simpl.
      split; [reflexivity|]. split; [|exact Hres]. now symmetry.
    + exists r, w1. unfold pushed_for, stored_for, to_store.
      rewrite Hs. unfold bind, ret. simpl.
      split; [reflexivity|]. split; [|exact Hres]. now symmetry.
  - exists (failure e p 0), w1. unfold ret, pushed_for, stored_for. simpl.
    split; [reflexivity|]. split; [now rewrite with_citations_nil|].
    split.
    + apply result_of_failure. now apply (Hthrows e).
    + simpl. discriminate.
Qed.

(** The loop: one first result for each platform, in their order. *)
Lemma track_all_effect platforms w :
  exists firsts w',
    track_all cfg keyword project platforms w =
      (Returns (flat_map (fun r => pushed_for (db w) (result_platform r) r)
                         firsts), w') /\
    db w' = with_citations (db w) (flat_map (stored_for (db w)) firsts) /\
    Forall2 (first_result cfg keyword project) platforms firsts.
Proof.
  revert w. induction platforms as [|p rest IH]; intros w.
  - exists [], w. simpl. split; [reflexivity|].
    split; [now rewrite with_citations_nil | constructor].
  - simpl. unfold bind.
    destruct (track_one_effect p w) as (r & w1 & -> & Hd1 & Hr).
    destruct (IH w1) as (firsts & w2 & -> & Hd2 & Hf).
    exists (r :: firsts), w2. unfold ret. rewrite Hd1 in Hd2 |- *.
    split; [|split].
    + simpl. destruct Hr as [(-> & _) _]. reflexivity.
    + rewrite Hd2, with_citations_twice. reflexivity.
    + now constructor.
Qed.

(** [trackKeyword]: the loop, then the stamp of the keyword, which throws
    when the id of the keyword is not read as a UUID. *)
Lemma trackKeyword_effect platforms w :
  exists firsts w1,
    let results :=
      flat_map (fun r => pushed_for (db w) (result_platform r) r) firsts in
    let added := flat_map (stored_for (db w)) firsts in
    Forall2 (first_result cfg keyword project) platforms firsts /\
    db w1 = with_citations (db w) added /\
    trackKeyword cfg keyword project platforms w =
      match Store.uuid (db w) (k_id keyword) with
      | Some e => (Throws e, w1)
      | None =>
          (Returns results,
           {| db := stamp (k_id keyword) (now w1) (db w1); now := now w1 |})
      end.
Proof.
  unfold trackKeyword. unfold bind at 1.
  destruct (track_all_effect platforms w) as (firsts & w1 & -> & Hd & Hf).
  exists firsts, w1. cbv zeta. split; [exact Hf|]. split; [exact Hd|].
  unfold updateKeywordTrackingTime, bind, read_db, Store.reading.
  cbn [Store.first_error].
  replace (Store.uuid (db w1) (k_id keyword))
    with (Store.uuid (db w) (k_id keyword)) by (now rewrite Hd).
  destruct (Store.uuid (db w) (k_id keyword)) as [e|]; reflexivity.
Qed.

(** The citations a run appends, whether it returns or throws. *)
Lemma trackKeyword_appends platforms w :
  exists firsts,
    Forall2 (first_result cfg keyword project) platforms firsts /\
    citations (db (snd (trackKeyword cfg keyword project platforms w))) =
      (citations (db w) ++ flat_map (stored_for (db w)) firsts)%list.
Proof.
  destruct (trackKeyword_effect platforms w) as (firsts & w1 & Hf & Hd & ->).
  exists firsts. split; [exact Hf|].
  destruct (Store.uuid (db w) (k_id keyword)); cbn [snd db stamp citations];
    rewrite Hd; reflexivity.
Qed.

(** A citation the store took for one of the first results is the
    analysis of an answer given for one of the platforms. *)
Lemma stored_are_analysed platforms firsts d c :
  Forall2 (first_result cfg keyword project) platforms firsts ->
  In c (flat_map (stored_for d) firsts) ->
  exists p, In p platforms /\ answer_analysed cfg keyword project p c /\
            Store.rejects_citation d c = None.
Proof.
  induction 1 as [|p r platforms firsts Hr _ IH]; simpl; [intros []|].
  rewrite in_app_iff. intros [Hin|Hin].
  - exists p. split; [now left|].
    unfold stored_for in Hin. apply filter_In in Hin as [Hin Hacc].
    split.
    + apply (proj2 Hr). unfold to_store in Hin.
      destruct (success r); [|destruct Hin].
      destruct (citation r) as [c'|]; [|destruct Hin].
      destruct Hin as [<-|[]]. reflexivity.
    + unfold accepts in Hacc.
      now destruct (Store.rejects_citation d c).
  - destruct (IH Hin) as (p' & Hp' & H'). exists p'. split; [now right|exact H'].
Qed.

End EngineEffect.

(** ** The sources an answer cites *)

Section SourcesCited.

Import TrackingEngine.

Lemma length_partition {A : Type} (f : A -> bool) (l : list A) :
  List.length l =
  (List.length (filter f l) + List.length (filter (fun x => negb (f x)) l))%nat.
Proof.
  induction l as [|x l IH]; simpl; [reflexivity|].
  destruct (f x); simpl; lia.
Qed.

Lemma existsb_filter {A : Type} (f : A -> bool) (l : list A) :
  existsb f l = (0 <? List.length (filter f l))%nat.
Proof.
  induction l as [|x l IH]; simpl; [reflexivity|].
  destruct (f x); simpl; auto.
Qed.

(** The record [analyze] builds counts every entry of the answer: those
    of the target, however many, and those of the competitors. *)
Lemma analyze_total keyword project p t response :
  let c := analyze keyword project p t response in
  let targets := target_entries project response in
  total_sources_cited c =
    (List.length targets + List.length (competitor_citations c))%nat /\
  domain_mentioned c = (0 <? List.length targets)%nat.
Proof.
  cbv zeta. unfold analyze, target_entries, isDomainMentioned. simpl.
  rewrite length_map. split.
  - apply length_partition.
  - apply existsb_filter.
Qed.

(** C1, as the code has it.  Every citation a run of [trackKeyword]
    persists, whether the run returns or throws, is the analysis of the
    answer that the service of one of the requested platforms returned
    for the text of the keyword, and its [total_sources_cited] is the
    number of entries of that answer: the entries whose host matches the
    primary domain, each counted, plus the competitor citations.  It is
    therefore at least the target's single contribution plus the
    competitor citations, and equal to it exactly when at most one entry
    of the answer matches the primary domain. *)
Theorem total_sources_cited_counts_every_entry
    (cfg : TrackingEngineConfig) (keyword : Keyword) (project : Project)
    (platforms : list AIPlatform) (w : World) :
  exists added,
    citations (db (snd (trackKeyword cfg keyword project platforms w))) =
      (citations (db w) ++ added)%list /\
    Forall
      (fun c =>
         exists p a t response elapsed,
           let targets := target_entries project response in
           In p platforms /\
           service_of cfg p = Some a /\
           a (keyword_text keyword) t = (Returns response, elapsed) /\
           c = analyze keyword project p (t + elapsed) response /\
           total_sources_cited c = List.length (response_citations response) /\
           total_sources_cited c =
             (List.length targets + List.length (competitor_citations c))%nat /\
           domain_mentioned c = (0 <? List.length targets)%nat /\
           (target_contribution c + List.length (competitor_citations c)
            <= total_sources_cited c)%nat /\
           (total_sources_cited c =
              (target_contribution c +
               List.length (competitor_citations c))%nat
            <-> (List.length targets <= 1)%nat))
      added.
Proof.
  destruct (trackKeyword_appends cfg keyword project platforms w)
    as (firsts & Hf & Hc).
  exists (flat_map (stored_for (db w)) firsts). split; [exact Hc|].
  apply Forall_forall. intros c Hin.
  destruct (stored_are_analysed cfg keyword project platforms firsts
              (db w) c Hf Hin)
    as (p & Hp & (a & t & response & elapsed & Hs & Ha & _ & ->) & _).
  exists p, a, t, response, elapsed. cbv zeta.
  destruct (analyze_total keyword project p (t + elapsed) response)
    as [Htot Hdm].
  cbv zeta in Htot, Hdm.
  split; [exact Hp|]. split; [exact Hs|]. split; [exact Ha|].
  split; [reflexivity|]. split; [reflexivity|].
  split; [exact Htot|]. split; [exact Hdm|].
  unfold target_contribution. rewrite Hdm, Htot.
  destruct (List.length (target_entries project response)) as [|[|n]];
    simpl; split; try lia.
Qed.

(** C1 as stated fails: an answer with two entries of the primary domain
    and one competitor is persisted with [total_sources_cited = 3], while
    the domain is mentioned and there is one competitor citation. *)
Lemma two_target_entries_both_counted :
  map (fun c => (domain_mentioned c,
                 List.length (competitor_citations c),
                 total_sources_cited c))
      (citations
         (db (snd (trackKeyword
                     (Sample.engine (Sample.answering Sample.two_of_acme))
                     (Sample.crm true) Sample.acme [GEMINI]
                     (Sample.at_noon (Sample.store true [] []))))))
  = [(true, 1%nat, 3%nat)] /\
  3%nat <> (1 + 1)%nat.
Proof. split; [vm_compute; reflexivity | discriminate]. Qed.

(** X2.  Every citation a run of [trackKeyword] persists, whether the run
    returns or throws, belongs to the keyword and project of the run, and
    carries a position, a context and a URL only when it mentions the
    domain.  The run returns when the id of the keyword is read as a
    UUID. *)
Theorem persisted_citation_invariant
    (cfg : TrackingEngineConfig) (keyword : Keyword) (project : Project)
    (platforms : list AIPlatform) (w : World) :
  exists added,
    citations (db (snd (trackKeyword cfg keyword project platforms w))) =
      (citations (db w) ++ added)%list /\
    Forall
      (fun c =>
         keyword_id c = k_id keyword /\
         project_id c = p_id project /\
         (domain_mentioned c = false ->
          citation_position c = None /\
          citation_context c = None /\
          specific_url c = None))
      added /\
    (Store.uuid (db w) (k_id keyword) = None ->
     exists results,
       fst (trackKeyword cfg keyword project platforms w) = Returns results).
Proof.
  destruct (trackKeyword_effect cfg keyword project platforms w)
    as (firsts & w1 & Hf & Hd & Hrun). cbv zeta in Hrun.
  exists (flat_map (stored_for (db w)) firsts). split; [|split].
  - rewrite Hrun.
    destruct (Store.uuid (db w) (k_id keyword)); cbn [snd db stamp citations];
      rewrite Hd; reflexivity.
  - apply Forall_forall. intros c Hin.
    destruct (stored_are_analysed cfg keyword project platforms firsts
                (db w) c Hf Hin)
      as (p & _ & (a & t & response & elapsed & _ & _ & _ & ->) & _).
    unfold analyze. simpl.
    split; [reflexivity|]. split; [reflexivity|].
    intros Hm. rewrite Hm. repeat split.
  - intros Hu. rewrite Hrun, Hu. eexists. reflexivity.
Qed.

End SourcesCited.

(** ** The quick test *)

Section QuickTest.

Import TrackingEngine Routes.

Lemma no_element {A : Type} (l : list A) :
  (forall x, In x l -> False) -> l = [].
Proof.
  destruct l as [|x l]; [reflexivity|].
  intros H. exfalso. apply (H x). now left.
Qed.

(** The store takes no citation of a keyword whose id it does not read
    as a UUID. *)
Lemma rejects_citation_of cfg keyword project p d c e :
  Store.uuid d (k_id keyword) = Some e ->
  answer_analysed cfg keyword project p c ->
  Store.rejects_citation d c = Some e.
Proof.
  intros Hu (a & t & response & elapsed & _ & _ & _ & ->).
  unfold Store.rejects_citation, analyze. cbn [keyword_id Store.first_error].
  now rewrite Hu.
Qed.

(** The engine of a quick test stores nothing and ends on the stamp of
    keyword ['test'], which the store rejects. *)
Lemma trackKeyword_of_test cfg keyword project platforms w e :
  Store.uuid (db w) (k_id keyword) = Some e ->
  fst (trackKeyword cfg keyword project platforms w) = Throws e /\
  db (snd (trackKeyword cfg keyword project platforms w)) = db w.
Proof.
  intros Hu.
  destruct (trackKeyword_effect cfg keyword project platforms w)
    as (firsts & w1 & Hf & Hd & Hrun). cbv zeta in Hrun.
  rewrite Hrun, Hu. cbn [fst snd]. split; [reflexivity|].
  rewrite Hd.
  rewrite (no_element (flat_map (stored_for (db w)) firsts)).
  - apply with_citations_nil.
  - intros c Hin.
    destruct (stored_are_analysed cfg keyword project platforms firsts
                (db w) c Hf Hin) as (p & _ & Han & Hacc).
    rewrite (rejects_citation_of cfg keyword project p (db w) c e Hu Han)
      in Hacc.
    discriminate.
Qed.

(** C3.  On a store none of whose rows has the id ['test'], as the UUID
    columns of the schema guarantee, a quick test leaves every table as
    it was: no citation of the run is persisted and no [last_tracked_at]
    has changed.  The store rejects the citations of the run, whose
    [keyword_id] is ['test'], and then rejects the stamp of keyword
    ['test']: a request that names a keyword ends with that error, which
    the route answers with status 500. *)
Theorem quick_test_leaves_store
    (cfg : TrackingEngineConfig) (body : QuickTestBody) (w : World) :
  Store.names (db w) "test" = false ->
  db (snd (quick_test cfg body w)) = db w /\
  (JS.truthy_string (body_keyword body) = true ->
   fst (quick_test cfg body w) = Throws (Store.invalid_uuid "test")).
Proof.
  intros Hn. apply uuid_of_test in Hn.
  unfold quick_test.
  destruct (body_keyword body) as [text|]; [|split; [reflexivity|discriminate]].
  simpl JS.truthy_string.
  destruct (String.eqb text ""); [split; [reflexivity|discriminate]|].
  unfold bind.
  match goal with
  | |- context [trackKeyword cfg ?k ?p ?l w] =>
      destruct (trackKeyword_of_test cfg k p l w _ Hn) as [Hthrows Hdb];
      destruct (trackKeyword cfg k p l w) as [[results|e] w1]
  end; cbn [fst snd] in Hthrows, Hdb |- *; [discriminate|].
  injection Hthrows as ->. split; [exact Hdb | reflexivity].
Qed.

(** The witness of C3: a quick test of "best crm" against a store that
    holds keyword [k1] and one citation of it. *)
Lemma quick_test_leaves_store_witness :
  let cfg := Sample.engine (Sample.answering Sample.two_of_acme) in
  let body := {| body_keyword := Some "best crm"; quick_platforms := None;
                 body_domain := Some "acme.com" |} in
  let w := Sample.at_noon
             (Sample.store true [Sample.prior GEMINI 100 true (Some 1%Z)] []) in
  db (snd (quick_test cfg body w)) = db w /\
  (JS.truthy_string (body_keyword body) = true ->
   fst (quick_test cfg body w) = Throws (Store.invalid_uuid "test")).
Proof.
  cbv zeta.
  apply (quick_test_leaves_store
           (Sample.engine (Sample.answering Sample.two_of_acme))
           {| body_keyword := Some "best crm"; quick_platforms := None;
              body_domain := Some "acme.com" |}
           (Sample.at_noon
              (Sample.store true
                 [Sample.prior GEMINI 100 true (Some 1%Z)] []))).
  reflexivity.
Defined.

(** During that quick test the engine did run: the Gemini service was
    asked, which took 120 ms, and its answer was analysed; the store
    rejected the citation. *)
Example quick_test_ran :
  let w := Sample.at_noon (Sample.store true [] []) in
  let run := quick_test
               (Sample.engine (Sample.answering Sample.two_of_acme))
               {| body_keyword := Some "best crm";
                  quick_platforms := None;
                  body_domain := Some "acme.com" |} w in
  now (snd run) = (now w + 120)%Z /\
  citations (db (snd run)) = [] /\
  map (fun r => (success r, error r))
      (match fst (track_all
                    (Sample.engine (Sample.answering Sample.two_of_acme))
                    {| k_id := "test"; k_project_id := "test";
                       keyword_text := "best crm"; k_is_active := true;
                       last_tracked_at := None |}
                    {| p_id := "test"; organization_id := "test";
                       name := Some "Test"; primary_domain := "acme.com";
                       competitor_domains := Some [] |}
                    [GEMINI; GOOGLE_AI_OVERVIEW] w) with
       | Returns results => results
       | Throws _ => []
       end)
  = [(true, None);
     (false, Some (Store.invalid_uuid "test"));
     (false, Some "SERP API not configured")].
Proof. vm_compute. repeat split. Qed.

End QuickTest.

(** ** The frequency component *)

Section Frequency.

Import Scoring.

Lemma fold_left_sum (rows : list Row) (a : nat) :
  fold_left (fun sum row => sum + citation_count row)%nat rows a
  = (a + list_sum (map citation_count rows))%nat.
Proof.
  revert a; induction rows as [|r rows IH]; intros a; simpl.
  - lia.
  - rewrite IH. lia.
Qed.

(** A platform without a citation in the window has no row, and would
    contribute none. *)
Lemma absent_platform_counts_zero (cs : list Citation) (p : AIPlatform) :
  existsb (fun c => platform_eqb (platform c) p) cs = false ->
  citation_count (group_row cs p) = 0%nat.
Proof.
  intros H. unfold group_row, count_filter. simpl.
  induction cs as [|c cs IH]; simpl in *; [reflexivity|].
  apply orb_false_iff in H as [H1 H2]. rewrite H1. now apply IH.
Qed.

Lemma sum_present_platforms (cs : list Citation) (ps : list AIPlatform) :
  list_sum
    (map citation_count
       (map (group_row cs)
          (filter (fun p => existsb (fun c => platform_eqb (platform c) p) cs)
                  ps)))
  = list_sum (map (fun p => citation_count (group_row cs p)) ps).
Proof.
  induction ps as [|p ps IH]; [reflexivity|].
  cbn [filter map list_sum].
  destruct (existsb _ cs) eqn:E; cbn [map];
    unfold list_sum in *; cbn [fold_right]; rewrite IH.
  - reflexivity.
  - now rewrite (absent_platform_counts_zero cs p E).
Qed.

(** Every citation belongs to the group of one platform. *)
Lemma sum_over_platforms (cs : list Citation) :
  list_sum (map (fun p => citation_count (group_row cs p)) all_platforms)
  = count_filter domain_mentioned cs.
Proof.
  unfold all_platforms, group_row, count_filter. simpl.
  induction cs as [|c cs IH]; simpl; [reflexivity|].
  destruct (platform c); simpl; destruct (domain_mentioned c); simpl; lia.
Qed.

(** The rows the query returns add up to the citations that mention the
    domain. *)
Lemma totalCitations_is_C_self (d : DB) (t : Time) (projectId : string) :
  totalCitations (select_citation_rows d projectId (t - thirty_days)%Z)
  = List.length (C_self d t projectId).
Proof.
  unfold totalCitations, select_citation_rows, C_self.
  rewrite fold_left_sum, sum_present_platforms, sum_over_platforms.
  reflexivity.
Qed.

(** C9, as the code has it.  With [K] active keywords and [n] citations
    that mention the domain in the 30-day window, the frequency component
    is 0 when [K = 0], whatever [n], and [min(100, (n / K) * 20)]
    otherwise, which is then the value the specification gives. *)
Theorem frequencyScore_formula (d : DB) (t : Time) (projectId : string) :
  let K := count_active_keywords d projectId in
  let n := List.length (C_self d t projectId) in
  (K = 0%nat -> frequencyScore d t projectId = 0) /\
  (K <> 0%nat ->
   frequencyScore d t projectId = Qmin 100 ((Q_of_nat n / Q_of_nat K) * 20) /\
   frequencyScore d t projectId = frequency_as_specified n K).
Proof.
  cbv zeta. unfold frequencyScore, calculateFrequencyScore.
  rewrite totalCitations_is_C_self.
  split.
  - intros ->. reflexivity.
  - intros HK.
    destruct (count_active_keywords d projectId =? 0)%nat eqn:E.
    + apply Nat.eqb_eq in E. contradiction.
    + split; [reflexivity|].
      unfold frequency_as_specified.
      now rewrite Nat.max_l by lia.
Qed.

(** C9 as stated fails: a project whose only keyword is inactive and
    which has one citation of its domain in the window scores 0, where
    the specification's formula gives 20. *)
Lemma frequencyScore_without_active_keywords :
  let d := Sample.store false [Sample.prior GEMINI 999000 true (Some 1%Z)] [] in
  count_active_keywords d "p1" = 0%nat /\
  List.length (C_self d 1000000 "p1") = 1%nat /\
  frequencyScore d 1000000 "p1" = 0 /\
  frequency_as_specified 1 0 == 20 /\
  ~ frequencyScore d 1000000 "p1" == frequency_as_specified 1 0.
Proof.
  cbv zeta. repeat split; try (vm_compute; reflexivity).
  intros H. vm_compute in H. discriminate.
Qed.

Example frequencyScore_scenario :
  calculateFrequencyScore
    [{| row_platform := GEMINI; citation_count := 3; keywords_ranked := 2;
        avg_position := None; positive_mentions := 0;
        negative_mentions := 0 |};
     {| row_platform := CHATGPT; citation_count := 1; keywords_ranked := 1;
        avg_position := None; positive_mentions := 0;
        negative_mentions := 0 |}] 10
  == 8.
Proof. vm_compute. reflexivity. Qed.

End Frequency.

(** ** What the worker does to the store *)

Section WorkerEffect.

Import TrackingEngine Worker.

Lemma decide_alert_kind projectId keywordId keywordText p previous current a :
  decide_alert projectId keywordId keywordText p previous current = Some a ->
  per_citation_alert a /\
  a_project_id a = projectId /\ a_keyword_id a = keywordId /\
  a_platform a = p.
Proof.
  unfold decide_alert, per_citation_alert.
  destruct (negb _ && mentioned current).
  - intros [= <-]. simpl. auto.
  - destruct (mentioned previous && negb (mentioned current)).
    + intros [= <-]. simpl. auto 6.
    + destruct (JS.truthy_number _ && JS.truthy_number _); [|discriminate].
      destruct (position_of previous) as [prev|]; [|discriminate].
      destruct (position_of current) as [curr|]; [|discriminate].
      destruct (2 <=? Z.abs (prev - curr))%Z; [|discriminate].
      intros [= <-]. simpl. auto 6.
Qed.

(** The store takes no alert whose [organization_id] is the empty
    string. *)
Lemma rejects_alert_without_organization (d : DB) (a : Alert) :
  Store.names d "" = false ->
  a_organization_id a = "" ->
  exists e, Store.rejects_alert d a = Some e.
Proof.
  intros Hn Ho. unfold Store.rejects_alert. rewrite Ho.
  cbn [Store.first_error].
  destruct (Store.uuid d (a_project_id a)) as [e|]; [now exists e|].
  rewrite (uuid_of_empty d Hn). now eexists.
Qed.

(** [createAlert] returns, whatever the store says. *)
Lemma createAlert_effect (a : Alert) (w : World) :
  exists w',
    Alerts.createAlert a w = (Returns tt, w') /\
    tracking_jobs (db w') = tracking_jobs (db w) /\
    citations (db w') = citations (db w) /\
    (forall e, Store.rejects_alert (db w) a = Some e -> w' = w).
Proof.
  unfold Alerts.createAlert, try_catch, bind, read_db.
  destruct (Store.rejects_alert (db w) a) as [e|].
  - exists w. unfold throw, ret. auto.
  - eexists. unfold write_db. split; [reflexivity|]. simpl.
    repeat split. discriminate.
Qed.

(** [checkForAlerts] returns, and stores nothing when the store has no
    row of id [''] . *)
Lemma checkForAlerts_effect projectId keywordId keywordText p result w :
  exists w',
    checkForAlerts projectId keywordId keywordText p result w
      = (Returns tt, w') /\
    tracking_jobs (db w') = tracking_jobs (db w) /\
    citations (db w') = citations (db w) /\
    (Store.names (db w) "" = false -> w' = w).
Proof.
  unfold checkForAlerts, try_catch. unfold bind at 1. unfold read_db at 1.
  unfold bind at 1. unfold Store.reading. cbn [Store.first_error].
  destruct (Store.uuid (db w) keywordId) as [e|].
  - exists w. unfold throw, ret. auto.
  - unfold ret at 1.
    destruct (decide_alert projectId keywordId keywordText p
                (select_previous (db w) keywordId p) (citation result))
      as [a|] eqn:Ea.
    + destruct (createAlert_effect a w) as (w' & -> & Hj & Hc & Hrej).
      exists w'. split; [reflexivity|]. split; [exact Hj|].
      split; [exact Hc|]. intros Hn.
      destruct (decide_alert_kind _ _ _ _ _ _ _ Ea) as ((Ho & _) & _).
      destruct (rejects_alert_without_organization (db w) a Hn Ho) as (e & He).
      now apply (Hrej e).
    + exists w. unfold ret. auto.
Qed.

Lemma find_keyword (d : DB) (id : string) (row : Keyword) (joined : Project) :
  select_keyword d id = Some (row, joined) ->
  In row (keywords d) /\ k_id row = id.
Proof.
  unfold select_keyword.
  destruct (find (fun k => String.eqb (k_id k) id) (keywords d)) as [k|] eqn:E;
    [|discriminate].
  destruct (find _ (projects d)); [|discriminate].
  intros [= <- _]. apply find_some in E as [Hin Hid].
  split; [exact Hin | now apply String.eqb_eq].
Qed.

Lemma failed_after_processing (id : nat) (message : string) (t : Time)
    (jobs : list TrackingJob) :
  map (fun j => if (j_id j =? id)%nat then set_failed message j else j)
      (map (fun j => if (j_id j =? id)%nat then set_processing t j else j)
           jobs)
  = map (after_failure id message t) jobs.
Proof.
  rewrite map_map. apply map_ext. intros j. unfold after_failure.
  destruct (j_id j =? id)%nat eqn:E; simpl; now rewrite E.
Qed.

Lemma completed_after_processing (id : nat) (t t' : Time) (r : TrackResult)
    (jobs : list TrackingJob) :
  map (fun j => if (j_id j =? id)%nat
                then set_completed t' (mentioned (citation r)) r j else j)
      (map (fun j => if (j_id j =? id)%nat then set_processing t j else j)
           jobs)
  = map (after_completion id t t' r) jobs.
Proof.
  rewrite map_map. apply map_ext. intros j. unfold after_completion.
  destruct (j_id j =? id)%nat eqn:E; simpl; now rewrite E.
Qed.

Lemma update_job_run (id : nat) (set : TrackingJob -> TrackingJob) (w : World) :
  update_job id set w =
  (Returns tt,
   {| db := with_jobs (db w)
              (map (fun j => if (j_id j =? id)%nat then set j else j)
                   (tracking_jobs (db w)));
      now := now w |}).
Proof. reflexivity. Qed.

Lemma uuid_with_jobs d jobs s :
  Store.uuid (with_jobs d jobs) s = Store.uuid d s.
Proof. reflexivity. Qed.

Lemma select_keyword_with_jobs d jobs id :
  select_keyword (with_jobs d jobs) id = select_keyword d id.
Proof. reflexivity. Qed.

Lemma stored_for_with_jobs d jobs r :
  stored_for (with_jobs d jobs) r = stored_for d r.
Proof. reflexivity. Qed.

(** The job of a keyword the store does not give: the processing raises,
    with the error of the store when the id is not read as a UUID, and
    else with "Keyword not found". *)
Lemma processTrackingJob_keyword_missing cfg job w :
  select_keyword (db w) (keywordId job) = None ->
  let message :=
    match Store.uuid (db w) (keywordId job) with
    | Some e => e
    | None => "Keyword not found"
    end in
  processTrackingJob cfg job w =
  (Throws message,
   {| db := with_jobs (db w)
              (map (after_failure (jobId job) message (now w))
                   (tracking_jobs (db w)));
      now := now w |}).
Proof.
  intros Hk. cbv zeta.
  unfold processTrackingJob, try_catch.
  unfold bind at 1. unfold clock at 1. unfold bind at 1.
  rewrite update_job_run. unfold bind at 1. unfold read_db at 1.
  cbn [db now].
  unfold bind at 1. unfold Store.reading. cbn [Store.first_error].
  rewrite uuid_with_jobs, select_keyword_with_jobs, Hk.
  destruct (Store.uuid (db w) (keywordId job)) as [e|];
    unfold throw, ret, bind; rewrite update_job_run; cbn [db now];
    unfold with_jobs; cbn [tracking_jobs organizations projects keywords
                           citations alerts next_uuid];
    now rewrite failed_after_processing.
Qed.

(** The job of a keyword the store gives: the engine runs on the
    platform of the job; the job is completed with its first result,
    unless the store cannot take the result as [JSONB]. *)
Lemma processTrackingJob_keyword_found cfg job w row joined :
  select_keyword (db w) (keywordId job) = Some (row, joined) ->
  exists r t',
    first_result cfg (keyword_of row) (project_of row joined)
                 (job_platform job) r /\
    let d' :=
      stamp (k_id row) t' (with_citations (db w) (stored_for (db w) r)) in
    processTrackingJob cfg job w =
    match Store.jsonb (Store.result_strings r) with
    | Some e =>
        (Throws e,
         {| db := with_jobs d'
                    (map (after_failure (jobId job) e (now w))
                         (tracking_jobs (db w)));
            now := t' |})
    | None =>
        checkForAlerts (projectId job) (keywordId job) (keyword_text row)
          (job_platform job) r
          {| db := with_jobs d'
                     (map (after_completion (jobId job) (now w) t' r)
                          (tracking_jobs (db w)));
             now := t' |}
    end.
Proof.
  intros Hk. destruct (find_keyword _ _ _ _ Hk) as [Hin Hid].
  unfold processTrackingJob, try_catch.
  unfold bind at 1. unfold clock at 1. unfold bind at 1.
  rewrite update_job_run. unfold bind at 1. unfold read_db at 1.
  cbn [db now].
  unfold bind at 1. unfold Store.reading at 1. cbn [Store.first_error].
  rewrite uuid_with_jobs, select_keyword_with_jobs, Hk.
  assert (Hu : Store.uuid (db w) (keywordId job) = None)
    by (rewrite <- Hid; now apply uuid_of_keyword).
  rewrite Hu. unfold ret at 1. cbv zeta. unfold bind at 1.
  match goal with
  | |- context [trackKeyword cfg ?k ?p [?pl] ?w0] =>
      destruct (trackKeyword_effect cfg k p [pl] w0)
        as (firsts & w1 & Hf & Hd & ->)
  end.
  cbn [db now] in Hd |- *.
  inversion Hf as [|? r ? rest Hr Hrest]; subst.
  inversion Hrest; subst. clear Hf Hrest.
  exists r, (now w1). split; [exact Hr|].
  cbn [flat_map] in Hd |- *.
  rewrite app_nil_r, stored_for_with_jobs in Hd.
  rewrite uuid_with_jobs.
  change (k_id (keyword_of row)) with (k_id row).
  rewrite (uuid_of_keyword (db w) row Hin).
  unfold pushed_for at 1. cbn [app].
  unfold bind at 1. unfold Store.reading at 1. cbn [Store.first_error].
  destruct (Store.jsonb (Store.result_strings r)) as [e|].
  - unfold throw, ret, bind. rewrite update_job_run. cbn [db now].
    rewrite Hd. unfold with_jobs, stamp, with_citations.
    cbn [tracking_jobs organizations projects keywords citations alerts
         next_uuid].
    rewrite failed_after_processing. reflexivity.
  - unfold ret at 1. unfold bind at 1. unfold clock at 1.
    unfold bind at 1. rewrite update_job_run. cbn [db now].
    rewrite Hd. unfold with_jobs, stamp, with_citations.
    cbn [tracking_jobs organizations projects keywords citations alerts
         next_uuid].
    rewrite completed_after_processing.
    change (keyword_text (keyword_of row)) with (keyword_text row).
    match goal with
    | |- context [checkForAlerts ?a ?b ?c ?d ?e ?w0] =>
        destruct (checkForAlerts_effect a b c d e w0) as (w' & Hc & _)
    end.
    unfold with_jobs, stamp, with_citations in Hc.
    cbn [tracking_jobs organizations projects keywords citations alerts
         next_uuid] in Hc.
    rewrite Hc. reflexivity.
Qed.

(** The job of a keyword the store gives ends completed or failed. *)
Lemma processTrackingJob_outcome cfg job w row joined :
  select_keyword (db w) (keywordId job) = Some (row, joined) ->
  exists r t',
    first_result cfg (keyword_of row) (project_of row joined)
                 (job_platform job) r /\
    citations (db (snd (processTrackingJob cfg job w))) =
      (citations (db w) ++ stored_for (db w) r)%list /\
    (Store.names (db w) "" = false ->
     alerts (db (snd (processTrackingJob cfg job w))) = alerts (db w)) /\
    match Store.jsonb (Store.result_strings r) with
    | Some e =>
        fst (processTrackingJob cfg job w) = Throws e /\
        tracking_jobs (db (snd (processTrackingJob cfg job w))) =
          map (after_failure (jobId job) e (now w)) (tracking_jobs (db w))
    | None =>
        fst (processTrackingJob cfg job w) = Returns tt /\
        tracking_jobs (db (snd (processTrackingJob cfg job w))) =
          map (after_completion (jobId job) (now w) t' r)
              (tracking_jobs (db w))
    end.
Proof.
  intros Hk.
  destruct (processTrackingJob_keyword_found cfg job w row joined Hk)
    as (r & t' & Hr & Hrun). cbv zeta in Hrun.
  exists r, t'. split; [exact Hr|]. rewrite Hrun.
  destruct (Store.jsonb (Store.result_strings r)) as [e|].
  - cbn [fst snd db]. repeat split.
  - match goal with
    | |- context [checkForAlerts ?a ?b ?c ?d ?e ?w0] =>
        destruct (checkForAlerts_effect a b c d e w0)
          as (w' & -> & Hj & Hc & Hsame)
    end.
    cbn [fst snd]. rewrite Hj, Hc. cbn [db]. split; [reflexivity|].
    split; [|split; reflexivity].
    intros Hn. rewrite Hsame; [reflexivity|].
    cbn [db]. unfold Store.names, with_jobs, stamp, with_citations.
    cbn [organizations projects keywords]. rewrite existsb_touch.
    exact Hn.
Qed.

End WorkerEffect.

(** ** Alerts on a change of position *)

Section PositionChange.

Import TrackingEngine Worker.

(** A record the engine builds carries a position only when the domain
    is mentioned. *)
Lemma analyze_position_only_if_mentioned keyword project p t response :
  position_only_if_mentioned (analyze keyword project p t response).
Proof.
  unfold position_only_if_mentioned, analyze. simpl. now intros ->.
Qed.

(** The branch of [checkForAlerts] for two positions, neither being 0,
    the current citation carrying its position only because it mentions
    the domain: it makes a [position_change] alert when and only when the
    positions differ by 2 or more, of severity [info] when the position
    improved and [warning] when it worsened, with both positions and
    [(prev - curr) / prev * 100] for [change_percent]. *)
Lemma decide_alert_position_change
    (projectId keywordId keywordText : string) (p : AIPlatform)
    (previous current : Citation) (prev curr : Z) :
  citation_position previous = Some prev ->
  citation_position current = Some curr ->
  prev <> 0%Z -> curr <> 0%Z ->
  position_only_if_mentioned current ->
  let created :=
    decide_alert projectId keywordId keywordText p
                 (Some previous) (Some current) in
  ((2 <= Z.abs (prev - curr))%Z ->
   exists a,
     created = Some a /\
     alert_type a = position_change /\
     severity a = (if (curr <? prev)%Z then info else warning) /\
     previous_value a = Some (JS.toString prev) /\
     current_value a = Some (JS.toString curr) /\
     change_percent a =
       Some ((inject_Z (prev - curr) / inject_Z prev) * 100) /\
     a_organization_id a = "") /\
  ((Z.abs (prev - curr) < 2)%Z -> created = None) /\
  ((exists a, created = Some a /\ alert_type a = position_change)
   <-> (2 <= Z.abs (prev - curr))%Z).
Proof.
  intros Hprev Hcurr Hp Hc Hinv. cbv zeta.
  assert (Hm : domain_mentioned current = true).
  { destruct (domain_mentioned current) eqn:E; [reflexivity|].
    rewrite (Hinv E) in Hcurr. discriminate. }
  unfold decide_alert. simpl. rewrite Hm, Hprev, Hcurr. simpl.
  rewrite andb_false_r.
  replace (prev =? 0)%Z with false by (symmetry; apply Z.eqb_neq; lia).
  replace (curr =? 0)%Z with false by (symmetry; apply Z.eqb_neq; lia).
  simpl.
  replace (0 <? prev - curr)%Z with (curr <? prev)%Z
    by (destruct (curr <? prev)%Z eqn:E1, (0 <? prev - curr)%Z eqn:E2;
        try reflexivity;
        [apply Z.ltb_lt in E1; apply Z.ltb_ge in E2
        |apply Z.ltb_ge in E1; apply Z.ltb_lt in E2]; lia).
  destruct (2 <=? Z.abs (prev - curr))%Z eqn:E.
  - apply Z.leb_le in E. split; [|split; [|split]].
    + intros _. eexists. split; [reflexivity|]. simpl. repeat split.
    + lia.
    + intros _. exact E.
    + intros _. eexists. split; [reflexivity|]. reflexivity.
  - apply Z.leb_gt in E. split; [|split; [|split]].
    + lia.
    + reflexivity.
    + intros (a & Ha & _). discriminate.
    + lia.
Qed.

(** From rank 3 to rank 1: an improvement, of [200/3] percent, which
    a [DECIMAL(6,2)] column would keep as 66.67. *)
Example position_3_to_1 :
  let created :=
    decide_alert "p1" "k1" "best crm" GEMINI
      (Some (Sample.prior GEMINI 100 true (Some 3%Z)))
      (Some (Sample.prior GEMINI 200 true (Some 1%Z))) in
  option_map alert_type created = Some position_change /\
  option_map severity created = Some info /\
  option_map change_percent created = Some (Some (200 # 3)) /\
  option_map (fun a => change_percent (Alerts.stored a)) created
  = Some (Some (6667 # 100)).
Proof. cbv zeta. repeat split; vm_compute; reflexivity. Qed.

(** In binary64 the quotient is a number between 66.665 and 66.675,
    which rounds to 66.67 as well. *)
Example position_3_to_1_binary64 :
  Binary64.kept_as_66_67 (Binary64.change_percent 3 1) = true.
Proof. vm_compute. reflexivity. Qed.

(** From rank 5 to rank 2: 60 percent, exactly. *)
Example position_5_to_2 :
  option_map change_percent
    (decide_alert "p1" "k1" "best crm" GEMINI
       (Some (Sample.prior GEMINI 100 true (Some 5%Z)))
       (Some (Sample.prior GEMINI 200 true (Some 2%Z))))
  = Some (Some (300 # 5)) /\
  300 # 5 == 60.
Proof. split; vm_compute; reflexivity. Qed.

(** From rank 2 to rank 3: no alert. *)
Example position_2_to_3 :
  decide_alert "p1" "k1" "best crm" GEMINI
    (Some (Sample.prior GEMINI 100 true (Some 2%Z)))
    (Some (Sample.prior GEMINI 200 true (Some 3%Z)))
  = None.
Proof. vm_compute. reflexivity. Qed.

(** A stored position 0, which the Gemini service gives an entry it
    numbers [[0]], is falsy in the test of the branch: from rank 0 to
    rank 3 no alert is made. *)
Example position_0_to_3 :
  decide_alert "p1" "k1" "best crm" GEMINI
    (Some (Sample.prior GEMINI 100 true (Some 0%Z)))
    (Some (Sample.prior GEMINI 200 true (Some 3%Z)))
  = None.
Proof. vm_compute. reflexivity. Qed.

(** From rank 1 to rank 102 the change is of -10100 percent, which is
    beyond [DECIMAL(6,2)]. *)
Example position_1_to_102 :
  option_map (fun a => Store.decimal_6_2 (change_percent a))
    (decide_alert "p1" "k1" "best crm" GEMINI
       (Some (Sample.prior GEMINI 100 true (Some 1%Z)))
       (Some (Sample.prior GEMINI 200 true (Some 102%Z))))
  = Some (Some Store.overflow).
Proof. vm_compute. reflexivity. Qed.

(** C8 at a failing input.  Keyword [k1] has one citation on Gemini, at
    rank 3; the worker processes a Gemini job for it and the provider
    answers with the domain at rank 1.  The job is completed and the new
    citation is persisted.  [checkForAlerts] decides on the alert of the
    claim: a [position_change], of severity [info], from 3 to 1, of
    [200/3] percent.  But it creates it with the empty string for
    [organization_id], which the store does not read as a UUID: the
    [INSERT] is rejected, [createAlert] logs the error, and no alert is
    stored. *)
Theorem position_change_alert_is_not_stored :
  let before :=
    Sample.store true [Sample.prior GEMINI 100 true (Some 3%Z)]
                 [Sample.job 0] in
  let run :=
    processTrackingJob (Sample.engine (Sample.answering Sample.acme_first))
                       Sample.task (Sample.at_noon before) in
  let after := db (snd run) in
  let decided :=
    decide_alert "p1" "k1" "best crm" GEMINI
                 (select_previous after "k1" GEMINI)
                 (most_recent after "k1" GEMINI) in
  fst run = Returns tt /\
  map status (tracking_jobs after) = [completed] /\
  map (fun c => (tracked_at c, domain_mentioned c, citation_position c))
      (citations after)
  = [(100%Z, true, Some 3%Z); (1000120%Z, true, Some 1%Z)] /\
  option_map (fun a => (alert_type a, severity a,
                        previous_value a, current_value a,
                        change_percent a)) decided
  = Some (position_change, info, Some "3", Some "1", Some (200 # 3)) /\
  option_map a_organization_id decided = Some "" /\
  option_map (Store.rejects_alert after) decided
  = Some (Some (Store.invalid_uuid "")) /\
  alerts after = [].
Proof. cbv zeta. repeat split; vm_compute; reflexivity. Qed.

End PositionChange.

(** ** Alerts on a lost citation *)

Section LostCitation.

Import TrackingEngine Worker.

(** The alert [checkForAlerts] decides on for a result without a
    citation: a lost citation, whenever the row the query returned
    mentions the domain. *)
Lemma decide_alert_without_citation
    (projectId keywordId keywordText : string) (p : AIPlatform)
    (previous : Citation) :
  domain_mentioned previous = true ->
  exists a,
    decide_alert projectId keywordId keywordText p (Some previous) None
    = Some a /\
    alert_type a = lost_citation /\
    severity a = warning /\
    previous_value a = option_map JS.toString (citation_position previous).
Proof.
  intros H. unfold decide_alert. simpl. rewrite H. simpl.
  eexists. split; [reflexivity|]. repeat split.
Qed.

(** With a citation of the current attempt, the lost-citation branch is
    the one the specification describes. *)
Lemma decide_alert_lost
    (projectId keywordId keywordText : string) (p : AIPlatform)
    (previous current : Citation) :
  (exists a,
      decide_alert projectId keywordId keywordText p
                   (Some previous) (Some current) = Some a /\
      alert_type a = lost_citation)
  <-> domain_mentioned previous = true /\ domain_mentioned current = false.
Proof.
  unfold decide_alert. simpl.
  destruct (domain_mentioned previous), (domain_mentioned current); simpl.
  - split; [|intros [_ H]; discriminate].
    intros (a & Ha & Ht).
    destruct (JS.truthy_number (citation_position previous) &&
              JS.truthy_number (citation_position current));
      [|discriminate].
    destruct (citation_position previous), (citation_position current);
      try discriminate.
    destruct (2 <=? Z.abs (z - z0))%Z; [|discriminate].
    injection Ha as <-. discriminate.
  - split; [auto|]. intros _. eexists. split; reflexivity.
  - split; [|intros [H _]; discriminate].
    intros (a & Ha & Ht).
    destruct (JS.truthy_number (citation_position previous) &&
              JS.truthy_number (citation_position current));
      [|discriminate].
    destruct (citation_position previous), (citation_position current);
      try discriminate.
    destruct (2 <=? Z.abs (z - z0))%Z; [|discriminate].
    injection Ha as <-. discriminate.
  - split; [|intros [H _]; discriminate].
    intros (a & Ha & Ht).
    destruct (JS.truthy_number (citation_position previous) &&
              JS.truthy_number (citation_position current));
      [|discriminate].
    destruct (citation_position previous), (citation_position current);
      try discriminate.
    destruct (2 <=? Z.abs (z - z0))%Z; [|discriminate].
    injection Ha as <-. discriminate.
Qed.

Lemma platform_eqb_refl (p : AIPlatform) : platform_eqb p p = true.
Proof. now destruct p. Qed.

(** A citation newer than the others comes first in the order of the
    query. *)
Lemma order_newest_last (l : list Citation) (c : Citation) :
  (forall x, In x l -> (tracked_at x < tracked_at c)%Z) ->
  order_by_tracked_at_desc (l ++ [c])%list = c :: order_by_tracked_at_desc l.
Proof.
  unfold order_by_tracked_at_desc.
  induction l as [|x l IH]; intros H; simpl; [reflexivity|].
  rewrite IH by (intros y Hy; apply H; now right).
  simpl.
  destruct (tracked_at c <=? tracked_at x)%Z eqn:E; [|reflexivity].
  apply Z.leb_le in E. specialize (H x (or_introl eq_refl)). lia.
Qed.

(** Once the citation of the current attempt is stored, and is the
    newest of its keyword and platform, the row the query returns is the
    most recent prior citation. *)
Lemma select_previous_after_store (d : DB) (c : Citation) :
  (forall x, In x (citations d) ->
             keyword_id x = keyword_id c -> platform x = platform c ->
             (tracked_at x < tracked_at c)%Z) ->
  select_previous (with_citations d [c]) (keyword_id c) (platform c)
  = most_recent d (keyword_id c) (platform c).
Proof.
  intros H. unfold select_previous, most_recent, with_citations. simpl.
  rewrite filter_app. simpl.
  rewrite String.eqb_refl, platform_eqb_refl. simpl.
  rewrite order_newest_last; [reflexivity|].
  intros x Hx. apply filter_In in Hx as [Hin Hx].
  apply andb_true_iff in Hx as [Hk Hp].
  apply String.eqb_eq in Hk.
  apply H; auto. destruct (platform x), (platform c); auto; discriminate.
Qed.

(** On an attempt that stored its citation, [checkForAlerts] decides on
    a lost-citation alert exactly when the most recent prior citation
    mentions the domain and the new one does not. *)
Lemma lost_citation_after_stored_attempt
    (projectId keywordText : string) (d : DB) (c : Citation) :
  (forall x, In x (citations d) ->
             keyword_id x = keyword_id c -> platform x = platform c ->
             (tracked_at x < tracked_at c)%Z) ->
  let previous :=
    select_previous (with_citations d [c]) (keyword_id c) (platform c) in
  (exists a,
      decide_alert projectId (keyword_id c) keywordText (platform c)
                   previous (Some c) = Some a /\
      alert_type a = lost_citation)
  <-> (exists prior,
          most_recent d (keyword_id c) (platform c) = Some prior /\
          domain_mentioned prior = true) /\
      domain_mentioned c = false.
Proof.
  intros H. cbv zeta. rewrite (select_previous_after_store d c H).
  destruct (most_recent d (keyword_id c) (platform c)) as [prior|].
  - rewrite decide_alert_lost. split.
    + intros [Hp Hc]. split; [now exists prior | exact Hc].
    + intros [(x & [= <-] & Hp) Hc]. now split.
  - split.
    + intros (a & Ha & Ht). unfold decide_alert in Ha. simpl in Ha.
      destruct (domain_mentioned c); simpl in Ha; [|discriminate].
      injection Ha as <-. discriminate.
    + intros [(x & Hx & _) _]. discriminate.
Qed.

(** C7 at a failing input.  Keyword [k1] has one citation on Gemini, at
    rank 1, which mentions the domain.  The worker processes a Gemini job
    for it and the provider answers with a competitor only: the job is
    completed and a citation that does not mention the domain is
    persisted.  [checkForAlerts] decides on the alert of the claim: a
    [lost_citation], of severity [warning], with the previous position 1.
    But it creates it with the empty string for [organization_id], which
    the store does not read as a UUID: the [INSERT] is rejected,
    [createAlert] logs the error, and no alert is stored. *)
Theorem lost_citation_alert_is_not_stored :
  let before :=
    Sample.store true [Sample.prior GEMINI 100 true (Some 1%Z)]
                 [Sample.job 0] in
  let run :=
    processTrackingJob (Sample.engine (Sample.answering Sample.others_only))
                       Sample.task (Sample.at_noon before) in
  let after := db (snd run) in
  let decided :=
    decide_alert "p1" "k1" "best crm" GEMINI
                 (select_previous after "k1" GEMINI)
                 (most_recent after "k1" GEMINI) in
  fst run = Returns tt /\
  map status (tracking_jobs after) = [completed] /\
  map (fun c => (tracked_at c, domain_mentioned c, citation_position c))
      (citations after)
  = [(100%Z, true, Some 1%Z); (1000120%Z, false, None)] /\
  option_map (fun a => (alert_type a, severity a, previous_value a)) decided
  = Some (lost_citation, warning, Some "1") /\
  option_map a_organization_id decided = Some "" /\
  option_map (Store.rejects_alert after) decided
  = Some (Some (Store.invalid_uuid "")) /\
  alerts after = [].
Proof. cbv zeta. repeat split; vm_compute; reflexivity. Qed.

(** A failed attempt.  The keyword has two citations on Gemini, at rank
    1 and then at rank 2, both mentioning the domain, and the provider
    refuses the query: no citation is persisted and the job is completed.
    [checkForAlerts] runs on the failed result all the same, and its
    query, with [OFFSET 1], returns the older of the two citations: it
    decides on a [lost_citation] alert, with the previous position 1.
    That alert is not stored either. *)
Example failed_attempt_decides_on_lost_citation :
  let before :=
    Sample.store true
      [Sample.prior GEMINI 100 true (Some 1%Z);
       Sample.prior GEMINI 200 true (Some 2%Z)]
      [Sample.job 0] in
  let run :=
    processTrackingJob (Sample.engine (Sample.answering Sample.rate_limited))
                       Sample.task (Sample.at_noon before) in
  let after := db (snd run) in
  fst run = Returns tt /\
  citations after = citations before /\
  map status (tracking_jobs after) = [completed] /\
  map (fun j => option_map success (result_data j)) (tracking_jobs after)
  = [Some false] /\
  option_map (fun a => (alert_type a, severity a, previous_value a,
                        a_organization_id a))
    (decide_alert "p1" "k1" "best crm" GEMINI
                  (select_previous after "k1" GEMINI) None)
  = Some (lost_citation, warning, Some "1", "") /\
  alerts after = [].
Proof. cbv zeta. repeat split; vm_compute; reflexivity. Qed.

End LostCitation.

(** ** A job whose processing raises *)

Section FailedJob.

Import TrackingEngine Worker.

(** C4, as the code has it.  When the processing of a job raises, every
    row of the job gets status [failed], the error message, and a
    [retry_count] one higher, whatever that count was; the other rows
    are untouched, and no row is set to [retrying]. *)
Theorem failed_job_is_marked_failed
    (cfg : TrackingEngineConfig) (job : TrackingJobData) (w w' : World)
    (message : string) :
  processTrackingJob cfg job w = (Throws message, w') ->
  tracking_jobs (db w') =
    map (after_failure (jobId job) message (now w)) (tracking_jobs (db w)) /\
  (forall j, In j (tracking_jobs (db w)) -> j_id j = jobId job ->
     let j' := after_failure (jobId job) message (now w) j in
     In j' (tracking_jobs (db w')) /\
     status j' = failed /\
     retry_count j' = S (retry_count j) /\
     error_message j' = Some message) /\
  (forall j, In j (tracking_jobs (db w)) -> j_id j <> jobId job ->
     In j (tracking_jobs (db w'))).
Proof.
  intros Hrun.
  assert (Hjobs : tracking_jobs (db w') =
                  map (after_failure (jobId job) message (now w))
                      (tracking_jobs (db w))).
  { destruct (select_keyword (db w) (keywordId job)) as [[row joined]|] eqn:Hk.
    - destruct (processTrackingJob_outcome cfg job w row joined Hk)
        as (r & t' & _ & _ & _ & Hout).
      rewrite Hrun in Hout. cbn [fst snd] in Hout.
      destruct (Store.jsonb (Store.result_strings r)) as [e|].
      + destruct Hout as [[= ->] Hj]. exact Hj.
      + destruct Hout as [Hret _]. discriminate.
    - pose proof (processTrackingJob_keyword_missing cfg job w Hk) as H.
      cbv zeta in H. rewrite H in Hrun.
      injection Hrun as <- <-. reflexivity. }
  split; [exact Hjobs|]. split.
  - intros j Hin Hid. cbv zeta. split.
    + rewrite Hjobs. now apply in_map.
    + unfold after_failure. apply Nat.eqb_eq in Hid. rewrite Hid.
      repeat split.
  - intros j Hin Hid. rewrite Hjobs.
    replace j with (after_failure (jobId job) message (now w) j) at 1.
    + now apply in_map.
    + unfold after_failure. apply Nat.eqb_neq in Hid. now rewrite Hid.
Qed.

(** C4 as stated fails.  The queue delivers the message of job 0 with
    the id of a keyword the store no longer has: the processing raises
    "Keyword not found".  The job fails for the first time and ends with
    [retry_count = 1], below the three retries of the specification, and
    its status is [failed], where the specification says [retrying]. *)
Lemma first_failure_is_not_retried :
  let run :=
    processTrackingJob (Sample.engine (Sample.answering Sample.acme_first))
                       Sample.stray_task
                       (Sample.at_noon (Sample.store true [] [Sample.job 0])) in
  fst run = Throws "Keyword not found" /\
  map (fun j => (status j, retry_count j)) (tracking_jobs (db (snd run)))
  = [(failed, 1%nat)] /\
  status_as_specified 3 1 = retrying.
Proof. cbv zeta. repeat split; vm_compute; reflexivity. Qed.

(** The witness of C4: that message and that store. *)
Lemma failed_job_is_marked_failed_witness :
  let w := Sample.at_noon (Sample.store true [] [Sample.job 0]) in
  let cfg := Sample.engine (Sample.answering Sample.acme_first) in
  let w' := snd (processTrackingJob cfg Sample.stray_task w) in
  tracking_jobs (db w') =
    map (after_failure 0 "Keyword not found" (now w)) (tracking_jobs (db w)) /\
  (forall j, In j (tracking_jobs (db w)) -> j_id j = 0%nat ->
     let j' := after_failure 0 "Keyword not found" (now w) j in
     In j' (tracking_jobs (db w')) /\
     status j' = failed /\
     retry_count j' = S (retry_count j) /\
     error_message j' = Some "Keyword not found") /\
  (forall j, In j (tracking_jobs (db w)) -> j_id j <> 0%nat ->
     In j (tracking_jobs (db w'))).
Proof.
  cbv zeta.
  apply (failed_job_is_marked_failed
           (Sample.engine (Sample.answering Sample.acme_first))
           Sample.stray_task
           (Sample.at_noon (Sample.store true [] [Sample.job 0]))).
  vm_compute. reflexivity.
Defined.

(** The job of a keyword the store has, the answer of the provider
    holding the character of code 0: the store rejects the citation, and
    then the result, which it cannot take as [JSONB].  The processing
    raises, and the job, which had failed twice, ends [failed] with
    [retry_count = 3]. *)
Example failure_on_an_answer_with_nul :
  let run :=
    processTrackingJob (Sample.engine (Sample.answering Sample.with_nul))
                       Sample.task
                       (Sample.at_noon (Sample.store true [] [Sample.job 2])) in
  fst run = Throws Store.bad_escape /\
  citations (db (snd run)) = [] /\
  map (fun j => (status j, retry_count j, error_message j))
      (tracking_jobs (db (snd run)))
  = [(failed, 3%nat, Some Store.bad_escape)] /\
  status_as_specified 3 2 = retrying.
Proof. cbv zeta. repeat split; vm_compute; reflexivity. Qed.

End FailedJob.

(** ** Scheduling a batch *)

Section Schedule.

Import Routes.











(** Three keywords selected: the jobs of the first two are inserted, the
    answer counts those of the first, and the third keyword is never
    scheduled. *)
Example schedule_of_three_keywords :
  let k (id : string) :=
    {| k_id := id; k_project_id := "p1"; keyword_text := id;
       k_is_active := true; last_tracked_at := None |} in
  let d :=
    {| organizations := ["o1"]; projects := [Sample.acme];
       keywords := [k "k1"; k "k2"; k "k3"]; citations := [];
       tracking_jobs := []; alerts := []; next_uuid := 0 |} in
  let run := schedule "o1" Sample.batch (Sample.at_noon d) in
  fst run = Returns
              {| answered := Some 1%nat;
                 raised :=
                   Some "Cannot set headers after they are sent to the client"
              |} /\
  map j_keyword_id (tracking_jobs (db (snd run))) = ["k1"; "k2"].
Proof. cbv zeta. split; vm_compute; reflexivity. Qed.

(** C2 at a failing input.  The project has one active keyword; the same
    request, for Gemini at the instant 5000, is submitted twice to an
    empty queue.  Each submission answers that it scheduled one job, and
    the queue ends with two pending rows of the same project, keyword,
    platform and instant, where the specification expects one. *)
Theorem schedule_twice_duplicates :
  let w0 := Sample.at_noon (Sample.store true [] []) in
  let first := schedule "o1" Sample.batch w0 in
  let second := schedule "o1" Sample.batch (snd first) in
  fst first = Returns {| answered := Some 1%nat; raised := None |} /\
  fst second = Returns {| answered := Some 1%nat; raised := None |} /\
  map planned (tracking_jobs (db (snd second)))
  = [("p1", "k1", GEMINI, 5000%Z, pending);
     ("p1", "k1", GEMINI, 5000%Z, pending)] /\
  map j_id (tracking_jobs (db (snd second))) = [0%nat; 1%nat].
Proof. cbv zeta. repeat split; vm_compute; reflexivity. Qed.

End Schedule.

(** ** The scenarios of the specification, run *)

Section Scenarios.

Import TrackingEngine Worker.

(** A first citation: the record, and the stamp of the keyword.  The
    sentiment is neutral, the domain having a full stop in it.  The
    worker decides on a [new_citation] alert, which the store rejects. *)
Example scenario_new_citation :
  let run :=
    processTrackingJob (Sample.engine (Sample.answering Sample.acme_second))
                       Sample.task
                       (Sample.at_noon (Sample.store true [] [Sample.job 0])) in
  let after := db (snd run) in
  map (fun c => (domain_mentioned c, citation_position c, sentiment c,
                 total_sources_cited c,
                 map (fun k => (cc_domain k, cc_position k))
                     (competitor_citations c)))
      (citations after)
  = [(true, Some 2%Z, neutral, 2%nat, [("other.com", 1%Z)])] /\
  option_map (fun a => (alert_type a, severity a))
    (decide_alert "p1" "k1" "best crm" GEMINI
                  (select_previous after "k1" GEMINI)
                  (most_recent after "k1" GEMINI))
  = Some (new_citation, info) /\
  alerts after = [] /\
  map (fun k => last_tracked_at k) (keywords after) = [Some 1000120%Z].
Proof. cbv zeta. repeat split; vm_compute; reflexivity. Qed.

End Scenarios.

(* ===================================================================== *)
(** * Further properties of the code                                     *)
(* ===================================================================== *)

(** ** The results of a run *)

Section ResultsOfARun.

Import TrackingEngine.


(** What a turn pushes and stores, in numbers. *)
Lemma pushed_counts (d : DB) (p : AIPlatform) (r : TrackResult) :
  result_of p r ->
  let pushed := pushed_for d p r in
  let added := stored_for d r in
  successes pushed = (if success r then 1 else 0)%nat /\
  (List.length pushed + List.length added
   = if success r then 2 else 1)%nat /\
  (1 <= List.length pushed)%nat.
Proof.
  intros (_ & Hs & _). cbv zeta.
  unfold pushed_for, stored_for, to_store, accepts, successes.
  destruct (success r) eqn:Es.
  - destruct (citation r) as [c|].
    + simpl. rewrite Es.
      destruct (Store.rejects_citation d c); simpl; repeat split; lia.
    + exfalso. destruct Hs as [Hs _]. now apply Hs.
  - simpl. rewrite Es. simpl. repeat split; lia.
Qed.

Lemma results_counts cfg keyword project d platforms firsts :
  Forall2 (first_result cfg keyword project) platforms firsts ->
  let results :=
    flat_map (fun r => pushed_for d (result_platform r) r) firsts in
  let added := flat_map (stored_for d) firsts in
  (List.length results - successes results + List.length added
   = List.length platforms)%nat /\
  (List.length added <= successes results)%nat /\
  (successes results <= List.length platforms)%nat /\
  (successes results <= List.length results)%nat /\
  (List.length platforms <= List.length results)%nat /\
  (List.length results <= 2 * List.length platforms)%nat.
Proof.
  cbv zeta. induction 1 as [|p r ps rs (Hr & _) _ IH].
  - unfold successes. simpl. repeat split; lia.
  - destruct (pushed_counts d p r Hr) as (H1 & H2 & H3).
    cbv zeta in H1, H2, H3.
    destruct Hr as (Hp & _). cbn [flat_map List.length]. rewrite Hp.
    assert (Happ : forall a b, successes (a ++ b)
                               = (successes a + successes b)%nat)
      by (intros a b; unfold successes;
          now rewrite filter_app, length_app).
    rewrite Happ, !length_app.
    destruct (success r); lia.
Qed.

End ResultsOfARun.


(** X5.  For copilot, claude, grok and deepseek the engine has no case:
    the result is the failure "Platform ... not supported", with a
    response time of 0, whatever the configuration; no adapter is called
    and the world is left as it is.  Hence every citation [trackKeyword]
    stores is on one of the four other platforms, and on a platform of
    the request. *)
Theorem unsupported_platforms_always_fail
    (cfg : TrackingEngine.TrackingEngineConfig) (keyword : Keyword)
    (project : Project) :
  (forall p w,
      supported p = false ->
      TrackingEngine.trackOnPlatform cfg keyword project p w
      = (Returns (TrackingEngine.failure
                    ("Platform " ++ platform_value p ++ " not supported")
                    p 0), w)) /\
  (forall platforms w,
      exists added,
        citations
          (db (snd (TrackingEngine.trackKeyword cfg keyword project
                      platforms w)))
        = (citations (db w) ++ added)%list /\
        Forall (fun c => supported (platform c) = true /\
                         In (platform c) platforms) added).
Proof.
  split.
  - intros p w Hp. now apply trackOnPlatform_unsupported.
  - intros platforms w.
    destruct (trackKeyword_appends cfg keyword project platforms w)
      as (firsts & Hf & Hc).
    exists (flat_map (stored_for (db w)) firsts). split; [exact Hc|].
    apply Forall_forall. intros c Hin.
    destruct (stored_are_analysed cfg keyword project platforms firsts
                (db w) c Hf Hin)
      as (p & Hp & (a & t & response & elapsed & Hs & _ & _ & ->) & _).
    cbn [platform TrackingEngine.analyze]. split; [|exact Hp].
    destruct p; simpl in Hs |- *; try reflexivity; discriminate.
Qed.

(** ** Tracking a whole project *)

Section WholeProject.

Import TrackingEngine ProjectTracking.

(** What [results.forEach] adds to the counters. *)
Lemma count_results results acc :
  let r := fold_left count_result results acc in
  totalKeywords r = totalKeywords acc /\
  successfulTracks r = (successfulTracks acc + successes results)%nat /\
  (successfulTracks r + failedTracks r
   = successfulTracks acc + failedTracks acc + List.length results)%nat /\
  (newCitations acc <= newCitations r)%nat /\
  (newCitations r + successfulTracks acc
   <= newCitations acc + successfulTracks r)%nat.
Proof.
  cbv zeta. unfold successes.
  revert acc; induction results as [|x results IH]; intros acc; simpl.
  - lia.
  - destruct (IH (count_result acc x)) as (Ht & Hs & Hsum & Hn & Hle).
    clear IH.
    assert (A : totalKeywords (count_result acc x) = totalKeywords acc /\
                successfulTracks (count_result acc x)
                = (successfulTracks acc + if success x then 1 else 0)%nat /\
                failedTracks (count_result acc x)
                = (failedTracks acc + if success x then 0 else 1)%nat /\
                (newCitations acc <= newCitations (count_result acc x))%nat /\
                (newCitations (count_result acc x)
                 <= newCitations acc + if success x then 1 else 0)%nat).
    { unfold count_result. destruct (success x); simpl.
      - destruct (citation x) as [c|]; [destruct (domain_mentioned c)|];
          simpl; repeat split; lia.
      - repeat split; lia. }
    destruct A as (A1 & A2 & A3 & A4 & A5).
    destruct (success x); simpl; repeat split; lia.
Qed.

Lemma touch_stamped id t k : stamped [id] k (touch id t k).
Proof.
  unfold stamped, touch.
  destruct (String.eqb (k_id k) id) eqn:E; simpl; repeat split; auto.
  intros [->|[]]. now rewrite String.eqb_refl in E.
Qed.

Lemma stamped_trans ids1 ids2 k1 k2 k3 :
  stamped ids1 k1 k2 -> stamped ids2 k2 k3 ->
  stamped (ids1 ++ ids2) k1 k3.
Proof.
  intros (Hi & Hp & Hx & Ha & Ht & Hs) (Hi' & Hp' & Hx' & Ha' & Ht' & Hs').
  unfold stamped. repeat split; try congruence; auto.
  intros Hin. apply in_app_or in Hin as [Hin|Hin]; auto.
  apply Hs'. now rewrite Hi.
Qed.

Lemma Forall2_stamped_trans ids1 ids2 l1 l2 l3 :
  Forall2 (stamped ids1) l1 l2 -> Forall2 (stamped ids2) l2 l3 ->
  Forall2 (stamped (ids1 ++ ids2)) l1 l3.
Proof.
  intros H. revert l3. induction H as [|a b l1 l2 Hab _ IH]; intros l3 H3.
  - inversion H3. constructor.
  - inversion H3 as [|? c ? l3' Hbc H3']; subst.
    constructor; [now apply (stamped_trans ids1 ids2 a b c) | now apply IH].
Qed.

Lemma Forall2_stamped_refl l : Forall2 (stamped []) l l.
Proof.
  induction l as [|k l IH]; constructor; auto.
  unfold stamped. simpl. intuition.
Qed.

(** The loop over keywords whose ids the store reads as UUIDs: the
    counters, the citations and the stamps it leaves. *)
Lemma track_keywords_effect cfg project platformList keywordRows acc w :
  Forall (fun k => Store.uuid (db w) (k_id k) = None) keywordRows ->
  exists r w' added,
    track_keywords cfg project platformList keywordRows acc w
      = (Returns r, w') /\
    totalKeywords r = totalKeywords acc /\
    (failedTracks r + List.length added
     = failedTracks acc
       + List.length keywordRows * List.length platformList)%nat /\
    (successfulTracks acc + List.length added <= successfulTracks r)%nat /\
    (successfulTracks r
     <= successfulTracks acc
        + List.length keywordRows * List.length platformList)%nat /\
    (newCitations r + successfulTracks acc
     <= newCitations acc + successfulTracks r)%nat /\
    citations (db w') = (citations (db w) ++ added)%list /\
    Forall2 (stamped (map k_id keywordRows))
            (keywords (db w)) (keywords (db w')) /\
    (forall s, Store.uuid (db w') s = Store.uuid (db w) s).
Proof.
  revert acc w. induction keywordRows as [|k rest IH]; intros acc w Hall.
  - exists acc, w, []. simpl. rewrite app_nil_r.
    repeat split; auto; try lia. apply Forall2_stamped_refl.
  - inversion Hall as [|? ? Hk Hrest]; subst.
    simpl. unfold bind at 1. unfold try_catch. unfold bind at 1.
    destruct (trackKeyword_effect cfg k project platformList w)
      as (firsts & w1 & Hf & Hd & ->). cbv zeta. rewrite Hk.
    unfold ret at 1. unfold bind at 1. unfold sleep at 1.
    set (results :=
           flat_map (fun r => pushed_for (db w) (result_platform r) r) firsts).
    destruct (count_results results acc) as (Ht & Hs & Hsum & Hn & Hle).
    cbv zeta in Ht, Hs, Hsum, Hn, Hle.
    destruct (results_counts cfg k project (db w) platformList firsts Hf)
      as (C1 & C2 & C3 & C4 & _). cbv zeta in C1, C2, C3, C4.
    fold results in C1, C2, C3, C4.
    set (acc1 := fold_left count_result results acc) in *.
    set (added1 := flat_map (stored_for (db w)) firsts) in *.
    cbn [db now].
    set (w2 := {| db := stamp (k_id k) (now w1) (db w1);
                  now := (now w1 + 1000)%Z |}).
    assert (Hu : forall s, Store.uuid (db w2) s = Store.uuid (db w) s).
    { intros s. unfold w2. cbn [db]. rewrite uuid_stamp, Hd. reflexivity. }
    destruct (IH acc1 w2)
      as (r & w' & added & Hrun & Ht' & Hf' & Hs' & Hs'' & Hle' & Hc' & Hst
          & Hu').
    { eapply Forall_impl; [|exact Hrest]. intros k' Hk'. cbv beta.
      now rewrite Hu. }
    exists r, w', (added1 ++ added)%list. split; [exact Hrun|].
    rewrite length_app.
    split; [congruence|]. split; [lia|]. split; [lia|]. split; [lia|].
    split; [lia|]. split; [|split].
    + rewrite Hc'. unfold w2. cbn [db stamp citations]. rewrite Hd.
      unfold with_citations. cbn [citations]. now rewrite app_assoc.
    + change (k_id k :: map k_id rest) with ([k_id k] ++ map k_id rest)%list.
      eapply Forall2_stamped_trans; [|exact Hst].
      unfold w2. cbn [db stamp keywords]. rewrite Hd.
      unfold with_citations. cbn [keywords].
      clear. induction (keywords (db w)) as [|x l IHl]; simpl;
        constructor; auto. apply touch_stamped.
    + intros s. now rewrite Hu', Hu.
Qed.

Lemma find_project (d : DB) (projectId : string) (project : Project) :
  find (fun p => String.eqb (p_id p) projectId) (projects d) = Some project ->
  Store.uuid d projectId = None.
Proof.
  intros H. apply find_some in H as [Hin Hid].
  apply String.eqb_eq in Hid. rewrite <- Hid.
  now destruct (uuid_of_project d project Hin).
Qed.

Lemma selected_keywords_are_read (d : DB) projectId ids :
  Forall (fun k => Store.uuid d (k_id k) = None)
         (filter (selected projectId ids) (keywords d)).
Proof.
  apply Forall_forall. intros k Hk. apply filter_In in Hk as [Hin _].
  now apply uuid_of_keyword.
Qed.

(** [trackProject], by the answers of the store to its two queries. *)
Lemma trackProject_run cfg projectId options w :
  trackProject cfg projectId options w =
  match Store.uuid (db w) projectId with
  | Some e => (Throws e, w)
  | None =>
      match find (fun p => String.eqb (p_id p) projectId) (projects (db w))
      with
      | None => (Throws ("Project " ++ projectId ++ " not found"), w)
      | Some project =>
          match Store.first_error
                  (map (Store.uuid (db w))
                       match filter_of options with
                       | Some ids => ids
                       | None => []
                       end) with
          | Some e => (Throws e, w)
          | None =>
              track_keywords cfg project (platforms_of options)
                (filter (selected projectId (filter_of options))
                        (keywords (db w)))
                {| totalKeywords :=
                     List.length
                       (filter (selected projectId (filter_of options))
                               (keywords (db w)));
                   successfulTracks := 0; failedTracks := 0;
                   newCitations := 0 |} w
          end
      end
  end.
Proof.
  unfold trackProject, bind, read_db, Store.reading.
  cbn [Store.first_error].
  destruct (Store.uuid (db w) projectId) as [e|]; [reflexivity|].
  unfold ret at 1.
  destruct (find _ (projects (db w))) as [project|]; [|reflexivity].
  replace (match filter_of options with
           | Some ids => map (Store.uuid (db w)) ids
           | None => []
           end)
    with (map (Store.uuid (db w))
              match filter_of options with
              | Some ids => ids
              | None => []
              end)
    by (now destruct (filter_of options)).
  destruct (Store.first_error _) as [e|]; reflexivity.
Qed.


Lemma selected_stamped ids k k' :
  stamped ids k k' -> forall pid flt, selected pid flt k' = selected pid flt k.
Proof.
  intros (Hi & Hp & _ & Ha & _) pid flt. unfold selected.
  now rewrite Hi, Hp, Ha.
Qed.

(** X7.  After [trackProject] has run without a keyword filter, every
    active keyword of the project carries a [last_tracked_at]: the status
    of the project counts no pending keyword, and as many tracked
    keywords as the run reports. *)
Theorem trackProject_leaves_none_pending
    (cfg : TrackingEngineConfig) (projectId : string)
    (options : option TrackProjectOptions) (w : World) (project : Project) :
  find (fun p => String.eqb (p_id p) projectId) (projects (db w))
    = Some project ->
  filter_of options = None ->
  exists r w' st,
    trackProject cfg projectId options w = (Returns r, w') /\
    getProjectTrackingStatus projectId w' = (Returns st, w') /\
    pendingKeywords st = 0%nat /\
    trackedKeywords st = totalKeywords r /\
    status_total st = totalKeywords r.
Proof.
  intros Hfind Hflt. rewrite trackProject_run.
  rewrite (find_project (db w) projectId project Hfind), Hfind, Hflt.
  cbn [map Store.first_error].
  destruct (track_keywords_effect cfg project (platforms_of options)
              (filter (selected projectId None) (keywords (db w)))
              {| totalKeywords :=
                   List.length (filter (selected projectId None)
                                       (keywords (db w)));
                 successfulTracks := 0; failedTracks := 0;
                 newCitations := 0 |} w
              (selected_keywords_are_read (db w) projectId None))
    as (r & w' & added & Hrun & Ht & _ & _ & _ & _ & _ & Hst & Hu).
  rewrite Hrun. simpl in Ht. exists r, w'.
  unfold getProjectTrackingStatus, bind, read_db, Store.reading.
  cbn [Store.first_error].
  rewrite Hu, (find_project (db w) projectId project Hfind).
  unfold ret.
  eexists. split; [reflexivity|]. split; [reflexivity|].
  simpl. rewrite Ht.
  assert (H : forall l l',
             Forall2 (stamped (map k_id (filter (selected projectId None)
                                                (keywords (db w))))) l l' ->
             (forall k, In k l -> In k (keywords (db w))) ->
             List.length (filter (fun k => negb (is_tracked k))
                                 (filter (selected projectId None) l')) = 0%nat
             /\ List.length (filter is_tracked
                                    (filter (selected projectId None) l'))
                = List.length (filter (selected projectId None) l)
             /\ List.length (filter (selected projectId None) l')
                = List.length (filter (selected projectId None) l)).
  { induction 1 as [|k k' l l' Hk _ IH]; intros Hin; simpl; [auto|].
    destruct IH as (IH1 & IH2 & IH3);
      [intros x Hx; apply Hin; now right|].
    rewrite (selected_stamped _ k k' Hk).
    destruct (selected projectId None k) eqn:Es; simpl; [|auto].
    destruct Hk as (_ & _ & _ & _ & _ & Hs).
    rewrite Hs; simpl; [auto|].
    apply in_map. apply filter_In. split; [apply Hin; now left | exact Es]. }
  destruct (H _ _ Hst (fun k Hk => Hk)) as (H1 & H2 & H3). auto.
Qed.

(** The witness of X7: the sample project, tracked on every platform. *)
Lemma trackProject_leaves_none_pending_witness :
  exists r w' st,
    trackProject (Sample.engine (Sample.answering Sample.acme_first))
                 "p1" None (Sample.at_noon (Sample.store true [] []))
      = (Returns r, w') /\
    getProjectTrackingStatus "p1" w' = (Returns st, w') /\
    pendingKeywords st = 0%nat /\
    trackedKeywords st = totalKeywords r /\
    status_total st = totalKeywords r.
Proof.
  apply (trackProject_leaves_none_pending
           (Sample.engine (Sample.answering Sample.acme_first))
           "p1" None (Sample.at_noon (Sample.store true [] []))
           Sample.acme).
  - reflexivity.
  - reflexivity.
Defined.

(** The sample project tracked on all eight platforms: one keyword, one
    success (Gemini, the only service configured), seven failures. *)
Example trackProject_sample :
  match fst (trackProject
               (Sample.engine (Sample.answering Sample.acme_first))
               "p1" None (Sample.at_noon (Sample.store true [] []))) with
  | Returns r =>
      (totalKeywords r, successfulTracks r, failedTracks r, newCitations r)
      = (1, 1, 7, 1)%nat
  | Throws _ => False
  end.
Proof. vm_compute. reflexivity. Qed.

(** The same with an answer whose text holds the character of code 0:
    the store rejects the citation, and the turn of Gemini counts both as
    a successful and as a failed track, eight failures in all. *)
Example trackProject_rejected_citation :
  let run :=
    trackProject (Sample.engine (Sample.answering Sample.with_nul))
                 "p1" None (Sample.at_noon (Sample.store true [] [])) in
  match fst run with
  | Returns r =>
      (totalKeywords r, successfulTracks r, failedTracks r, newCitations r)
      = (1, 1, 8, 1)%nat
  | Throws _ => False
  end /\
  citations (db (snd run)) = [].
Proof. cbv zeta. split; vm_compute; reflexivity. Qed.

End WholeProject.

(** ** A job whose keyword exists *)

Section CompletedJob.

Import TrackingEngine Worker.

(** X8.  When the keyword of a job is found, [processTrackingJob] runs
    the engine on the platform of the job, and the store keeps the
    citation of the result if the result is successful and the store
    takes the citation.  Every row of the job then ends [completed], with
    the result of the attempt, [citation_found] telling whether the
    domain is mentioned, and its [retry_count] untouched, whether the
    attempt succeeded or failed, and the processing returns; unless the
    store cannot take the result as [JSONB], a text of the result holding
    the character of code 0: then the processing raises the error of the
    store and every row of the job ends [failed], with that message and
    [retry_count] one higher. *)
Theorem processTrackingJob_completes
    (cfg : TrackingEngineConfig) (job : TrackingJobData) (w : World)
    (found : Keyword * Project) :
  select_keyword (db w) (keywordId job) = Some found ->
  exists result t',
    let run := processTrackingJob cfg job w in
    result_of (job_platform job) result /\
    citations (db (snd run))
    = (citations (db w) ++ stored_for (db w) result)%list /\
    match Store.jsonb (Store.result_strings result) with
    | None =>
        fst run = Returns tt /\
        tracking_jobs (db (snd run))
        = map (after_completion (jobId job) (now w) t' result)
              (tracking_jobs (db w)) /\
        (forall j, In j (tracking_jobs (db w)) -> j_id j = jobId job ->
           let j' := after_completion (jobId job) (now w) t' result j in
           status j' = completed /\
           retry_count j' = retry_count j /\
           result_data j' = Some result /\
           citation_found j' = Some (mentioned (citation result)))
    | Some e =>
        e = Store.bad_escape /\
        fst run = Throws e /\
        tracking_jobs (db (snd run))
        = map (after_failure (jobId job) e (now w)) (tracking_jobs (db w)) /\
        (forall j, In j (tracking_jobs (db w)) -> j_id j = jobId job ->
           let j' := after_failure (jobId job) e (now w) j in
           status j' = failed /\
           retry_count j' = S (retry_count j) /\
           error_message j' = Some e)
    end.
Proof.
  intros Hk. destruct found as [row joined].
  destruct (processTrackingJob_outcome cfg job w row joined Hk)
    as (r & t' & (Hr & _) & Hc & _ & Hout).
  exists r, t'. cbv zeta. split; [exact Hr|]. split; [exact Hc|].
  destruct (Store.jsonb (Store.result_strings r)) as [e|] eqn:Ej.
  - destruct Hout as [Hthrows Hj].
    split.
    { unfold Store.jsonb in Ej.
      destruct (existsb Store.has_nul (Store.result_strings r));
        [now injection Ej as <- | discriminate]. }
    split; [exact Hthrows|]. split; [exact Hj|].
    intros j _ Hid. unfold after_failure.
    apply Nat.eqb_eq in Hid. rewrite Hid. simpl. auto.
  - destruct Hout as [Hret Hj].
    split; [exact Hret|]. split; [exact Hj|].
    intros j _ Hid. unfold after_completion.
    apply Nat.eqb_eq in Hid. rewrite Hid. simpl. auto.
Qed.

(** The witness of X8: the job of the sample keyword, the provider
    refusing the query. *)
Lemma processTrackingJob_completes_witness :
  let cfg := Sample.engine (Sample.answering Sample.rate_limited) in
  let w := Sample.at_noon (Sample.store true [] [Sample.job 2]) in
  exists result t',
    let run := processTrackingJob cfg Sample.task w in
    result_of GEMINI result /\
    citations (db (snd run))
    = (citations (db w) ++ stored_for (db w) result)%list /\
    match Store.jsonb (Store.result_strings result) with
    | None =>
        fst run = Returns tt /\
        tracking_jobs (db (snd run))
        = map (after_completion 0 (now w) t' result) (tracking_jobs (db w)) /\
        (forall j, In j (tracking_jobs (db w)) -> j_id j = 0%nat ->
           let j' := after_completion 0 (now w) t' result j in
           status j' = completed /\
           retry_count j' = retry_count j /\
           result_data j' = Some result /\
           citation_found j' = Some (mentioned (citation result)))
    | Some e =>
        e = Store.bad_escape /\
        fst run = Throws e /\
        tracking_jobs (db (snd run))
        = map (after_failure 0 e (now w)) (tracking_jobs (db w)) /\
        (forall j, In j (tracking_jobs (db w)) -> j_id j = 0%nat ->
           let j' := after_failure 0 e (now w) j in
           status j' = failed /\
           retry_count j' = S (retry_count j) /\
           error_message j' = Some e)
    end.
Proof.
  cbv zeta.
  apply (processTrackingJob_completes
           (Sample.engine (Sample.answering Sample.rate_limited))
           Sample.task
           (Sample.at_noon (Sample.store true [] [Sample.job 2]))
           (Sample.crm true, Sample.acme)).
  reflexivity.
Defined.

(** The job of the sample keyword when the provider refuses the query:
    completed, with a failed result and without a citation. *)
Example completed_with_a_failed_result :
  let run :=
    processTrackingJob (Sample.engine (Sample.answering Sample.rate_limited))
                       Sample.task
                       (Sample.at_noon (Sample.store true [] [Sample.job 2])) in
  fst run = Returns tt /\
  map (fun j => (status j, retry_count j, citation_found j,
                 option_map success (result_data j)))
      (tracking_jobs (db (snd run)))
  = [(completed, 2%nat, Some false, Some false)] /\
  citations (db (snd run)) = [].
Proof. cbv zeta. repeat split; vm_compute; reflexivity. Qed.

(** X9.  The worker stores no alert.  Every alert [checkForAlerts]
    decides on has the empty string for [organization_id]; on a store
    none of whose UUID columns holds the empty string, as the schema
    guarantees, the [INSERT] of [createAlert] is rejected and the error
    only logged.  So [processTrackingJob] leaves the table of alerts as
    it was, whether the job is completed or fails. *)
Theorem worker_stores_no_alert
    (cfg : TrackingEngineConfig) (job : TrackingJobData) (w : World) :
  Store.names (db w) "" = false ->
  alerts (db (snd (processTrackingJob cfg job w))) = alerts (db w) /\
  (forall projectId keywordId keywordText p previous current a,
      decide_alert projectId keywordId keywordText p previous current
      = Some a ->
      a_organization_id a = "" /\
      (exists e, Store.rejects_alert (db w) a = Some e) /\
      Alerts.createAlert a w = (Returns tt, w)).
Proof.
  intros Hn. split.
  - destruct (select_keyword (db w) (keywordId job)) as [[row joined]|] eqn:Hk.
    + destruct (processTrackingJob_outcome cfg job w row joined Hk)
        as (r & t' & _ & _ & Ha & _).
      now apply Ha.
    + pose proof (processTrackingJob_keyword_missing cfg job w Hk) as H.
      cbv zeta in H. rewrite H. reflexivity.
  - intros projectId keywordId keywordText p previous current a Ha.
    destruct (decide_alert_kind _ _ _ _ _ _ _ Ha) as ((Ho & _) & _).
    destruct (rejects_alert_without_organization (db w) a Hn Ho) as (e & He).
    split; [exact Ho|]. split; [now exists e|].
    destruct (createAlert_effect a w) as (w' & -> & _ & _ & Hsame).
    now rewrite (Hsame e He).
Qed.

(** The witness of X9: the first citation of the sample keyword. *)
Lemma worker_stores_no_alert_witness :
  let cfg := Sample.engine (Sample.answering Sample.acme_second) in
  let w := Sample.at_noon (Sample.store true [] [Sample.job 0]) in
  alerts (db (snd (processTrackingJob cfg Sample.task w))) = alerts (db w) /\
  (forall projectId keywordId keywordText p previous current a,
      decide_alert projectId keywordId keywordText p previous current
      = Some a ->
      a_organization_id a = "" /\
      (exists e, Store.rejects_alert (db w) a = Some e) /\
      Alerts.createAlert a w = (Returns tt, w)).
Proof.
  cbv zeta.
  apply (worker_stores_no_alert
           (Sample.engine (Sample.answering Sample.acme_second))
           Sample.task
           (Sample.at_noon (Sample.store true [] [Sample.job 0]))).
  reflexivity.
Defined.

(** An alert with the organization of the project would be stored:
    the alert of the first citation, its [organization_id] filled in. *)
Example alert_with_its_organization :
  let w := Sample.at_noon
             (Sample.store true [Sample.prior GEMINI 100 true (Some 2%Z)] []) in
  let a := {| a_project_id := "p1"; a_organization_id := "o1";
              alert_type := new_citation; a_title := "New Citation Detected";
              description := "Your domain was cited"; severity := info;
              a_keyword_id := "k1"; a_keyword_text := "best crm";
              a_platform := GEMINI; previous_value := None;
              current_value := None; change_percent := None |} in
  Store.rejects_alert (db w) a = None /\
  List.length (alerts (db (snd (Alerts.createAlert a w)))) = 1%nat.
Proof. cbv zeta. split; vm_compute; reflexivity. Qed.

(** What [checkForAlerts] decides on for a citation just stored, the
    newest of its keyword and platform: a [new_citation] alert exactly
    when the keyword had no earlier citation on that platform and the new
    citation mentions the domain; nothing for a domain that is cited
    again after citations that did not mention it. *)
Lemma decide_alert_new_citation
    (projectId keywordText : string) (d : DB) (c : Citation) :
  (forall x, In x (citations d) ->
             keyword_id x = keyword_id c -> platform x = platform c ->
             (tracked_at x < tracked_at c)%Z) ->
  let created :=
    decide_alert projectId (keyword_id c) keywordText (platform c)
      (select_previous (with_citations d [c]) (keyword_id c) (platform c))
      (Some c) in
  ((exists a, created = Some a /\ alert_type a = new_citation)
   <-> most_recent d (keyword_id c) (platform c) = None /\
       domain_mentioned c = true) /\
  (forall prior,
     most_recent d (keyword_id c) (platform c) = Some prior ->
     domain_mentioned prior = false ->
     citation_position prior = None ->
     created = None).
Proof.
  intros H. cbv zeta. rewrite (select_previous_after_store d c H).
  destruct (most_recent d (keyword_id c) (platform c)) as [prior|].
  - split.
    + split; [|intros [Hn _]; discriminate].
      intros (a & Ha & Ht). exfalso.
      unfold decide_alert in Ha. simpl in Ha.
      destruct (domain_mentioned prior && negb (domain_mentioned c)).
      * injection Ha as <-. discriminate.
      * destruct (JS.truthy_number _ && JS.truthy_number _);
          [|discriminate].
        destruct (citation_position prior); [|discriminate].
        destruct (citation_position c); [|discriminate].
        destruct (2 <=? Z.abs (z - z0))%Z; [|discriminate].
        injection Ha as <-. discriminate.
    + intros x [= <-] Hm Hp. unfold decide_alert. simpl.
      now rewrite Hm, Hp.
  - split.
    + unfold decide_alert. simpl.
      destruct (domain_mentioned c); simpl.
      * split; [auto|]. intros _. eexists. split; reflexivity.
      * split; [intros (a & Ha & _); discriminate | intros [_ Hm]; discriminate].
    + discriminate.
Qed.

End CompletedJob.

(** ** The other components of the visibility score *)

From Stdlib Require Import Lqa.

Section PositionScore.

Import Scoring ScoreComponents.

Local Open Scope Q_scope.

Lemma Q_of_nat_nonneg n : 0 <= Q_of_nat n.
Proof. unfold Q_of_nat, Qle. simpl. lia. Qed.

Lemma Q_of_nat_pos n : (0 < n)%nat -> 0 < Q_of_nat n.
Proof. intros H. unfold Q_of_nat, Qlt. simpl. lia. Qed.

Lemma Q_of_nat_add n m : Q_of_nat (n + m) == Q_of_nat n + Q_of_nat m.
Proof. unfold Q_of_nat. now rewrite Nat2Z.inj_add, inject_Z_plus. Qed.

Lemma Q_of_nat_le n m : (n <= m)%nat -> Q_of_nat n <= Q_of_nat m.
Proof. intros H. unfold Q_of_nat, Qle. simpl. lia. Qed.

Lemma weightedPositionSum_from (rows : list Row) (a : Q) :
  fold_left
    (fun sum row => sum + Q_of_nat (citation_count row) * position_or_99 row)
    rows a
  == a + weighted rows.
Proof.
  revert a; induction rows as [|r rows IH]; intros a; simpl.
  - lra.
  - rewrite IH. lra.
Qed.

Lemma totalCitations_cons (r : Row) (rows : list Row) :
  totalCitations (r :: rows) = (citation_count r + totalCitations rows)%nat.
Proof.
  unfold totalCitations. simpl. rewrite !fold_left_sum. lia.
Qed.

(** Positions of 1 or more weigh at least as much as the citations. *)
Lemma weighted_at_least (rows : list Row) :
  Forall (fun r => 1 <= position_or_99 r) rows ->
  Q_of_nat (totalCitations rows) <= weighted rows.
Proof.
  induction 1 as [|r rows Hr _ IH].
  - unfold totalCitations. simpl. apply Qle_refl.
  - rewrite totalCitations_cons, Q_of_nat_add. simpl.
    pose proof (Q_of_nat_nonneg (citation_count r)) as Hc.
    nra.
Qed.

Lemma calculatePositionScore_nonneg (rows : list Row) :
  0 <= calculatePositionScore rows.
Proof.
  unfold calculatePositionScore.
  destruct rows as [|r rows]; [apply Qle_refl|].
  destruct (totalCitations (r :: rows) =? 0)%nat; [apply Qle_refl|].
  apply Q.le_max_l.
Qed.

Lemma calculatePositionScore_le_100 (rows : list Row) :
  Forall (fun r => 1 <= position_or_99 r) rows ->
  calculatePositionScore rows <= 100.
Proof.
  intros H. unfold calculatePositionScore.
  destruct rows as [|r rows]; [unfold Qle; simpl; lia|].
  destruct (totalCitations (r :: rows) =? 0)%nat eqn:E;
    [unfold Qle; simpl; lia|].
  apply Nat.eqb_neq in E.
  apply Q.max_lub; [unfold Qle; simpl; lia|].
  unfold weightedPositionSum. rewrite weightedPositionSum_from.
  pose proof (weighted_at_least _ H) as Hw.
  assert (Hn : 0 < Q_of_nat (totalCitations (r :: rows)))
    by (apply Q_of_nat_pos; lia).
  assert (Ha : 1 <= (0 + weighted (r :: rows))
                    / Q_of_nat (totalCitations (r :: rows))).
  { apply Qle_shift_div_l; [exact Hn | lra]. }
  lra.
Qed.


Lemma sum_at_least_length (l : list Z) :
  Forall (fun z => (1 <= z)%Z) l ->
  (Z.of_nat (List.length l) <= fold_right Z.add 0%Z l)%Z.
Proof.
  induction 1 as [|z l Hz _ IH]; simpl List.length; simpl fold_right; lia.
Qed.

Lemma average_at_least_1 (l : list Z) (q : Q) :
  Forall (fun z => (1 <= z)%Z) l -> average l = Some q -> 1 <= q.
Proof.
  intros H. unfold average. destruct l as [|z l]; [discriminate|].
  intros [= <-].
  pose proof (sum_at_least_length _ H) as Hs.
  apply Qle_shift_div_l.
  - unfold Qlt. simpl. lia.
  - rewrite Qmult_1_l. rewrite <- Zle_Qle. exact Hs.
Qed.

Lemma position_or_99_at_least_1 (row : Row) :
  (forall q, avg_position row = Some q -> 1 <= q) ->
  1 <= position_or_99 row.
Proof.
  intros H. unfold position_or_99.
  destruct (avg_position row) as [q|]; [|unfold Qle; simpl; lia].
  destruct (Qeq_bool q 0); [unfold Qle; simpl; lia | now apply H].
Qed.

Lemma ranked_positions_in (g : list Citation) (z : Z) :
  In z (ranked_positions g) ->
  exists c, In c g /\ domain_mentioned c = true /\
            citation_position c = Some z.
Proof.
  unfold ranked_positions. intros H. apply in_flat_map in H as (c & Hc & Hz).
  exists c. destruct (domain_mentioned c); [|destruct Hz].
  destruct (citation_position c) as [z'|]; [|destruct Hz].
  destruct Hz as [<-|[]]. auto.
Qed.

(** The rows of the query have positions of 1 or more when the stored
    positions are ranks. *)
Lemma rows_positions (d : DB) (projectId : string) (since : Time) :
  (forall c z, In c (citations d) -> citation_position c = Some z ->
               (1 <= z)%Z) ->
  Forall (fun r => 1 <= position_or_99 r)
         (select_citation_rows d projectId since).
Proof.
  intros H. unfold select_citation_rows.
  apply Forall_forall. intros r Hr.
  apply in_map_iff in Hr as (p & <- & _).
  apply position_or_99_at_least_1. intros q Hq. simpl in Hq.
  apply (average_at_least_1 _ q) in Hq; [exact Hq|].
  apply Forall_forall. intros z Hz.
  apply ranked_positions_in in Hz as (c & Hc & _ & Hp).
  apply filter_In in Hc as [Hc _]. apply filter_In in Hc as [Hc _].
  now apply (H c z).
Qed.

Lemma weighted_without_positions (rows : list Row) :
  Forall (fun r => citation_count r = 0%nat \/ avg_position r = None) rows ->
  weighted rows == 99 * Q_of_nat (totalCitations rows).
Proof.
  induction 1 as [|r rows Hr _ IH].
  - vm_compute. reflexivity.
  - rewrite totalCitations_cons, Q_of_nat_add. simpl. rewrite IH.
    destruct Hr as [Hr|Hr].
    + rewrite Hr. change (Q_of_nat 0) with 0. lra.
    + unfold position_or_99. rewrite Hr. lra.
Qed.

Lemma no_position_no_average (g : list Citation) :
  (forall c, In c g -> domain_mentioned c = true ->
             citation_position c = None) ->
  ranked_positions g = [].
Proof.
  intros H. unfold ranked_positions.
  induction g as [|c g IH]; simpl; [reflexivity|].
  rewrite IH by (intros x Hx; apply H; now right).
  destruct (domain_mentioned c) eqn:E; [|reflexivity].
  now rewrite (H c (or_introl eq_refl) E).
Qed.

(** X10.  The position score is never negative, and it is at most 100
    when the stored positions are ranks from 1.  It is 0 for a project
    without a citation of its domain in the window; and also when the
    citations of its domain carry no position, each platform then
    counting as position 99. *)
Theorem positionScore_range (d : DB) (t : Time) (projectId : string) :
  let rows := select_citation_rows d projectId (t - thirty_days)%Z in
  (forall c z, In c (citations d) -> citation_position c = Some z ->
               (1 <= z)%Z) ->
  0 <= calculatePositionScore rows /\
  calculatePositionScore rows <= 100 /\
  (C_self d t projectId = [] -> calculatePositionScore rows == 0) /\
  ((forall c, In c (C_self d t projectId) -> citation_position c = None) ->
   calculatePositionScore rows == 0).
Proof.
  cbv zeta. intros H.
  split; [apply calculatePositionScore_nonneg|].
  split; [apply calculatePositionScore_le_100; now apply rows_positions|].
  split.
  - intros Hnone. unfold calculatePositionScore.
    destruct (select_citation_rows _ _ _) eqn:Er; [reflexivity|].
    rewrite <- Er, totalCitations_is_C_self, Hnone. reflexivity.
  - intros Hnopos. unfold calculatePositionScore.
    destruct (select_citation_rows _ _ _) as [|r rows] eqn:Er; [reflexivity|].
    destruct (totalCitations (r :: rows) =? 0)%nat eqn:E; [reflexivity|].
    apply Nat.eqb_neq in E.
    unfold weightedPositionSum. rewrite weightedPositionSum_from.
    rewrite weighted_without_positions.
    + assert (Hn : 0 < Q_of_nat (totalCitations (r :: rows)))
        by (apply Q_of_nat_pos; lia).
      assert (Ha : (0 + 99 * Q_of_nat (totalCitations (r :: rows)))
                   / Q_of_nat (totalCitations (r :: rows)) == 99).
      { field. lra. }
      rewrite Ha. vm_compute. reflexivity.
    + rewrite <- Er. unfold select_citation_rows.
      apply Forall_forall. intros x Hx.
      apply in_map_iff in Hx as (p & <- & _). right. simpl.
      rewrite no_position_no_average; [reflexivity|].
      intros c Hc Hm. apply Hnopos. unfold C_self.
      apply filter_In in Hc as [Hc _].
      apply filter_In. split; assumption.
Qed.

(** The witness of X10: the sample store with a citation at rank 2. *)
Lemma positionScore_range_witness :
  let d := Sample.store true [Sample.prior GEMINI 999000 true (Some 2%Z)] [] in
  let rows := select_citation_rows d "p1" (1000000 - thirty_days)%Z in
  0 <= calculatePositionScore rows /\
  calculatePositionScore rows <= 100 /\
  (C_self d 1000000 "p1" = [] -> calculatePositionScore rows == 0) /\
  ((forall c, In c (C_self d 1000000 "p1") -> citation_position c = None) ->
   calculatePositionScore rows == 0).
Proof.
  cbv zeta.
  apply (positionScore_range
           (Sample.store true [Sample.prior GEMINI 999000 true (Some 2%Z)] [])
           1000000 "p1").
  simpl. intros c z [<-|[]] [= <-]. lia.
Defined.

Example positionScore_rank_2 :
  calculatePositionScore
    (select_citation_rows
       (Sample.store true [Sample.prior GEMINI 999000 true (Some 2%Z)] [])
       "p1" (1000000 - thirty_days)%Z) == 89.
Proof. vm_compute. reflexivity. Qed.

End PositionScore.

Section DiversityAndContext.

Import Scoring ScoreComponents.

Local Open Scope Q_scope.

Lemma filter_length_le_impl {A : Type} (f g : A -> bool) (l : list A) :
  (forall x, In x l -> f x = true -> g x = true) ->
  (List.length (filter f l) <= List.length (filter g l))%nat.
Proof.
  induction l as [|x l IH]; intros H; simpl; [lia|].
  assert (IH' := IH (fun y Hy => H y (or_intror Hy))).
  destruct (f x) eqn:Ef.
  - rewrite (H x (or_introl eq_refl) Ef). simpl. lia.
  - destruct (g x); simpl; lia.
Qed.

Lemma filter_map_swap {A B : Type} (f : B -> bool) (g : A -> B) (l : list A) :
  filter f (map g l) = map g (filter (fun x => f (g x)) l).
Proof.
  induction l as [|x l IH]; simpl; [reflexivity|].
  rewrite IH. now destruct (f (g x)).
Qed.

(** A platform has citations of the domain exactly when some citation
    that mentions the domain is on it. *)
Lemma citation_count_positive (cs : list Citation) (p : AIPlatform) :
  (0 <? citation_count (group_row cs p))%nat
  = existsb (fun c => platform_eqb (platform c) p)
            (filter domain_mentioned cs).
Proof.
  unfold group_row, count_filter. simpl.
  induction cs as [|c cs IH]; simpl; [reflexivity|].
  destruct (platform_eqb (platform c) p) eqn:Ep; simpl;
    destruct (domain_mentioned c); simpl; rewrite ?Ep; simpl; auto.
Qed.

Lemma existsb_filter_weaken {A : Type} (f g : A -> bool) (l : list A) :
  existsb f (filter g l) = true -> existsb f l = true.
Proof.
  induction l as [|x l IH]; simpl; [auto|].
  destruct (g x); simpl; intros H.
  - apply orb_true_iff in H as [H|H]; [now rewrite H|].
    rewrite (IH H). apply orb_true_r.
  - rewrite (IH H). apply orb_true_r.
Qed.

Lemma filter_absorb {A : Type} (g h : A -> bool) (l : list A) :
  (forall x, g x = true -> h x = true) ->
  filter g (filter h l) = filter g l.
Proof.
  intros H. induction l as [|x l IH]; simpl; [reflexivity|].
  destruct (h x) eqn:Eh; simpl.
  - now rewrite IH.
  - destruct (g x) eqn:Eg; [|exact IH].
    rewrite (H x Eg) in Eh. discriminate.
Qed.

(** The platforms the diversity score counts are those of the citations
    that mention the domain. *)
Lemma platformsWithCitations_are (d : DB) (t : Time) (projectId : string) :
  List.length
    (filter (fun r => (0 <? citation_count r)%nat)
            (select_citation_rows d projectId (t - thirty_days)%Z))
  = List.length (platforms_in (C_self d t projectId)).
Proof.
  unfold select_citation_rows, platforms_in, C_self.
  rewrite filter_map_swap, length_map.
  set (cs := filter (in_window projectId (t - thirty_days)%Z) (citations d)).
  rewrite (filter_ext _ _ (citation_count_positive cs)).
  rewrite filter_absorb; [reflexivity|].
  intros p. apply existsb_filter_weaken.
Qed.

Lemma platforms_in_at_most_8 (cs : list Citation) :
  (List.length (platforms_in cs) <= 8)%nat.
Proof.
  unfold platforms_in.
  etransitivity; [apply filter_length_le|]. reflexivity.
Qed.

Lemma platforms_in_supported (cs : list Citation) :
  Forall (fun c => supported (platform c) = true) cs ->
  (List.length (platforms_in cs) <= 4)%nat.
Proof.
  intros H. unfold platforms_in.
  etransitivity.
  - apply (filter_length_le_impl _ supported). intros p _ Hp.
    apply existsb_exists in Hp as (c & Hc & Hcp).
    rewrite Forall_forall in H. specialize (H c Hc).
    destruct (platform c), p; try discriminate; assumption.
  - reflexivity.
Qed.

(** The diversity score counts the platforms of the citations that
    mention the domain. *)
Lemma diversityScore_is (d : DB) (t : Time) (projectId : string) :
  calculateDiversityScore
    (select_citation_rows d projectId (t - thirty_days)%Z)
  == (Q_of_nat (List.length (platforms_in (C_self d t projectId))) / 8) * 100.
Proof.
  unfold calculateDiversityScore. rewrite platformsWithCitations_are.
  reflexivity.
Qed.

Lemma diversityScore_bounds (d : DB) (t : Time) (projectId : string) :
  let rows := select_citation_rows d projectId (t - thirty_days)%Z in
  0 <= calculateDiversityScore rows /\
  calculateDiversityScore rows <= 100 /\
  (Forall (fun c => supported (platform c) = true) (citations d) ->
   calculateDiversityScore rows <= 50).
Proof.
  cbv zeta. rewrite diversityScore_is.
  pose proof (Q_of_nat_nonneg
                (List.length (platforms_in (C_self d t projectId)))) as H0.
  pose proof (Q_of_nat_le _ _ (platforms_in_at_most_8 (C_self d t projectId)))
    as H8.
  change (Q_of_nat 8) with 8 in H8.
  setoid_replace
    (Q_of_nat (List.length (platforms_in (C_self d t projectId))) / 8 * 100)
    with (Q_of_nat (List.length (platforms_in (C_self d t projectId)))
          * (100 # 8)) by field.
  split; [|split].
  - lra.
  - lra.
  - intros Hs.
    assert (H4 : Q_of_nat (List.length (platforms_in (C_self d t projectId)))
                 <= 4).
    { change 4 with (Q_of_nat 4). apply Q_of_nat_le.
      apply platforms_in_supported. unfold C_self.
      apply Forall_forall. intros c Hc.
      apply filter_In in Hc as [Hc _]. apply filter_In in Hc as [Hc _].
      rewrite Forall_forall in Hs. now apply Hs. }
    lra.
Qed.

(** X11.  The diversity score is the share, out of the eight platforms
    of the enumeration, of the platforms on which some citation of the
    window mentions the domain; it lies between 0 and 100.  The engine
    stores citations of four platforms only: on a store it filled, the
    diversity score is at most 50. *)
Theorem diversityScore_counts_platforms
    (d : DB) (t : Time) (projectId : string) :
  let rows := select_citation_rows d projectId (t - thirty_days)%Z in
  let n := List.length (platforms_in (C_self d t projectId)) in
  calculateDiversityScore rows == (Q_of_nat n / 8) * 100 /\
  0 <= calculateDiversityScore rows /\
  calculateDiversityScore rows <= 100 /\
  (Forall (fun c => supported (platform c) = true) (citations d) ->
   calculateDiversityScore rows <= 50).
Proof.
  cbv zeta. split; [apply diversityScore_is|].
  apply diversityScore_bounds.
Qed.

(** The sums of a count over the groups of the query. *)
Lemma sum_groups (f : Citation -> bool) (cs : list Citation) :
  list_sum
    (map (fun p => count_filter f
                     (filter (fun c => platform_eqb (platform c) p) cs))
         (platforms_in cs))
  = count_filter f cs.
Proof.
  transitivity
    (list_sum
       (map (fun p => count_filter f
                        (filter (fun c => platform_eqb (platform c) p) cs))
            all_platforms)).
  - unfold platforms_in.
    induction all_platforms as [|p ps IH]; [reflexivity|].
    cbn [filter map]. destruct (existsb _ cs) eqn:E; cbn [map];
      unfold list_sum in *; cbn [fold_right]; rewrite IH; [reflexivity|].
    replace (count_filter f (filter (fun c => platform_eqb (platform c) p) cs))
      with 0%nat; [reflexivity|].
    unfold count_filter. clear IH.
    induction cs as [|c cs IHc]; simpl in *; [reflexivity|].
    apply orb_false_iff in E as [E1 E2]. rewrite E1. now apply IHc.
  - unfold all_platforms, count_filter. simpl.
    induction cs as [|c cs IH]; simpl; [reflexivity|].
    destruct (platform c); simpl; destruct (f c); simpl; lia.
Qed.

Lemma context_sums_from (rows : list Row) (a b : nat) :
  fold_left
    (fun sums row =>
       let positive := positive_mentions row in
       let negative := negative_mentions row in
       (fst sums + (positive + negative), snd sums + positive)%nat)
    rows (a, b)
  = ((a + list_sum (map positive_mentions rows)
        + list_sum (map negative_mentions rows))%nat,
     (b + list_sum (map positive_mentions rows))%nat).
Proof.
  revert a b; induction rows as [|r rows IH]; intros a b; simpl.
  - f_equal; lia.
  - rewrite IH. f_equal; lia.
Qed.

Lemma context_sums_are (d : DB) (t : Time) (projectId : string) :
  context_sums (select_citation_rows d projectId (t - thirty_days)%Z)
  = ((count_filter is_positive (in_the_window d t projectId)
      + count_filter is_negative (in_the_window d t projectId))%nat,
     count_filter is_positive (in_the_window d t projectId)).
Proof.
  unfold context_sums. rewrite context_sums_from.
  unfold select_citation_rows, in_the_window. rewrite !map_map. simpl.
  fold (platforms_in
          (filter (in_window projectId (t - thirty_days)%Z) (citations d))).
  now rewrite !sum_groups.
Qed.

Lemma positives_ratio (P N : nat) :
  (P + N <> 0)%nat ->
  0 <= Q_of_nat P / Q_of_nat (P + N) /\
  Q_of_nat P / Q_of_nat (P + N) <= 1.
Proof.
  intros E.
  assert (Hn : 0 < Q_of_nat (P + N)) by (apply Q_of_nat_pos; lia).
  pose proof (Q_of_nat_nonneg P) as HP.
  pose proof (Q_of_nat_le P (P + N) ltac:(lia)) as HPN.
  split.
  - apply Qle_shift_div_l; [exact Hn | lra].
  - apply Qle_shift_div_r; [exact Hn | lra].
Qed.

Lemma contextScore_bounds (d : DB) (t : Time) (projectId : string) :
  let rows := select_citation_rows d projectId (t - thirty_days)%Z in
  0 <= calculateContextScore rows /\ calculateContextScore rows <= 100.
Proof.
  cbv zeta. unfold calculateContextScore. rewrite context_sums_are.
  set (P := count_filter is_positive (in_the_window d t projectId)).
  set (N := count_filter is_negative (in_the_window d t projectId)).
  destruct (P + N =? 0)%nat eqn:E; [split; lra|].
  apply Nat.eqb_neq in E.
  destruct (positives_ratio P N E). split; lra.
Qed.

(** X12.  The context score is 50 when no citation of the window is
    positive or negative, and otherwise the percentage of the positive
    ones among the positive and negative ones; the citations counted are
    all those of the project in the window, whether or not they mention
    the domain.  The score lies between 0 and 100. *)
Theorem contextScore_formula (d : DB) (t : Time) (projectId : string) :
  let rows := select_citation_rows d projectId (t - thirty_days)%Z in
  let positives := count_filter is_positive (in_the_window d t projectId) in
  let negatives := count_filter is_negative (in_the_window d t projectId) in
  ((positives + negatives = 0)%nat -> calculateContextScore rows = 50) /\
  ((positives + negatives <> 0)%nat ->
   calculateContextScore rows
   = (Q_of_nat positives / Q_of_nat (positives + negatives)) * 100) /\
  0 <= calculateContextScore rows /\
  calculateContextScore rows <= 100.
Proof.
  cbv zeta. split; [|split; [|apply contextScore_bounds]].
  - intros E. unfold calculateContextScore. rewrite context_sums_are.
    apply Nat.eqb_eq in E. now rewrite E.
  - intros E. unfold calculateContextScore. rewrite context_sums_are.
    apply Nat.eqb_neq in E. now rewrite E.
Qed.

End DiversityAndContext.

Section Momentum.

Import Scoring ScoreComponents.

Local Open Scope Q_scope.

(** The week of an instant begins at or before it, less than a week
    before, and the week before begins a week earlier: the two windows of
    the momentum score are adjacent weeks. *)
Lemma week_start_bounds (t : Time) :
  (week_start t <= t < week_start t + week)%Z /\
  week_start (t - week) = (week_start t - week)%Z.
Proof.
  unfold week_start.
  assert (Hw : (0 < week)%Z) by (unfold week, day; lia).
  pose proof (Z.mod_pos_bound (t - 4 * day) week Hw) as Hm.
  split; [lia|].
  replace (t - week - 4 * day)%Z with (t - 4 * day + (-1) * week)%Z by lia.
  rewrite Z.mod_add by lia. lia.
Qed.

(** With citations last week the score is half of the capped growth
    above its least value. *)
Lemma momentum_of_growth (thisWeek lastWeek : nat) :
  lastWeek <> 0%nat ->
  let g := 100 * (Q_of_nat thisWeek / Q_of_nat lastWeek) - 100 in
  0 <= Q_of_nat thisWeek / Q_of_nat lastWeek /\
  momentum thisWeek lastWeek == (Qmin 100 g + 100) * (1 # 2).
Proof.
  intros E. cbv zeta. unfold momentum.
  apply Nat.eqb_neq in E. rewrite E. apply Nat.eqb_neq in E.
  assert (Hn : 0 < Q_of_nat lastWeek) by (apply Q_of_nat_pos; lia).
  pose proof (Q_of_nat_nonneg thisWeek) as Ht.
  assert (Hr : 0 <= Q_of_nat thisWeek / Q_of_nat lastWeek).
  { apply Qle_shift_div_l; [exact Hn | lra]. }
  split; [exact Hr|].
  setoid_replace
    ((Q_of_nat thisWeek - Q_of_nat lastWeek) / Q_of_nat lastWeek * 100)
    with (100 * (Q_of_nat thisWeek / Q_of_nat lastWeek) - 100)
    by (field; lra).
  set (g := 100 * (Q_of_nat thisWeek / Q_of_nat lastWeek) - 100).
  assert (Hlow : -100 <= Qmin 100 g) by (apply Q.min_glb; unfold g; lra).
  rewrite (Q.max_r _ _ Hlow). field.
Qed.

Lemma momentum_bounds (thisWeek lastWeek : nat) :
  0 <= momentum thisWeek lastWeek /\ momentum thisWeek lastWeek <= 100.
Proof.
  destruct (Nat.eq_dec lastWeek 0) as [->|E].
  - unfold momentum. simpl. destruct (0 <? thisWeek)%nat; split; lra.
  - destruct (momentum_of_growth thisWeek lastWeek E) as [Hr ->].
    set (g := 100 * (Q_of_nat thisWeek / Q_of_nat lastWeek) - 100).
    assert (Hlow : -100 <= Qmin 100 g) by (apply Q.min_glb; unfold g; lra).
    assert (Hhigh : Qmin 100 g <= 100) by apply Q.le_min_l.
    split; lra.
Qed.

(** X13.  The momentum score lies between 0 and 100.  Without a
    citation last week it is 100 if there is one this week and 0 if not;
    otherwise it is 50 times the ratio of this week's citations to last
    week's, capped at 100: the same count gives 50, the double or more
    gives 100, and none gives 0. *)
Theorem momentum_closed_form (thisWeek lastWeek : nat) :
  0 <= momentum thisWeek lastWeek /\
  momentum thisWeek lastWeek <= 100 /\
  (lastWeek = 0%nat ->
   momentum thisWeek lastWeek = if (0 <? thisWeek)%nat then 100 else 0) /\
  (lastWeek <> 0%nat ->
   momentum thisWeek lastWeek
   == Qmin 100 (50 * Q_of_nat thisWeek / Q_of_nat lastWeek)).
Proof.
  split; [apply momentum_bounds|]. split; [apply momentum_bounds|].
  split; [intros ->; reflexivity|].
  intros E. destruct (momentum_of_growth thisWeek lastWeek E) as [Hr ->].
  assert (Hn : 0 < Q_of_nat lastWeek) by (apply Q_of_nat_pos; lia).
  setoid_replace (50 * Q_of_nat thisWeek / Q_of_nat lastWeek)
    with (50 * (Q_of_nat thisWeek / Q_of_nat lastWeek)) by (field; lra).
  set (r := Q_of_nat thisWeek / Q_of_nat lastWeek) in *.
  destruct (Qlt_le_dec 100 (100 * r - 100)) as [Hc|Hc].
  - rewrite (Q.min_l 100 (100 * r - 100)) by lra.
    rewrite Q.min_l by lra. lra.
  - rewrite (Q.min_r 100 (100 * r - 100)) by lra.
    rewrite Q.min_r by lra. lra.
Qed.

Example momentum_same : momentum 3 3 == 50.
Proof. vm_compute. reflexivity. Qed.

Example momentum_double : momentum 7 3 == 100.
Proof. vm_compute. reflexivity. Qed.

Example momentum_half : momentum 1 2 == 25.
Proof. vm_compute. reflexivity. Qed.

End Momentum.

Section VisibilityScoreRange.

Import Scoring ScoreComponents.

Local Open Scope Q_scope.

Lemma calculateFrequencyScore_range (rows : list Row) (totalKeywords : nat) :
  0 <= calculateFrequencyScore rows totalKeywords /\
  calculateFrequencyScore rows totalKeywords <= 100.
Proof.
  unfold calculateFrequencyScore.
  destruct (totalKeywords =? 0)%nat eqn:E; [split; lra|].
  apply Nat.eqb_neq in E.
  assert (Hn : 0 < Q_of_nat totalKeywords) by (apply Q_of_nat_pos; lia).
  pose proof (Q_of_nat_nonneg (totalCitations rows)) as Hc.
  assert (Hr : 0 <= Q_of_nat (totalCitations rows) / Q_of_nat totalKeywords).
  { apply Qle_shift_div_l; [exact Hn | lra]. }
  split; [apply Q.min_glb; lra | apply Q.le_min_l].
Qed.

Lemma round_half (n : Z) : round (inject_Z n) = n.
Proof.
  unfold round. unfold inject_Z, Qplus, Qfloor. simpl.
  replace (n * 2 + 1)%Z with (1 + n * 2)%Z by lia.
  rewrite Z.div_add by lia. reflexivity.
Qed.

Lemma round_le (x y : Q) : x <= y -> (round x <= round y)%Z.
Proof. intros H. unfold round. apply Qfloor_resp_le. lra. Qed.

(** Rounding to hundredths keeps a value within bounds that are
    hundredths. *)
Lemma round2_between (x : Q) (lo hi : Z) :
  inject_Z lo / 100 <= x -> x <= inject_Z hi / 100 ->
  inject_Z lo / 100 <= round2 x /\ round2 x <= inject_Z hi / 100.
Proof.
  intros Hlo Hhi. unfold round2.
  assert (H1 : inject_Z lo <= x * 100).
  { setoid_replace (inject_Z lo) with (inject_Z lo / 100 * 100) by field. lra. }
  assert (H2 : x * 100 <= inject_Z hi).
  { setoid_replace (inject_Z hi) with (inject_Z hi / 100 * 100) by field. lra. }
  apply round_le in H1. apply round_le in H2.
  rewrite round_half in H1, H2.
  rewrite Zle_Qle in H1, H2.
  split.
  - apply Qle_shift_div_l; [lra|].
    setoid_replace (inject_Z lo / 100 * 100) with (inject_Z lo) by field.
    exact H1.
  - apply Qle_shift_div_r; [lra|].
    setoid_replace (inject_Z hi / 100 * 100) with (inject_Z hi) by field.
    exact H2.
Qed.

Lemma round2_percent (x : Q) :
  0 <= x -> x <= 100 -> 0 <= round2 x /\ round2 x <= 100.
Proof.
  intros H0 H1.
  destruct (round2_between x 0 10000) as [Ha Hb].
  - setoid_replace (inject_Z 0 / 100) with 0 by (vm_compute; reflexivity).
    exact H0.
  - setoid_replace (inject_Z 10000 / 100) with 100
      by (vm_compute; reflexivity).
    exact H1.
  - setoid_replace (inject_Z 0 / 100) with 0 in Ha
      by (vm_compute; reflexivity).
    setoid_replace (inject_Z 10000 / 100) with 100 in Hb
      by (vm_compute; reflexivity).
    now split.
Qed.

(** X14.  On a store whose positions are ranks from 1, every score of
    the record [calculateVisibilityScore] returns, the five components
    and the overall score, lies between 0 and 100.  On a store the engine
    filled, whose citations are on its four platforms, the overall score
    is at most 92.5. *)
Theorem visibilityScore_range (d : DB) (t : Time) (projectId : string) :
  (forall c z, In c (citations d) -> citation_position c = Some z ->
               (1 <= z)%Z) ->
  let vs := calculateVisibilityScore d t projectId in
  (0 <= overall_score vs /\ overall_score vs <= 100) /\
  (0 <= frequency_score vs /\ frequency_score vs <= 100) /\
  (0 <= position_score vs /\ position_score vs <= 100) /\
  (0 <= diversity_score vs /\ diversity_score vs <= 100) /\
  (0 <= context_score vs /\ context_score vs <= 100) /\
  (0 <= momentum_score vs /\ momentum_score vs <= 100) /\
  (Forall (fun c => supported (platform c) = true) (citations d) ->
   overall_score vs <= 925 # 10).
Proof.
  intros Hpos. cbv zeta. unfold calculateVisibilityScore. simpl.
  set (rows := select_citation_rows d projectId (t - thirty_days)%Z).
  destruct (calculateFrequencyScore_range rows
              (count_active_keywords d projectId)) as [F0 F1].
  pose proof (calculatePositionScore_nonneg rows) as P0.
  pose proof (calculatePositionScore_le_100 rows
                (rows_positions d projectId (t - thirty_days)%Z Hpos)) as P1.
  destruct (diversityScore_bounds d t projectId) as (D0 & D1 & D50).
  fold rows in D0, D1, D50.
  destruct (contextScore_bounds d t projectId) as (C0 & C1).
  fold rows in C0, C1.
  destruct (momentum_bounds (citations_this_week d t projectId)
                            (citations_last_week d t projectId))
    as (M0 & M1).
  fold (calculateMomentumScore d t projectId) in M0, M1.
  set (f := calculateFrequencyScore rows (count_active_keywords d projectId))
    in *.
  set (p := calculatePositionScore rows) in *.
  set (v := calculateDiversityScore rows) in *.
  set (c := calculateContextScore rows) in *.
  set (m := calculateMomentumScore d t projectId) in *.
  assert (O0 : 0 <= overall f p v c m) by (unfold overall; lra).
  assert (O1 : overall f p v c m <= 100) by (unfold overall; lra).
  split; [now apply round2_percent|].
  split; [now apply round2_percent|].
  split; [now apply round2_percent|].
  split; [now apply round2_percent|].
  split; [now apply round2_percent|].
  split; [now apply round2_percent|].
  intros Hs. specialize (D50 Hs).
  destruct (round2_between (overall f p v c m) 0 9250) as [_ Hb].
  - setoid_replace (inject_Z 0 / 100) with 0 by (vm_compute; reflexivity).
    exact O0.
  - setoid_replace (inject_Z 9250 / 100) with (925 # 10)
      by (vm_compute; reflexivity).
    unfold overall. lra.
  - setoid_replace (inject_Z 9250 / 100) with (925 # 10) in Hb
      by (vm_compute; reflexivity).
    exact Hb.
Qed.

(** The witness of X14: the sample store with a citation at rank 2. *)
Lemma visibilityScore_range_witness :
  let d := Sample.store true [Sample.prior GEMINI 999000 true (Some 2%Z)] [] in
  let vs := calculateVisibilityScore d 1000000 "p1" in
  (0 <= overall_score vs /\ overall_score vs <= 100) /\
  (0 <= frequency_score vs /\ frequency_score vs <= 100) /\
  (0 <= position_score vs /\ position_score vs <= 100) /\
  (0 <= diversity_score vs /\ diversity_score vs <= 100) /\
  (0 <= context_score vs /\ context_score vs <= 100) /\
  (0 <= momentum_score vs /\ momentum_score vs <= 100) /\
  (Forall (fun c => supported (platform c) = true) (citations d) ->
   overall_score vs <= 925 # 10).
Proof.
  cbv zeta.
  apply (visibilityScore_range
           (Sample.store true [Sample.prior GEMINI 999000 true (Some 2%Z)] [])
           1000000 "p1").
  simpl. intros c z [<-|[]] [= <-]. lia.
Defined.

(** The component scores of four citations at ranks 1, 1, 2 and 3 on two
    platforms, with ten active keywords and no sentiment: 8, 91.75, 25 and
    50.  With a momentum of 0 their weighted sum is 39.475; a week with
    citations after a week without has momentum 100, which makes it
    44.475.  Both are an F. *)
Example visibilityScore_scenario :
  let rows :=
    [{| row_platform := GEMINI; citation_count := 2; keywords_ranked := 2;
        avg_position := Some 1; positive_mentions := 0;
        negative_mentions := 0 |};
     {| row_platform := CHATGPT; citation_count := 2; keywords_ranked := 2;
        avg_position := Some (5 # 2); positive_mentions := 0;
        negative_mentions := 0 |}] in
  calculateFrequencyScore rows 10 == 8 /\
  calculatePositionScore rows == 9175 # 100 /\
  calculateDiversityScore rows == 25 /\
  calculateContextScore rows == 50 /\
  overall 8 (9175 # 100) 25 50 0 == 39475 # 1000 /\
  overall 8 (9175 # 100) 25 50 (momentum 4 0) == 44475 # 1000 /\
  assignGrade (39475 # 1000) = "F" /\
  assignGrade (44475 # 1000) = "F".
Proof. cbv zeta. repeat split; vm_compute; reflexivity. Qed.

End VisibilityScoreRange.

Section PlatformScores.

Import Scoring ScoreComponents.

Local Open Scope Q_scope.

Lemma ratio_range (r k : nat) :
  (r <= k)%nat -> (0 < k)%nat ->
  0 <= Q_of_nat r / Q_of_nat k /\ Q_of_nat r / Q_of_nat k <= 1.
Proof.
  intros Hrk Hk.
  pose proof (Q_of_nat_pos k Hk) as Hp.
  pose proof (Q_of_nat_nonneg r) as Hr.
  pose proof (Q_of_nat_le r k Hrk) as Hle.
  split.
  - apply Qle_shift_div_l; [exact Hp | lra].
  - apply Qle_shift_div_r; [exact Hp | lra].
Qed.

Lemma calculatePlatformScore_range (c : nat) (a : Q) (r k : nat) :
  1 <= a -> (r <= k)%nat ->
  0 <= calculatePlatformScore c a r k /\
  calculatePlatformScore c a r k <= 100.
Proof.
  intros Ha Hrk. unfold calculatePlatformScore.
  pose proof (Q_of_nat_nonneg c) as Hc.
  assert (F : 0 <= Qmin 40 (Q_of_nat c / 5 * 40) /\
              Qmin 40 (Q_of_nat c / 5 * 40) <= 40).
  { split; [|apply Q.le_min_l].
    apply Q.min_glb; [lra|].
    setoid_replace (Q_of_nat c / 5 * 40) with (Q_of_nat c * 8) by field.
    lra. }
  assert (P : 0 <= (if Qle_bool a 5 then (6 - a) / 5 * 35 else 0) /\
              (if Qle_bool a 5 then (6 - a) / 5 * 35 else 0) <= 35).
  { destruct (Qle_bool a 5) eqn:E; [|split; lra].
    apply Qle_bool_iff in E.
    setoid_replace ((6 - a) / 5 * 35) with ((6 - a) * 7) by field.
    split; lra. }
  assert (K : 0 <= (if (0 <? k)%nat
                    then Q_of_nat r / Q_of_nat k * 25 else 0) /\
              (if (0 <? k)%nat
               then Q_of_nat r / Q_of_nat k * 25 else 0) <= 25).
  { destruct (0 <? k)%nat eqn:E; [|split; lra].
    apply Nat.ltb_lt in E.
    destruct (ratio_range r k Hrk E). split; lra. }
  apply round2_percent; lra.
Qed.

(** The keywords a row ranks are among the active keywords when every
    mentioning citation belongs to one. *)
Lemma keywords_ranked_le (d : DB) (projectId : string) (since : Time)
    (p : AIPlatform) :
  of_active_keywords d projectId ->
  (keywords_ranked
     (group_row (filter (in_window projectId since) (citations d)) p)
   <= count_active_keywords d projectId)%nat.
Proof.
  intros H. unfold group_row, count_active_keywords, count_filter. simpl.
  rewrite <- (length_map k_id
               (filter (fun k => String.eqb (k_project_id k) projectId
                                 && k_is_active k) (keywords d))).
  apply NoDup_incl_length; [apply NoDup_nodup|].
  intros id Hid. apply nodup_In in Hid.
  apply in_map_iff in Hid as (c & <- & Hc).
  apply filter_In in Hc as [Hc Hm].
  apply filter_In in Hc as [Hc _].
  apply filter_In in Hc as [Hc Hw].
  unfold in_window in Hw. apply andb_true_iff in Hw as [Hp _].
  apply String.eqb_eq in Hp.
  destruct (H c Hc Hp Hm) as (k & Hk & Hid & Hkp & Hka).
  apply in_map_iff. exists k. split; [exact Hid|].
  apply filter_In. split; [exact Hk|].
  rewrite Hka, andb_true_r. now apply String.eqb_eq.
Qed.

(** X15.  When the stored positions are ranks from 1 and every citation
    that mentions the domain belongs to an active keyword of the project,
    each platform score of [calculateVisibilityScore] and each share of
    voice lies between 0 and 100. *)
Theorem platform_scores_are_percentages (d : DB) (t : Time)
    (projectId : string) :
  (forall c z, In c (citations d) -> citation_position c = Some z ->
               (1 <= z)%Z) ->
  of_active_keywords d projectId ->
  Forall (fun e => percentages (snd e))
         (platform_scores (calculateVisibilityScore d t projectId)).
Proof.
  intros Hpos Hact. unfold calculateVisibilityScore. simpl.
  pose proof (rows_positions d projectId (t - thirty_days)%Z Hpos) as Hr.
  rewrite Forall_forall in Hr. apply Forall_forall. intros e He.
  apply in_map_iff in He as (row & <- & Hrow).
  pose proof (Hr row Hrow) as Ha.
  assert (Hk : (keywords_ranked row
                <= count_active_keywords d projectId)%nat).
  { unfold select_citation_rows in Hrow.
    apply in_map_iff in Hrow as (p & <- & _).
    now apply keywords_ranked_le. }
  unfold percentages, platform_score_of. simpl.
  split; [now apply calculatePlatformScore_range|].
  destruct (0 <? count_active_keywords d projectId)%nat eqn:E;
    [|split; lra].
  apply Nat.ltb_lt in E.
  destruct (ratio_range _ _ Hk E). split; lra.
Qed.

(** The witness of X15: the sample store, whose keyword is active, with
    a citation at rank 2. *)
Lemma platform_scores_are_percentages_witness :
  Forall (fun e => percentages (snd e))
         (platform_scores
            (calculateVisibilityScore
               (Sample.store true
                  [Sample.prior GEMINI 999000 true (Some 2%Z)] [])
               1000000 "p1")).
Proof.
  apply platform_scores_are_percentages.
  - simpl. intros c z [<-|[]] [= <-]. lia.
  - intros c [<-|[]] _ _. eexists. split; [left; reflexivity|].
    repeat split.
Defined.

(** Without the second hypothesis the bound fails: a citation of a
    keyword that is not among the active ones still counts as ranked.
    Two citations of the active keyword give a share of voice of 100; one
    of them moved to a retired keyword gives 200. *)
Example share_of_voice_of_inactive_keywords :
  let rows k :=
    platform_scores
      (calculateVisibilityScore
         (Sample.store true
            [Sample.prior GEMINI 999000 true (Some 1%Z);
             {| keyword_id := k; project_id := "p1"; platform := GEMINI;
                tracked_at := 999500; domain_mentioned := true;
                specific_url := None; citation_position := Some 1%Z;
                citation_context := None; full_response_text := "";
                response_summary := ""; sentiment := neutral;
                confidence_score := 0; word_count := 0;
                competitor_citations := []; total_sources_cited := 1 |}]
            [])
         1000000 "p1") in
  map (fun e => share_of_voice (snd e)) (rows "k1") = [100] /\
  map (fun e => Qeq_bool (share_of_voice (snd e)) 200) (rows "retired")
  = [true].
Proof. cbv zeta. split; vm_compute; reflexivity. Qed.

End PlatformScores.

Section ShareOfVoiceFacts.

Import Scoring ScoreComponents ShareOfVoice.

Local Open Scope Q_scope.

Lemma count_competitors_total (l : list CompetitorCitation) (acc : Tally) :
  totalMentions (fold_left count_competitor l acc)
  = (totalMentions acc
     + List.length
         (filter (fun e => JS.truthy_string (Some (cc_domain e))) l))%nat.
Proof.
  revert acc; induction l as [|e l IH]; intros acc;
    cbn [fold_left filter]; [simpl; lia|].
  rewrite IH. unfold count_competitor.
  destruct (JS.truthy_string (Some (cc_domain e)));
    cbn [List.length mention totalMentions]; lia.
Qed.

Lemma count_rows_total (y : string) (rows : list Citation) (acc : Tally) :
  totalMentions (fold_left (count_row y) rows acc)
  = (totalMentions acc + List.length (filter domain_mentioned rows)
     + list_sum (map (fun c => List.length (named_competitors c)) rows))%nat.
Proof.
  revert acc; induction rows as [|c rows IH]; intros acc; simpl; [lia|].
  rewrite IH. unfold count_row. rewrite count_competitors_total.
  unfold named_competitors.
  destruct (domain_mentioned c); simpl; lia.
Qed.

(** One more mention raises the count of a set of distinct domains by at
    most one. *)
Lemma mentions_of_mention (acc : Tally) (k : string) (ks : list string) :
  NoDup ks ->
  (mentions_of (mention acc k) ks <= mentions_of acc ks + 1)%nat /\
  (~ In k ks -> mentions_of (mention acc k) ks = mentions_of acc ks).
Proof.
  unfold mentions_of, mention, incr. simpl.
  induction 1 as [|k' ks Hk' Hnd IH]; simpl; [split; [lia | reflexivity]|].
  destruct IH as [IH1 IH2].
  destruct (String.eqb_spec k' k) as [->|Hne].
  - rewrite (IH2 Hk'). split; [lia | intros []; now left].
  - split; [lia|]. intros Hn. rewrite IH2; [reflexivity|].
    intros Hin. apply Hn. now right.
Qed.

Lemma count_competitors_bound (ks : list string) (Hnd : NoDup ks)
    (l : list CompetitorCitation) (acc : Tally) :
  (mentions_of acc ks <= totalMentions acc)%nat ->
  (mentions_of (fold_left count_competitor l acc) ks
   <= totalMentions (fold_left count_competitor l acc))%nat.
Proof.
  revert acc; induction l as [|e l IH]; intros acc H; simpl; [exact H|].
  apply IH. unfold count_competitor.
  destruct (JS.truthy_string (Some (cc_domain e))); [|exact H].
  destruct (mentions_of_mention acc (cc_domain e) ks Hnd) as [Hm _].
  simpl. lia.
Qed.

Lemma count_rows_bound (ks : list string) (Hnd : NoDup ks) (y : string)
    (rows : list Citation) (acc : Tally) :
  (mentions_of acc ks <= totalMentions acc)%nat ->
  (mentions_of (fold_left (count_row y) rows acc) ks
   <= totalMentions (fold_left (count_row y) rows acc))%nat.
Proof.
  revert acc; induction rows as [|c rows IH]; intros acc H; simpl;
    [exact H|].
  apply IH. unfold count_row. apply count_competitors_bound; [exact Hnd|].
  destruct (domain_mentioned c); [|exact H].
  destruct (mentions_of_mention acc y ks Hnd) as [Hm _].
  simpl. lia.
Qed.

(** The mentions of distinct domains are mentions among the total. *)
Lemma tally_bound (d : DB) (t : Time) (projectId : string)
    (ks : list string) :
  NoDup ks ->
  (mentions_of (tally d t projectId) ks
   <= totalMentions (tally d t projectId))%nat.
Proof.
  intros Hnd. unfold tally. apply count_rows_bound; [exact Hnd|].
  unfold mentions_of. simpl.
  induction ks as [|k ks IH]; simpl; [lia|].
  apply NoDup_cons_iff in Hnd as [_ Hnd]. apply (IH Hnd).
Qed.

Lemma share_range (acc : Tally) (k : string) :
  (domainCounts acc k <= totalMentions acc)%nat ->
  0 <= share acc k /\ share acc k <= 100.
Proof.
  intros H. unfold share.
  destruct (0 <? totalMentions acc)%nat eqn:E; [|split; lra].
  apply Nat.ltb_lt in E.
  destruct (ratio_range _ _ H E). split; lra.
Qed.

Lemma sum_of_shares_is (acc : Tally) (ks : list string) :
  (0 < totalMentions acc)%nat ->
  sum_of_shares (map (fun k => (k, share acc k)) ks)
  == Q_of_nat (mentions_of acc ks) / Q_of_nat (totalMentions acc) * 100.
Proof.
  intros E. pose proof (Q_of_nat_pos _ E) as Hp.
  unfold sum_of_shares, mentions_of.
  induction ks as [|k ks IH]; simpl.
  - change (Q_of_nat 0) with 0. field. lra.
  - rewrite IH. unfold share.
    apply Nat.ltb_lt in E. rewrite E.
    rewrite Q_of_nat_add. field. lra.
Qed.

Lemma round2_close (x : Q) : round2 x <= x + (1 # 200).
Proof.
  unfold round2, round.
  pose proof (Qfloor_le (x * 100 + (1 # 2))) as H.
  apply Qle_shift_div_r; [lra|]. lra.
Qed.

(** X16.  [calculateShareOfVoice]: the total counts the citations of the
    window that mention the domain and every competitor entry with a
    domain; every share is a percentage, and 0 when nothing was
    mentioned; for distinct competitor domains other than the project's
    own, the shares add up to 100 or less, up to the rounding of the
    project's share. *)
Theorem shareOfVoice_is_a_partition (d : DB) (t : Time) (projectId : string)
    (competitorDomains : list string) :
  let s := calculateShareOfVoice d t projectId competitorDomains in
  let rows := filter (in_window projectId (t - thirty_days)%Z) (citations d) in
  shares_totalMentions s
  = (List.length (C_self d t projectId)
     + list_sum (map (fun c => List.length (named_competitors c)) rows))%nat /\
  (0 <= yourShare s /\ yourShare s <= 100) /\
  Forall (fun e => 0 <= snd e /\ snd e <= 100) (competitorShares s) /\
  (shares_totalMentions s = 0%nat ->
   yourShare s == 0 /\ Forall (fun e => snd e == 0) (competitorShares s)) /\
  (NoDup competitorDomains ->
   ~ In (yourDomain_of d projectId) competitorDomains ->
   yourShare s + sum_of_shares (competitorShares s) <= 100 + (1 # 200)).
Proof.
  cbv zeta. unfold calculateShareOfVoice. simpl.
  assert (One : forall k, (domainCounts (tally d t projectId) k
                           <= totalMentions (tally d t projectId))%nat).
  { intros k.
    pose proof (tally_bound d t projectId [k]) as H.
    unfold mentions_of in H. simpl in H.
    assert (Hnd : NoDup [k]) by (constructor; [intros []|constructor]).
    specialize (H Hnd). lia. }
  split.
  { unfold tally. rewrite count_rows_total. unfold C_self. simpl. lia. }
  split.
  { apply round2_percent; now apply share_range. }
  split.
  { apply Forall_forall. intros e He.
    apply in_map_iff in He as (k & <- & _). simpl. now apply share_range. }
  split.
  { intros Hz. unfold share. rewrite Hz. simpl. split.
    - vm_compute. reflexivity.
    - apply Forall_forall. intros e He.
      apply in_map_iff in He as (k & <- & _). simpl. reflexivity. }
  intros Hnd Hnot.
  pose proof (round2_close (share (tally d t projectId)
                                  (yourDomain_of d projectId))) as Hr.
  destruct (0 <? totalMentions (tally d t projectId))%nat eqn:E.
  - apply Nat.ltb_lt in E.
    assert (Hall : NoDup (yourDomain_of d projectId :: competitorDomains))
      by now constructor.
    pose proof (tally_bound d t projectId _ Hall) as Hb.
    pose proof (sum_of_shares_is (tally d t projectId)
                  (yourDomain_of d projectId :: competitorDomains) E) as Hs.
    unfold sum_of_shares in Hs. simpl in Hs.
    destruct (ratio_range _ _ Hb E) as [_ H1].
    unfold sum_of_shares. lra.
  - assert (Hz : sum_of_shares
                   (map (fun domain => (domain,
                                        share (tally d t projectId) domain))
                        competitorDomains) == 0).
    { unfold sum_of_shares, share. rewrite E.
      clear. induction competitorDomains as [|k ks IH]; simpl;
        [reflexivity | rewrite IH; lra]. }
    rewrite Hz. unfold share in Hr |- *. rewrite E in Hr |- *. lra.
Qed.

(** The counts are kept by the exact string of a competitor entry: a
    competitor the caller names [www.rival.com] or [Rival.com] has no
    share of the mentions of [rival.com], which [domainMatches] takes for
    the same domain. *)
Example shareOfVoice_exact_domains :
  let c :=
    TrackingEngine.analyze (Sample.crm true) Sample.acme GEMINI 999000
      (Sample.answer "Rival leads the field."
         [Sample.cite "https://www.rival.com/x" "rival.com" 1] None) in
  let s :=
    calculateShareOfVoice (Sample.store true [c] []) 1000000 "p1"
                          ["www.rival.com"; "Rival.com"; "rival.com"] in
  (shares_totalMentions s = 1%nat) /\
  (map (fun e => Qeq_bool (snd e) 0) (competitorShares s)
   = [true; true; false]) /\
  (map (fun e => Qeq_bool (snd e) 100) (competitorShares s)
   = [false; false; true]) /\
  (TrackingEngine.domainMatches "rival.com" "www.rival.com" = true) /\
  (TrackingEngine.domainMatches "rival.com" "Rival.com" = true).
Proof. cbv zeta. repeat split; vm_compute; reflexivity. Qed.

End ShareOfVoiceFacts.

Section DailyMetricsFacts.

Import Scoring ScoreComponents DailyMetrics.

Local Open Scope Q_scope.

Lemma platform_eqb_true (p q : AIPlatform) :
  platform_eqb p q = true -> p = q.
Proof. destruct p, q; simpl; intros H; try reflexivity; discriminate. Qed.

Lemma same_key_spec (a b : DailyMetric) :
  same_key a b = true <->
  dm_project_id a = dm_project_id b /\ dm_date a = dm_date b /\
  dm_platform a = dm_platform b.
Proof.
  unfold same_key. rewrite !andb_true_iff, String.eqb_eq, Z.eqb_eq.
  split.
  - intros [[H1 H2] H3]. auto using platform_eqb_true.
  - intros (H1 & H2 & ->). auto using platform_eqb_refl.
Qed.

Lemma same_key_excluded (m new old : DailyMetric) :
  same_key m (excluded new old) = same_key m old.
Proof. reflexivity. Qed.

Lemma excluded_self (m : DailyMetric) : excluded m m = m.
Proof. now destruct m. Qed.

Lemma existsb_same_key_map (m new : DailyMetric) (table : list DailyMetric) :
  existsb (same_key m)
          (map (fun old => if same_key new old then excluded new old else old)
               table)
  = existsb (same_key m) table.
Proof.
  induction table as [|e table IH]; simpl; [reflexivity|].
  rewrite IH. now destruct (same_key new e).
Qed.

(** After its upsert a row is reported. *)
Lemma upsert_reported (table : list DailyMetric) (m : DailyMetric) :
  reported (upsert table m) m.
Proof.
  unfold reported, upsert.
  destruct (existsb (same_key m) table) eqn:E.
  - split; [now rewrite existsb_same_key_map|].
    intros e He Hk. apply in_map_iff in He as (old & <- & _).
    destruct (same_key m old) eqn:Eo; [reflexivity|].
    rewrite Eo in Hk. discriminate.
  - split.
    + rewrite existsb_app. simpl.
      assert (same_key m m = true) as -> by now apply same_key_spec.
      now rewrite orb_true_r.
    + intros e He Hk. apply in_app_iff in He as [He|[<-|[]]].
      * assert (existsb (same_key m) table = true) as Hx
          by (apply existsb_exists; eauto).
        rewrite Hx in E. discriminate.
      * apply excluded_self.
Qed.

(** The upsert of a row with another key leaves a reported row
    reported. *)
Lemma upsert_keeps_reported (table : list DailyMetric) (m new : DailyMetric) :
  same_key new m = false -> reported table m -> reported (upsert table new) m.
Proof.
  intros Hne [Hx Hall]. unfold reported, upsert.
  destruct (existsb (same_key new) table) eqn:E.
  - split; [now rewrite existsb_same_key_map|].
    intros e He Hk. apply in_map_iff in He as (old & <- & Hold).
    destruct (same_key new old) eqn:Eo.
    + rewrite same_key_excluded in Hk.
      apply same_key_spec in Eo as (A1 & A2 & A3).
      apply same_key_spec in Hk as (B1 & B2 & B3).
      assert (same_key new m = true) as Hc
        by (apply same_key_spec; repeat split; congruence).
      rewrite Hc in Hne. discriminate.
    + now apply Hall.
  - split; [rewrite existsb_app, Hx; reflexivity|].
    intros e He Hk. apply in_app_iff in He as [He|[<-|[]]];
      [now apply Hall|].
    apply same_key_spec in Hk as (B1 & B2 & B3).
    assert (same_key new m = true) as Hc
      by (apply same_key_spec; repeat split; congruence).
    rewrite Hc in Hne. discriminate.
Qed.

(** The upsert of a reported row changes nothing. *)
Lemma upsert_absorbed (table : list DailyMetric) (m : DailyMetric) :
  reported table m -> upsert table m = table.
Proof.
  intros [Hx Hall]. unfold upsert. rewrite Hx.
  rewrite <- (map_id table) at 2. apply map_ext_in.
  intros e He. destruct (same_key m e) eqn:E; [now apply Hall | reflexivity].
Qed.

Lemma fold_upsert_absorbed (rows table : list DailyMetric) :
  Forall (reported table) rows -> fold_left upsert rows table = table.
Proof.
  induction 1 as [|m rows Hm _ IH]; simpl; [reflexivity|].
  now rewrite (upsert_absorbed _ _ Hm).
Qed.

(** Rows of distinct platforms are all reported after their upserts. *)
Lemma fold_upsert_reported (mk : AIPlatform -> DailyMetric)
    (ps : list AIPlatform) (table : list DailyMetric) :
  (forall p, dm_platform (mk p) = p) -> NoDup ps ->
  Forall (reported (fold_left upsert (map mk ps) table)) (map mk ps).
Proof.
  intros Hmk. induction ps as [|p ps IH] using rev_ind; intros Hnd;
    [constructor|].
  rewrite map_app, fold_left_app. simpl.
  apply NoDup_remove in Hnd as [Hnd Hp]. rewrite app_nil_r in Hnd, Hp.
  apply Forall_app. split; [|repeat constructor; apply upsert_reported].
  specialize (IH Hnd). rewrite Forall_forall in IH.
  apply Forall_forall. intros m Hm.
  apply upsert_keeps_reported; [|now apply IH].
  apply in_map_iff in Hm as (q & <- & Hq).
  destruct (same_key (mk p) (mk q)) eqn:E; [|reflexivity].
  apply same_key_spec in E as (_ & _ & E). rewrite !Hmk in E.
  subst q. contradiction.
Qed.

Lemma other_days_upsert (projectId : string) (date : Z)
    (table : list DailyMetric) (m : DailyMetric) :
  dm_project_id m = projectId -> dm_date m = date ->
  other_days projectId date (upsert table m) = other_days projectId date table.
Proof.
  intros Hp Hd. unfold other_days, upsert.
  destruct (existsb (same_key m) table).
  - induction table as [|e table IH]; simpl; [reflexivity|].
    rewrite IH. destruct (same_key m e) eqn:E; [|reflexivity].
    apply same_key_spec in E as (E1 & E2 & _).
    simpl. rewrite <- E1, <- E2, Hp, Hd, String.eqb_refl, Z.eqb_refl.
    reflexivity.
  - rewrite filter_app. simpl.
    rewrite Hp, Hd, String.eqb_refl, Z.eqb_refl. simpl.
    apply app_nil_r.
Qed.

Lemma other_days_fold (projectId : string) (date : Z)
    (rows table : list DailyMetric) :
  Forall (fun m => dm_project_id m = projectId /\ dm_date m = date) rows ->
  other_days projectId date (fold_left upsert rows table)
  = other_days projectId date table.
Proof.
  intros H. revert table.
  induction H as [|m rows [Hp Hd] _ IH]; intros table; simpl;
    [reflexivity|].
  rewrite IH. now apply other_days_upsert.
Qed.

Lemma nodup_length_le (l : list string) :
  (List.length (nodup string_dec l) <= List.length l)%nat.
Proof.
  apply NoDup_incl_length; [apply NoDup_nodup|].
  intros x Hx. now apply nodup_In in Hx.
Qed.

(** The counts of a computed row agree with one another. *)
Lemma metric_of_consistent (projectId : string) (date : Z)
    (cs : list Citation) (p : AIPlatform) :
  consistent (kept (metric_of projectId date cs p)).
Proof.
  unfold consistent, kept, metric_of, count_filter. simpl.
  set (g := filter (fun c => platform_eqb (platform c) p) cs).
  repeat split.
  - apply filter_length_le_impl. intros c _. unfold mentioned_at.
    destruct (domain_mentioned c); [|discriminate].
    destruct (citation_position c) as [z|]; [|discriminate].
    cbn [andb]. intros H. apply Z.eqb_eq in H. subst z. reflexivity.
  - apply filter_length_le_impl. intros c _. unfold mentioned_at.
    now destruct (domain_mentioned c).
  - apply NoDup_incl_length; [apply NoDup_nodup|].
    intros x Hx. apply nodup_In in Hx. apply nodup_In.
    apply in_map_iff in Hx as (c & <- & Hc).
    apply filter_In in Hc as [Hc _]. now apply in_map.
  - etransitivity; [apply nodup_length_le|]. now rewrite length_map.
Qed.

Lemma sum_at_most (hi : Z) (l : list Z) :
  Forall (fun z => (z <= hi)%Z) l ->
  (fold_right Z.add 0%Z l <= hi * Z.of_nat (List.length l))%Z.
Proof.
  induction 1 as [|z l Hz _ IH]; simpl List.length; simpl fold_right; lia.
Qed.

Lemma average_at_most (hi : Z) (l : list Z) (q : Q) :
  Forall (fun z => (z <= hi)%Z) l -> average l = Some q ->
  q <= inject_Z hi.
Proof.
  intros H. unfold average. destruct l as [|z l]; [discriminate|].
  intros [= <-].
  pose proof (sum_at_most hi _ H) as Hs.
  apply Qle_shift_div_r.
  - unfold Qlt. simpl. lia.
  - rewrite <- inject_Z_mult, <- Zle_Qle. exact Hs.
Qed.

(** An average of ranks up to 99 fits its column. *)
Lemma rank_average_fits (q : Q) :
  1 <= q -> q <= 99 -> fits_decimal_4_2 q = true.
Proof.
  intros H1 H99. unfold fits_decimal_4_2, Alerts.decimal_2,
    Alerts.round_half_away.
  assert (E : Qle_bool 0 (q * 100) = true) by (apply Qle_bool_iff; lra).
  rewrite E.
  assert (L : (0 <= Qfloor (q * 100 + (1 # 2)))%Z).
  { change 0%Z with (Qfloor 0). apply Qfloor_resp_le. lra. }
  assert (U : (Qfloor (q * 100 + (1 # 2)) <= 9900)%Z).
  { change 9900%Z with (Qfloor (9900 + (1 # 2))).
    apply Qfloor_resp_le. lra. }
  set (n := Qfloor (q * 100 + (1 # 2))) in *.
  apply andb_true_iff. split; apply Qle_bool_iff; unfold Qle; simpl; lia.
Qed.

Lemma select_metrics_fit (d : DB) (projectId : string) (date : Z) :
  (forall c z, In c (citations d) -> citation_position c = Some z ->
               (1 <= z <= 99)%Z) ->
  forallb fits (select_metrics d projectId date) = true.
Proof.
  intros H. apply forallb_forall. intros m Hm.
  unfold select_metrics in Hm. apply in_map_iff in Hm as (p & <- & _).
  unfold fits, metric_of. simpl.
  destruct (average _) as [q|] eqn:E; [|reflexivity].
  assert (Hz : forall z, In z (ranked_positions
                 (filter (fun c => platform_eqb (platform c) p)
                    (filter (on_day projectId date) (citations d)))) ->
               (1 <= z <= 99)%Z).
  { intros z Hz. apply ranked_positions_in in Hz as (c & Hc & _ & Hp).
    apply filter_In in Hc as [Hc _]. apply filter_In in Hc as [Hc _].
    exact (H c z Hc Hp). }
  apply rank_average_fits.
  - apply (average_at_least_1 _ q) in E; [exact E|].
    apply Forall_forall. intros z Hin. apply (Hz z Hin).
  - apply (average_at_most 99 _ q) in E; [exact E|].
    apply Forall_forall. intros z Hin. apply (Hz z Hin).
Qed.

(** X17.  When the stored positions are ranks from 1 to 99,
    [generateDailyMetrics] succeeds; running it again on its result
    changes nothing; the rows of other projects and days stay as they
    were; and every platform with a citation of the project on that day
    has its row, whose counts agree: first-position citations are among
    the top three, these among the citations, and the keywords with a
    citation among the keywords tracked and no more than the
    citations. *)
Theorem generateDailyMetrics_idempotent (d : DB) (table : list DailyMetric)
    (projectId : string) (date : Time) :
  (forall c z, In c (citations d) -> citation_position c = Some z ->
               (1 <= z <= 99)%Z) ->
  exists table',
    generateDailyMetrics d table projectId date = Returns table' /\
    generateDailyMetrics d table' projectId date = Returns table' /\
    other_days projectId (date_of date) table'
    = other_days projectId (date_of date) table /\
    Forall (fun m => reported table' (kept m) /\ consistent (kept m))
           (select_metrics d projectId (date_of date)).
Proof.
  intros H. unfold generateDailyMetrics.
  rewrite (select_metrics_fit d projectId (date_of date) H).
  eexists. split; [reflexivity|].
  set (cs := filter (on_day projectId (date_of date)) (citations d)).
  set (ps := filter (fun p => existsb (fun c => platform_eqb (platform c) p)
                                      cs) all_platforms).
  assert (Hrows : map kept (select_metrics d projectId (date_of date))
                  = map (fun p => kept (metric_of projectId (date_of date)
                                                  cs p)) ps).
  { unfold select_metrics. fold cs. fold ps. now rewrite map_map. }
  assert (Hnd : NoDup ps).
  { apply NoDup_filter. repeat constructor; simpl; intuition discriminate. }
  pose proof (fold_upsert_reported
                (fun p => kept (metric_of projectId (date_of date) cs p))
                ps table (fun p => eq_refl) Hnd) as Hrep.
  rewrite <- Hrows in Hrep.
  split; [|split].
  - f_equal. now apply fold_upsert_absorbed.
  - apply other_days_fold. rewrite Hrows. apply Forall_forall.
    intros m Hm. apply in_map_iff in Hm as (p & <- & _). now split.
  - rewrite Forall_forall in Hrep. apply Forall_forall. intros m Hm.
    split; [apply Hrep; now apply in_map|].
    unfold select_metrics in Hm. apply in_map_iff in Hm as (p & <- & _).
    apply metric_of_consistent.
Qed.

(** The witness of X17: an empty table and the sample store with a
    citation at rank 2. *)
Lemma generateDailyMetrics_idempotent_witness :
  exists table',
    generateDailyMetrics
      (Sample.store true [Sample.prior GEMINI 999000 true (Some 2%Z)] [])
      [] "p1" 1000000 = Returns table' /\
    generateDailyMetrics
      (Sample.store true [Sample.prior GEMINI 999000 true (Some 2%Z)] [])
      table' "p1" 1000000 = Returns table' /\
    other_days "p1" (date_of 1000000) table'
    = other_days "p1" (date_of 1000000) [] /\
    Forall (fun m => reported table' (kept m) /\ consistent (kept m))
           (select_metrics
              (Sample.store true
                 [Sample.prior GEMINI 999000 true (Some 2%Z)] [])
              "p1" (date_of 1000000)).
Proof.
  apply (generateDailyMetrics_idempotent
           (Sample.store true [Sample.prior GEMINI 999000 true (Some 2%Z)] [])
           [] "p1" 1000000).
  simpl. intros c z [<-|[]] [= <-]. lia.
Defined.

(** A citation at rank 100 has an average its column cannot hold: the
    statement fails. *)
Example generateDailyMetrics_overflow :
  generateDailyMetrics
    (Sample.store true [Sample.prior GEMINI 999000 true (Some 100%Z)] [])
    [] "p1" 1000000
  = Throws "numeric field overflow".
Proof. vm_compute. reflexivity. Qed.

End DailyMetricsFacts.

Section DomainMatching.

Import TrackingEngine.

Local Open Scope nat_scope.

Lemma substring_skip (q s : string) (m : nat) :
  substring (String.length q) m (q ++ s) = substring 0 m s.
Proof. induction q as [|c q IH]; simpl; [reflexivity | exact IH]. Qed.

Lemma substring_split (k : nat) (s : string) :
  k <= String.length s ->
  s = (substring 0 k s ++ substring k (String.length s - k) s)%string.
Proof.
  revert k; induction s as [|c s IH]; intros [|k] H; simpl in *;
    try reflexivity; try lia.
  - f_equal. symmetry. apply (substring0_all (String.length s) s). lia.
  - f_equal. apply IH. lia.
Qed.

(** [endsWith] holds of a string and its suffixes. *)
Lemma endsWith_iff (s suffix : string) :
  JS.endsWith s suffix = true <-> exists q, s = (q ++ suffix)%string.
Proof.
  unfold JS.endsWith. split.
  - destruct (String.length suffix <=? String.length s) eqn:E;
      [|discriminate].
    apply Nat.leb_le in E. intros H. apply String.eqb_eq in H.
    exists (substring 0 (String.length s - String.length suffix) s).
    pose proof (substring_split (String.length s - String.length suffix) s)
      as Hs.
    replace (String.length s - (String.length s - String.length suffix))
      with (String.length suffix) in Hs by lia.
    rewrite H in Hs. apply Hs. lia.
  - intros [q ->]. rewrite length_append.
    assert ((String.length suffix <=? String.length q + String.length suffix)
            = true) as -> by (apply Nat.leb_le; lia).
    replace (String.length q + String.length suffix - String.length suffix)
      with (String.length q) by lia.
    rewrite substring_skip.
    pose proof (substring0_all (String.length suffix) suffix (le_n _)) as Hs.
    unfold JS.substring0 in Hs. rewrite Hs.
    apply String.eqb_refl.
Qed.

Lemma lower_char_idem (c : ascii) :
  JS.lower_char (JS.lower_char c) = JS.lower_char c.
Proof. destruct c as [[] [] [] [] [] [] [] []]; reflexivity. Qed.

Lemma toLowerCase_idem (s : string) :
  JS.toLowerCase (JS.toLowerCase s) = JS.toLowerCase s.
Proof.
  induction s as [|c s IH]; simpl; [reflexivity|].
  now rewrite lower_char_idem, IH.
Qed.

(** X18.  [domainMatches] holds exactly when the citation's domain, lower
    case and without a leading [www.] and surrounding blanks, is the
    target's, so normalised, or ends with a dot and the target's; the
    case of either domain makes no difference, and a citation matches
    its own domain. *)
Theorem domainMatches_iff (citationDomain targetDomain : string) :
  (domainMatches citationDomain targetDomain = true <->
   same_or_subdomain (normalize citationDomain) (normalize targetDomain)) /\
  domainMatches (JS.toLowerCase citationDomain) (JS.toLowerCase targetDomain)
  = domainMatches citationDomain targetDomain /\
  domainMatches citationDomain citationDomain = true.
Proof.
  unfold domainMatches, same_or_subdomain. split; [|split].
  - rewrite orb_true_iff, String.eqb_eq, endsWith_iff. reflexivity.
  - unfold normalize. now rewrite !toLowerCase_idem.
  - now rewrite String.eqb_refl.
Qed.

(** A subdomain and the [www] host match; a domain that only ends with
    the same letters does not, nor does the domain match one of its
    subdomains given as the target. *)
Example domainMatches_examples :
  domainMatches "Blog.Acme.com" "acme.com" = true /\
  domainMatches "WWW.acme.com " "www.Acme.com" = true /\
  domainMatches "notacme.com" "acme.com" = false /\
  domainMatches "acme.com.example.org" "acme.com" = false /\
  domainMatches "acme.com" "blog.acme.com" = false.
Proof. repeat split. Qed.

End DomainMatching.

Section AlertRoutesFacts.

Import Scoring AlertRoutes.

Local Open Scope nat_scope.

Lemma of_others_map (organizationId : string)
    (f : AlertRow -> AlertRow) (hit : AlertRow -> bool)
    (table : list AlertRow) :
  (forall r, ar_alert (f r) = ar_alert r) ->
  (forall r, hit r = true -> of_org organizationId r = true) ->
  of_others organizationId (map (fun r => if hit r then f r else r) table)
  = of_others organizationId table.
Proof.
  intros Hf Hh. unfold of_others.
  induction table as [|r table IH]; simpl; [reflexivity|].
  rewrite IH. destruct (hit r) eqn:E; [|reflexivity].
  unfold of_org. rewrite Hf. fold (of_org organizationId r).
  now rewrite (Hh r E).
Qed.

Lemma to_mark_of_org organizationId project_id r :
  to_mark organizationId project_id r = true ->
  of_org organizationId r = true /\ is_read r = false.
Proof.
  unfold to_mark. intros H.
  apply andb_true_iff in H as [H _]. apply andb_true_iff in H as [H1 H2].
  split; [exact H1|]. now destruct (is_read r).
Qed.

Lemma unread_after_marking organizationId userId project_id t table :
  List.length
    (filter (fun r => of_org organizationId r && negb (is_read r))
       (map (fun r => if to_mark organizationId project_id r
                      then read_now userId t r else r) table))
  + List.length (filter (to_mark organizationId project_id) table)
  = List.length
      (filter (fun r => of_org organizationId r && negb (is_read r)) table).
Proof.
  induction table as [|r table IH]; simpl; [reflexivity|].
  destruct (to_mark organizationId project_id r) eqn:E.
  - destruct (to_mark_of_org _ _ _ E) as [Ho Hr].
    rewrite andb_false_r, Ho, Hr. simpl. lia.
  - destruct (of_org organizationId r && negb (is_read r)); simpl; lia.
Qed.

Lemma unread_after_marking_all organizationId userId t table :
  filter (fun r => of_org organizationId r && negb (is_read r))
    (map (fun r => if to_mark organizationId None r
                   then read_now userId t r else r) table)
  = [].
Proof.
  assert (Hm : forall r, to_mark organizationId None r
                         = of_org organizationId r && negb (is_read r)).
  { intros r. unfold to_mark. simpl. apply andb_true_r. }
  induction table as [|r table IH]; simpl; [reflexivity|].
  destruct (to_mark organizationId None r) eqn:E.
  - rewrite andb_false_r. exact IH.
  - rewrite <- Hm, E. exact IH.
Qed.

(** X19.  [POST /mark-all-read] answers with the number of alerts it
    marked, and the unread alerts of the organization are fewer by that
    number; without a project in the body none is left unread.  No row
    is added or removed, the alerts of other organizations are
    untouched, and so are those already read. *)
Theorem mark_all_read_clears_unread (organizationId userId : string)
    (project_id : option string) (t : Time) (table : list AlertRow) :
  let count := fst (mark_all_read organizationId userId project_id t table) in
  let table' :=
    snd (mark_all_read organizationId userId project_id t table) in
  unreadCount (unread_count organizationId table') + count
  = unreadCount (unread_count organizationId table) /\
  (JS.truthy_string project_id = false ->
   unread_count organizationId table' = none_unread) /\
  map ar_id table' = map ar_id table /\
  of_others organizationId table' = of_others organizationId table /\
  (forall r, In r table -> is_read r = true -> In r table').
Proof.
  cbv zeta. unfold mark_all_read. simpl.
  split; [apply unread_after_marking|].
  split.
  { intros Hp. unfold unread_count.
    assert (Hm : forall r, to_mark organizationId project_id r
                           = to_mark organizationId None r).
    { intros r. unfold to_mark. now rewrite Hp. }
    rewrite (map_ext
               (fun r => if to_mark organizationId project_id r
                         then read_now userId t r else r)
               (fun r => if to_mark organizationId None r
                         then read_now userId t r else r))
      by (intros r; now rewrite Hm).
    rewrite unread_after_marking_all. reflexivity. }
  split.
  { rewrite map_map. apply map_ext. intros r.
    now destruct (to_mark organizationId project_id r). }
  split.
  { apply of_others_map; [reflexivity|].
    intros r H. now apply to_mark_of_org in H. }
  intros r Hin Hr. apply in_map_iff. exists r. split; [|exact Hin].
  destruct (to_mark organizationId project_id r) eqn:E; [|reflexivity].
  apply to_mark_of_org in E as [_ E]. congruence.
Qed.

Lemma is_alert_of_org id organizationId r :
  is_alert id organizationId r = true -> of_org organizationId r = true.
Proof. unfold is_alert. intros H. now apply andb_true_iff in H. Qed.

Lemma filter_nil_map {A : Type} (hit : A -> bool) (f : A -> A)
    (l : list A) :
  filter hit l = [] -> map (fun r => if hit r then f r else r) l = l.
Proof.
  induction l as [|x l IH]; simpl; [reflexivity|].
  destruct (hit x); [discriminate|]. intros H. now rewrite IH.
Qed.

Lemma filter_nil_negb {A : Type} (hit : A -> bool) (l : list A) :
  filter hit l = [] -> filter (fun r => negb (hit r)) l = l.
Proof.
  induction l as [|x l IH]; simpl; [reflexivity|].
  destruct (hit x); [discriminate|]. simpl. intros H. now rewrite IH.
Qed.

(** X20.  The routes of one alert, [PATCH /:id/read] and [DELETE /:id],
    act within the organization of the caller.  When the organization has
    no alert of that id, as when the alert is another organization's,
    both fail with [Alert not found] and change nothing.  Otherwise they
    succeed; the alerts of other organizations stay as they were; the
    alert answered is read, by the caller; after the removal the
    organization has no alert of that id. *)
Theorem alert_routes_stay_in_organization (id organizationId userId : string)
    (t : Time) (table : list AlertRow) :
  let marked := mark_read id organizationId userId t table in
  let deleted := delete_alert id organizationId table in
  (filter (is_alert id organizationId) table = [] ->
   marked = (Throws "Alert not found", table) /\
   deleted = (Throws "Alert not found", table)) /\
  (filter (is_alert id organizationId) table <> [] ->
   (exists row, fst marked = Returns row /\ In row (snd marked) /\
                ar_id row = id /\ is_read row = true /\
                read_by row = Some userId) /\
   fst deleted = Returns "Alert deleted successfully") /\
  of_others organizationId (snd marked) = of_others organizationId table /\
  of_others organizationId (snd deleted) = of_others organizationId table /\
  filter (is_alert id organizationId) (snd deleted) = [].
Proof.
  cbv zeta. unfold mark_read, delete_alert.
  split; [|split; [|split; [|split]]].
  - intros H. rewrite H. simpl.
    now rewrite (filter_nil_map _ _ _ H), (filter_nil_negb _ _ H).
  - intros H.
    destruct (filter (is_alert id organizationId) table) as [|r l] eqn:E;
      [contradiction|].
    split; [|reflexivity].
    assert (Hr : In r (filter (is_alert id organizationId) table))
      by (rewrite E; now left).
    apply filter_In in Hr as [Hin Hhit].
    exists (read_now userId t r). simpl. split; [reflexivity|].
    split.
    + apply in_map_iff. exists r. now rewrite Hhit.
    + unfold is_alert in Hhit. apply andb_true_iff in Hhit as [Hid _].
      apply String.eqb_eq in Hid. auto.
  - assert (H : of_others organizationId
                  (map (fun r => if is_alert id organizationId r
                                 then read_now userId t r else r) table)
                = of_others organizationId table).
    { apply of_others_map; [reflexivity | apply is_alert_of_org]. }
    now destruct (map _ (filter _ table)).
  - assert (H : of_others organizationId
                  (filter (fun r => negb (is_alert id organizationId r))
                          table)
                = of_others organizationId table).
    { unfold of_others. induction table as [|r table IH]; simpl;
        [reflexivity|].
      destruct (is_alert id organizationId r) eqn:E; simpl.
      - rewrite (is_alert_of_org _ _ _ E). simpl. exact IH.
      - now rewrite IH. }
    now destruct (filter (is_alert id organizationId) table).
  - assert (H : filter (is_alert id organizationId)
                  (filter (fun r => negb (is_alert id organizationId r))
                          table) = []).
    { induction table as [|r table IH]; simpl; [reflexivity|].
      destruct (is_alert id organizationId r) eqn:E; simpl;
        [exact IH | now rewrite E]. }
    now destruct (filter (is_alert id organizationId) table).
Qed.

End AlertRoutesFacts.

Section Deduplication.

Import Adapters.

Local Open Scope nat_scope.

Lemma existsb_eqb_In (u : string) (l : list string) :
  existsb (String.eqb u) l = true <-> In u l.
Proof.
  rewrite existsb_exists. split.
  - intros (x & Hx & E). apply String.eqb_eq in E. now subst.
  - intros H. exists u. split; [exact H | apply String.eqb_refl].
Qed.

Lemma first_seen_ext (s1 s2 l : list string) :
  (forall x, In x s1 <-> In x s2) -> first_seen s1 l = first_seen s2 l.
Proof.
  revert s1 s2; induction l as [|u l IH]; intros s1 s2 H; simpl;
    [reflexivity|].
  assert (E : existsb (String.eqb u) s1 = existsb (String.eqb u) s2).
  { destruct (existsb (String.eqb u) s1) eqn:E1,
             (existsb (String.eqb u) s2) eqn:E2; try reflexivity.
    - apply existsb_eqb_In, H, existsb_eqb_In in E1. congruence.
    - apply existsb_eqb_In, H, existsb_eqb_In in E2. congruence. }
  rewrite E. destruct (existsb (String.eqb u) s2); [now apply IH|].
  f_equal. apply IH. intros x. simpl. now rewrite H.
Qed.

Lemma first_seen_spec (seen l : list string) :
  NoDup (first_seen seen l) /\
  forall u, In u (first_seen seen l) <-> In u l /\ ~ In u seen.
Proof.
  revert seen; induction l as [|u l IH]; intros seen; simpl.
  - split; [constructor | intuition].
  - destruct (existsb (String.eqb u) seen) eqn:E.
    + destruct (IH seen) as [Hn Hi]. split; [exact Hn|].
      apply existsb_eqb_In in E.
      intros x. rewrite Hi. split; [intuition|].
      intros [[<-|Hx] Hs]; [contradiction | auto].
    + destruct (IH (u :: seen)) as [Hn Hi].
      assert (Hu : ~ In u seen).
      { intros Hu. apply existsb_eqb_In in Hu. congruence. }
      split.
      * constructor; [|exact Hn]. rewrite Hi. simpl. intuition.
      * intros x. simpl. rewrite Hi. simpl.
        destruct (string_dec u x) as [->|Hne]; intuition.
Qed.

Lemma map_get_None (seen : UrlMap) (k : string) :
  map_get seen k = None <-> ~ In k (map fst seen).
Proof.
  unfold map_get. induction seen as [|[k' v] seen IH]; simpl;
    [intuition|].
  destruct (String.eqb_spec k' k) as [->|Hne]; simpl.
  - split; [discriminate | intros H; exfalso; auto].
  - rewrite IH. intuition.
Qed.

Lemma map_get_Some (seen : UrlMap) (k : string) (v : AICitation) :
  map_get seen k = Some v -> In (k, v) seen.
Proof.
  unfold map_get. induction seen as [|[k' v'] seen IH]; simpl;
    [discriminate|].
  destruct (String.eqb_spec k' k) as [->|Hne]; simpl.
  - intros [= ->]. now left.
  - intros H. right. now apply IH.
Qed.

Lemma keys_map_set (seen : UrlMap) (k : string) (v : AICitation) :
  map fst (map_set seen k v)
  = if existsb (String.eqb k) (map fst seen) then map fst seen
    else (map fst seen ++ [k])%list.
Proof.
  induction seen as [|[k' v'] seen IH]; simpl; [reflexivity|].
  rewrite (String.eqb_sym k k').
  destruct (String.eqb k' k); simpl; [reflexivity|].
  rewrite IH. now destruct (existsb (String.eqb k) (map fst seen)).
Qed.

Lemma keys_keep_best (seen : UrlMap) (c : AICitation) :
  map fst (keep_best seen c)
  = if existsb (String.eqb (url c)) (map fst seen) then map fst seen
    else (map fst seen ++ [url c])%list.
Proof.
  unfold keep_best.
  destruct (map_get seen (url c)) as [existing|] eqn:E.
  - assert (Hin : existsb (String.eqb (url c)) (map fst seen) = true).
    { apply existsb_eqb_In. apply map_get_Some in E.
      now apply (in_map fst) in E. }
    rewrite Hin.
    destruct (JS.truthy_string (title c) &&
              negb (JS.truthy_string (title existing)));
      [|reflexivity].
    now rewrite keys_map_set, Hin.
  - rewrite keys_map_set.
    apply map_get_None in E.
    destruct (existsb (String.eqb (url c)) (map fst seen)) eqn:Hin;
      [|reflexivity].
    apply existsb_eqb_In in Hin. contradiction.
Qed.

(** The keys of the map are the URLs in the order they first occur. *)
Lemma keys_fold (cs : list AICitation) (seen : UrlMap) :
  map fst (fold_left keep_best cs seen)
  = (map fst seen ++ first_seen (map fst seen) (map url cs))%list.
Proof.
  revert seen; induction cs as [|c cs IH]; intros seen; simpl.
  - now rewrite app_nil_r.
  - rewrite IH, keys_keep_best.
    destruct (existsb (String.eqb (url c)) (map fst seen)); [reflexivity|].
    rewrite <- app_assoc. simpl. do 2 f_equal.
    apply first_seen_ext. intros x. rewrite in_app_iff. simpl. intuition.
Qed.

Lemma in_map_set (seen : UrlMap) (k : string) (v : AICitation)
    (e : string * AICitation) :
  In e (map_set seen k v) -> In e seen \/ e = (k, v).
Proof.
  induction seen as [|[k' v'] seen IH]; simpl.
  - intros [<-|[]]. now right.
  - destruct (String.eqb_spec k' k) as [->|Hne]; simpl.
    + intros [<-|H]; auto.
    + intros [<-|H]; auto. destruct (IH H); auto.
Qed.

Lemma in_keep_best (seen : UrlMap) (c : AICitation)
    (e : string * AICitation) :
  In e (keep_best seen c) -> In e seen \/ e = (url c, c).
Proof.
  unfold keep_best. destruct (map_get seen (url c)) as [existing|].
  - destruct (JS.truthy_string (title c) &&
              negb (JS.truthy_string (title existing)));
      [apply in_map_set | auto].
  - apply in_map_set.
Qed.

(** The values of the map are citations that were given. *)
Lemma values_fold (cs : list AICitation) (seen : UrlMap)
    (e : string * AICitation) :
  In e (fold_left keep_best cs seen) ->
  In e seen \/ (In (snd e) cs /\ fst e = url (snd e)).
Proof.
  revert seen; induction cs as [|c cs IH]; intros seen; simpl; [auto|].
  intros H. destruct (IH _ H) as [H1|[H1 H2]]; [|auto].
  destruct (in_keep_best _ _ _ H1) as [H3| ->]; auto.
Qed.

Lemma map_set_titled (seen : UrlMap) (k k0 : string) (v : AICitation) :
  JS.truthy_string (title v) = true ->
  (exists v0, In (k0, v0) seen /\ JS.truthy_string (title v0) = true) ->
  exists v0, In (k0, v0) (map_set seen k v) /\
             JS.truthy_string (title v0) = true.
Proof.
  intros Hv. induction seen as [|[k' v'] seen IH]; simpl.
  - intros (v0 & [] & _).
  - intros (v0 & [[= -> ->]|Hin] & Ht).
    + destruct (String.eqb_spec k0 k) as [->|Hne].
      * exists v. split; [now left | exact Hv].
      * exists v0. split; [now left | exact Ht].
    + destruct (String.eqb k' k).
      * exists v0. split; [now right | exact Ht].
      * destruct IH as (v1 & H1 & H2); [eauto|].
        exists v1. split; [now right | exact H2].
Qed.

(** After [seen.set(k, v)] the key [k] has a value, titled if [v] is. *)
Lemma map_set_in (seen : UrlMap) (k : string) (v : AICitation) :
  exists v', In (k, v') (map_set seen k v) /\
             (JS.truthy_string (title v) = true ->
              JS.truthy_string (title v') = true).
Proof.
  induction seen as [|[k' v'] seen IH]; simpl.
  - exists v. split; [now left | auto].
  - destruct (String.eqb_spec k' k) as [->|Hne].
    + exists v. split; [now left | auto].
    + destruct IH as (v1 & H1 & H2). exists v1. split; [now right | auto].
Qed.

Lemma keep_best_titled (seen : UrlMap) (c : AICitation) (k0 : string) :
  (exists v0, In (k0, v0) seen /\ JS.truthy_string (title v0) = true) ->
  exists v0, In (k0, v0) (keep_best seen c) /\
             JS.truthy_string (title v0) = true.
Proof.
  intros H. unfold keep_best.
  destruct (map_get seen (url c)) as [existing|] eqn:E.
  - destruct (JS.truthy_string (title c)) eqn:Ht; simpl; [|exact H].
    destruct (JS.truthy_string (title existing)); simpl; [exact H|].
    now apply map_set_titled.
  - destruct H as (v0 & Hin & Ht0).
    apply map_get_None in E.
    assert (Hne : k0 <> url c).
    { intros ->. apply E. now apply (in_map fst) in Hin. }
    clear E. induction seen as [|[k' v'] seen IH]; [destruct Hin|].
    simpl. destruct Hin as [[= -> ->]|Hin].
    + destruct (String.eqb_spec k0 (url c)); [contradiction|].
      exists v0. split; [now left | exact Ht0].
    + destruct (String.eqb k' (url c)).
      * exists v0. split; [now right | exact Ht0].
      * destruct (IH Hin) as (v1 & H1 & H2).
        exists v1. split; [now right | exact H2].
Qed.

Lemma keep_best_titles (seen : UrlMap) (c : AICitation) :
  JS.truthy_string (title c) = true ->
  exists v0, In (url c, v0) (keep_best seen c) /\
             JS.truthy_string (title v0) = true.
Proof.
  intros Ht. unfold keep_best.
  destruct (map_get seen (url c)) as [existing|] eqn:E.
  - rewrite Ht. simpl.
    destruct (JS.truthy_string (title existing)) eqn:He; simpl.
    + exists existing. split; [now apply map_get_Some | exact He].
    + destruct (map_set_in seen (url c) c) as (v' & H1 & H2).
      exists v'. auto.
  - destruct (map_set_in seen (url c) c) as (v' & H1 & H2).
    exists v'. auto.
Qed.

Lemma fold_titled (cs : list AICitation) (seen : UrlMap) (k0 : string) :
  (exists v0, In (k0, v0) seen /\ JS.truthy_string (title v0) = true) ->
  exists v0, In (k0, v0) (fold_left keep_best cs seen) /\
             JS.truthy_string (title v0) = true.
Proof.
  revert seen; induction cs as [|c cs IH]; intros seen H; simpl;
    [exact H|].
  apply IH. now apply keep_best_titled.
Qed.

Lemma fold_titles (cs : list AICitation) (seen : UrlMap) (c : AICitation) :
  In c cs -> JS.truthy_string (title c) = true ->
  exists v0, In (url c, v0) (fold_left keep_best cs seen) /\
             JS.truthy_string (title v0) = true.
Proof.
  revert seen; induction cs as [|c' cs IH]; intros seen Hin Ht; simpl;
    [destruct Hin|].
  destruct Hin as [->|Hin]; [|now apply IH].
  apply fold_titled. now apply keep_best_titles.
Qed.

Lemma map_index_length {A B : Type} (f : A -> nat -> B) (i : nat)
    (l : list A) :
  List.length (map_index f i l) = List.length l.
Proof. revert i; induction l; intros i; simpl; auto. Qed.

Lemma map_index_map {A B C : Type} (f : A -> nat -> B) (g : B -> C)
    (h : A -> C) (i : nat) (l : list A) :
  (forall x j, g (f x j) = h x) -> map g (map_index f i l) = map h l.
Proof.
  intros H. revert i; induction l as [|x l IH]; intros i; simpl;
    [reflexivity|].
  now rewrite H, IH.
Qed.

Lemma map_index_positions {A : Type} (f : A -> nat -> AICitation) (i : nat)
    (l : list A) :
  (forall x j, position (f x j) = (Z.of_nat j + 1)%Z) ->
  map position (map_index f i l)
  = map (fun j => Z.of_nat j + 1)%Z (seq i (List.length l)).
Proof.
  intros H. revert i; induction l as [|x l IH]; intros i; simpl;
    [reflexivity|].
  now rewrite H, IH.
Qed.

Lemma map_index_ranked {A : Type} (f : A -> nat -> AICitation) (l : list A) :
  (forall x j, position (f x j) = (Z.of_nat j + 1)%Z) ->
  ranked (map_index f 0 l).
Proof.
  intros H. unfold ranked.
  now rewrite map_index_length, (map_index_positions f 0 l H).
Qed.

Lemma in_map_index {A B : Type} (f : A -> nat -> B) (i : nat) (l : list A)
    (y : B) :
  In y (map_index f i l) -> exists x j, In x l /\ y = f x j.
Proof.
  revert i; induction l as [|x l IH]; intros i; simpl; [intros []|].
  intros [<-|H]; [eauto|].
  destruct (IH _ H) as (x' & j & Hx & ->). eauto.
Qed.

Lemma fold_keep_best_values (citations : list AICitation)
    (e : string * AICitation) :
  In e (fold_left keep_best citations []) ->
  In (snd e) citations /\ fst e = url (snd e).
Proof. intros He. destruct (values_fold _ _ _ He) as [[]|H]. exact H. Qed.

(** The URLs of the answer, in the order they first occur. *)
Lemma deduplicateCitations_urls (citations : list AICitation) :
  map url (deduplicateCitations citations)
  = first_seen [] (map url citations).
Proof.
  unfold deduplicateCitations.
  rewrite (map_index_map at_position url url) by reflexivity.
  rewrite map_map.
  rewrite (map_ext_in _ fst)
    by (intros e He; symmetry; apply (fold_keep_best_values _ e He)).
  apply (keys_fold citations []).
Qed.

(** X21.  [deduplicateCitations] of the OpenAI service answers one
    citation for each URL, in the order the URLs first occur and
    numbered 1, 2, ... in that order.  Each is one of the citations
    given, its position apart, and one with a title when a citation of
    that URL has a title. *)
Theorem deduplicateCitations_by_url (citations : list AICitation) :
  let out := deduplicateCitations citations in
  map url out = first_seen [] (map url citations) /\
  NoDup (map url out) /\
  (forall u, In u (map url out) <-> In u (map url citations)) /\
  ranked out /\
  (forall c, In c out -> exists c', In c' citations /\ same_source c c') /\
  (forall c, In c citations -> JS.truthy_string (title c) = true ->
             exists c', In c' out /\ url c' = url c /\
                        JS.truthy_string (title c') = true).
Proof.
  cbv zeta. rewrite deduplicateCitations_urls.
  unfold deduplicateCitations.
  set (seen := fold_left keep_best citations []).
  pose proof (fold_keep_best_values citations) as Hvals. fold seen in Hvals.
  destruct (first_seen_spec [] (map url citations)) as [Hnd Hin].
  split; [reflexivity|]. split; [exact Hnd|].
  split; [intros u; rewrite Hin; simpl; intuition|].
  split; [apply map_index_ranked; reflexivity|].
  split.
  - intros c Hc. apply in_map_index in Hc as (v & j & Hv & ->).
    apply in_map_iff in Hv as (e & <- & He).
    exists (snd e). split; [apply (Hvals e He)|].
    unfold same_source. simpl. auto.
  - intros c Hc Ht.
    destruct (fold_titles citations [] c Hc Ht) as (v0 & Hv0 & Ht0).
    fold seen in Hv0.
    assert (Hv : In v0 (map snd seen)) by (apply (in_map snd) in Hv0; auto).
    apply In_nth_error in Hv as (n & Hn).
    assert (Hx : forall (l : list AICitation) i n v,
               nth_error l n = Some v ->
               In (at_position v (i + n)) (map_index at_position i l)).
    { clear. induction l as [|x l IH]; intros i [|n] v H; simpl in *;
        try discriminate.
      - injection H as ->. left. now rewrite Nat.add_0_r.
      - right. rewrite <- Nat.add_succ_comm. now apply IH. }
    exists (at_position v0 (0 + n)). split; [now apply Hx|].
    simpl. split; [|exact Ht0].
    symmetry. apply (Hvals (url c, v0) Hv0).
Qed.

Lemma unseen_urls (seen : list string) (citations : list AICitation) :
  map url (unseen seen citations) = first_seen seen (map url citations).
Proof.
  revert seen; induction citations as [|c cs IH]; intros seen; simpl;
    [reflexivity|].
  destruct (existsb (String.eqb (url c)) seen); simpl; now rewrite IH.
Qed.

Lemma unseen_in (seen : list string) (citations : list AICitation)
    (c : AICitation) :
  In c (unseen seen citations) -> In c citations.
Proof.
  revert seen; induction citations as [|c' cs IH]; intros seen; simpl;
    [auto|].
  destruct (existsb (String.eqb (url c')) seen); simpl.
  - intros H. right. eapply IH, H.
  - intros [<-|H]; [now left | right; eapply IH, H].
Qed.

(** X22.  [deduplicateCitations] of the Gemini service keeps, of the
    citations of each URL, the first, as it is: the URLs of the answer
    are those given, each once, in the order they first occur.  The
    positions are not renumbered: of the two services only the OpenAI
    one answers positions that are ranks. *)
Theorem deduplicateCitations_gemini_keeps_first
    (citations : list AICitation) :
  let out := deduplicateCitations_gemini citations in
  map url out = first_seen [] (map url citations) /\
  map url out = map url (deduplicateCitations citations) /\
  NoDup (map url out) /\
  (forall u, In u (map url out) <-> In u (map url citations)) /\
  (forall c, In c out -> In c citations).
Proof.
  cbv zeta. unfold deduplicateCitations_gemini.
  destruct (first_seen_spec [] (map url citations)) as [Hnd Hin].
  rewrite unseen_urls, deduplicateCitations_urls.
  split; [reflexivity|]. split; [reflexivity|].
  split; [exact Hnd|].
  split; [intros u; rewrite Hin; simpl; intuition|].
  apply unseen_in.
Qed.

End Deduplication.

Section AnswersOfTheServices.

Import Adapters TrackingEngine.

Variable hostname : string -> option string.

Lemma ranked_in (l : list AICitation) (c : AICitation) :
  ranked l -> In c l -> (1 <= position c <= Z.of_nat (List.length l))%Z.
Proof.
  unfold ranked. intros H Hc.
  apply (in_map position) in Hc. rewrite H in Hc.
  apply in_map_iff in Hc as (i & <- & Hi). apply in_seq in Hi. lia.
Qed.

(** From an answer whose citations are ranked the engine stores a rank. *)
Lemma analyze_ranked (keyword : Keyword) (project : Project)
    (p : AIPlatform) (t : Time) (response : AIPlatformResponse) :
  ranked (response_citations response) ->
  position_is_a_rank (analyze keyword project p t response).
Proof.
  intros H z. unfold analyze. simpl.
  destruct (isDomainMentioned response (primary_domain project));
    [|discriminate].
  destruct (find _ (response_citations response)) as [c|] eqn:E;
    [|discriminate].
  intros [= <-]. apply find_some in E as [Hc _].
  now apply ranked_in.
Qed.

Lemma parseReferences_links (refs : option (list RawReference)) :
  Forall (fun ref => ref_link ref <> "") (parseReferences hostname refs) /\
  (List.length (parseReferences hostname refs)
   <= match refs with Some l => List.length l | None => 0 end)%nat.
Proof.
  unfold parseReferences. destruct refs as [l|]; [|split; auto].
  split.
  - apply Forall_forall. intros ref Href. apply filter_In in Href as [_ H].
    simpl in H. intros E. rewrite E in H. discriminate.
  - etransitivity; [apply filter_length_le|]. now rewrite map_index_length.
Qed.

(** X23.  The answer the SERP service makes of a response carries no
    error; its citations are the references that have a link, numbered
    1, 2, ... in their order; without an AI Overview the text is empty
    and there is no citation.  What the engine stores of such an answer
    has a position that is a rank between 1 and the number of sources
    cited. *)
Theorem serp_answer_is_ranked (keyword : string) (response : SerpResponse)
    (responseTime : Z) :
  let a := serp_answer hostname keyword response responseTime in
  response_error a = None /\
  ranked (response_citations a) /\
  Forall (fun c => url c <> "" /\ is_you c = false) (response_citations a) /\
  (extractAIOOverview hostname response = None ->
   response_text a = "" /\ response_citations a = []) /\
  (forall k project t,
      position_is_a_rank (analyze k project GOOGLE_AI_OVERVIEW t a)).
Proof.
  cbv zeta.
  assert (Hr : ranked (response_citations
                         (serp_answer hostname keyword response
                                      responseTime))).
  { unfold serp_answer. simpl. unfold extractCitationsFromAIOOverview.
    destruct (extractAIOOverview hostname response) as [o|];
      [|reflexivity].
    apply map_index_ranked. reflexivity. }
  split; [reflexivity|]. split; [exact Hr|].
  split.
  - unfold serp_answer. simpl. unfold extractCitationsFromAIOOverview.
    destruct (extractAIOOverview hostname response) as [o|] eqn:E;
      [|constructor].
    apply Forall_forall. intros c Hc.
    apply in_map_index in Hc as (ref & j & Href & ->). simpl.
    split; [|reflexivity].
    unfold extractAIOOverview in E.
    destruct (first_of _ _) as [raw|]; [|discriminate].
    injection E as <-. simpl in Href.
    destruct (parseReferences_links
                (first_of (raw_references raw) (raw_links raw))) as [Hl _].
    rewrite Forall_forall in Hl. now apply Hl.
  - split.
    + intros E. unfold serp_answer. rewrite E. split; reflexivity.
    + intros k project t. now apply analyze_ranked.
Qed.

Lemma perplexity_from (i : nat) (citationUrls : list (option string)) :
  let out :=
    flat_map (fun c => c)
      (map_index
         (fun url index =>
            if JS.truthy_string url
            then match url with
                 | Some u =>
                     [{| url := u; title := Some ""; snippet := Some "";
                         position := Z.of_nat index + 1;
                         domain := extractDomain hostname u;
                         is_you := false |}]
                 | None => []
                 end
            else [])
         i citationUrls) in
  increasing out /\
  Forall (fun c => (Z.of_nat i + 1 <= position c
                    <= Z.of_nat (i + List.length citationUrls))%Z /\
                   url c <> "") out /\
  (List.length out <= List.length citationUrls)%nat.
Proof.
  cbv zeta. revert i.
  induction citationUrls as [|u l IH]; intros i; simpl.
  - repeat split; constructor.
  - destruct (IH (S i)) as (Hs & Hf & Hl).
    assert (Hf' : Forall
              (fun c => (Z.of_nat i + 1 <= position c
                         <= Z.of_nat (i + S (List.length l)))%Z /\
                        url c <> "")
              (flat_map (fun c => c)
                 (map_index
                    (fun url index =>
                       if JS.truthy_string url
                       then match url with
                            | Some u0 =>
                                [{| url := u0; title := Some "";
                                    snippet := Some "";
                                    position := Z.of_nat index + 1;
                                    domain := extractDomain hostname u0;
                                    is_you := false |}]
                            | None => []
                            end
                       else [])
                    (S i) l))).
    { eapply Forall_impl; [|exact Hf]. simpl. intros c [Hp Hu].
      split; [lia | exact Hu]. }
    destruct u as [u|]; simpl.
    + destruct (String.eqb_spec u "") as [->|Hne]; simpl.
      * repeat split; auto.
      * repeat split.
        -- constructor; [exact Hs|].
           eapply Forall_impl; [|exact Hf]. simpl. intros c [Hp _]. lia.
        -- constructor; [simpl; split; [lia | exact Hne]|exact Hf'].
        -- lia.
    + repeat split; auto.
Qed.

(** The citations kept, by the entries of the array: the entry of index
    [j] that is a string and not empty gives the citation of that URL at
    position [j + 1], and every citation is one of those. *)
Lemma perplexity_entries (i : nat) (citationUrls : list (option string))
    (u : string) (z : Z) :
  In (u, z)
     (map (fun c => (url c, position c))
          (flat_map (fun c => c)
             (map_index
                (fun url index =>
                   if JS.truthy_string url
                   then match url with
                        | Some u0 =>
                            [{| url := u0; title := Some "";
                                snippet := Some "";
                                position := Z.of_nat index + 1;
                                domain := extractDomain hostname u0;
                                is_you := false |}]
                        | None => []
                        end
                   else [])
                i citationUrls)))
  <-> exists j, nth_error citationUrls j = Some (Some u) /\ u <> "" /\
                z = (Z.of_nat (i + j) + 1)%Z.
Proof.
  revert i. induction citationUrls as [|x l IH]; intros i.
  - simpl. split; [intros []|]. intros (j & Hj & _). now destruct j.
  - cbn [map_index flat_map]. rewrite map_app, in_app_iff, IH. split.
    + intros [Hin|(j & Hj & Hne & ->)].
      * destruct x as [u0|]; simpl in Hin; [|destruct Hin].
        destruct (String.eqb_spec u0 "") as [->|Hne]; simpl in Hin;
          [destruct Hin|].
        destruct Hin as [[= <- <-]|[]].
        exists 0%nat. rewrite Nat.add_0_r. auto.
      * exists (S j). simpl. repeat split; auto. f_equal. lia.
    + intros ([|j] & Hj & Hne & ->).
      * left. simpl in Hj. injection Hj as ->. simpl.
        destruct (String.eqb_spec u "") as [->|_]; [now contradiction Hne|].
        simpl. left. now rewrite Nat.add_0_r.
      * right. exists j. simpl in Hj. repeat split; auto. f_equal. lia.
Qed.

(** X24.  The citations the Perplexity service draws from the URLs of an
    answer skip the entries that are empty and keep the index of the
    others: the entry of index [j] that is not empty gives the citation
    of its URL at position [j + 1], and there is no other citation.
    Their positions grow along the list, from 1 or more up to the number
    of entries, which can be more than the number of citations; they are
    1, 2, ... when no entry is empty. *)
Theorem perplexity_positions_are_indexes (citationUrls : list (option string)) :
  let out := perplexity_citations hostname citationUrls in
  increasing out /\
  Forall (fun c => (1 <= position c
                    <= Z.of_nat (List.length citationUrls))%Z /\
                   url c <> "") out /\
  (List.length out <= List.length citationUrls)%nat /\
  (forall u z,
      In (u, z) (map (fun c => (url c, position c)) out)
      <-> exists j, nth_error citationUrls j = Some (Some u) /\ u <> "" /\
                    z = (Z.of_nat j + 1)%Z) /\
  (Forall (fun u => JS.truthy_string u = true) citationUrls -> ranked out).
Proof.
  cbv zeta. unfold perplexity_citations.
  destruct (perplexity_from 0 citationUrls) as (Hs & Hf & Hl).
  split; [exact Hs|]. split; [exact Hf|]. split; [exact Hl|].
  split; [intros u z; apply (perplexity_entries 0)|].
  intros Hall. unfold ranked.
  clear Hs Hf Hl. generalize 0%nat as i.
  induction Hall as [|u l Hu _ IH]; intros i; simpl; [reflexivity|].
  rewrite Hu. destruct u as [u|]; [|discriminate]. simpl.
  f_equal. apply IH.
Qed.

End AnswersOfTheServices.

(** A last entry that is empty leaves the positions 1, 2, ... as they
    are. *)
Example perplexity_empty_last :
  map position
    (Adapters.perplexity_citations (fun _ => Some "acme.com")
       [Some "https://acme.com/a"; Some ""])
  = [1%Z].
Proof. reflexivity. Qed.

(** An entry that is empty leaves a gap: the second URL is at position
    2, and the engine stores 2 as the position among one source. *)
Example perplexity_gap :
  let cs :=
    Adapters.perplexity_citations (fun _ => Some "acme.com")
      [Some ""; Some "https://acme.com/a"] in
  let c :=
    TrackingEngine.analyze (Sample.crm true) Sample.acme PERPLEXITY 999000
      (Sample.answer "Acme." cs None) in
  map position cs = [2%Z] /\
  citation_position c = Some 2%Z /\
  total_sources_cited c = 1%nat.
Proof. cbv zeta. repeat split. Qed.

Section RateLimits.

Import RateLimit.

Local Open Scope Z_scope.

(** X25.  [checkRateLimit] of the Gemini, Perplexity and OpenAI services,
    called with a limit above 0 and timestamps that are not in the
    future.  The timestamps it leaves are those of the last minute and
    the instant of the call, none in the future.  It waits exactly when
    the last minute has the limit of timestamps or more, and then for
    more than 0 and at most 60000 milliseconds: until the oldest of them
    is a minute old. *)
Theorem checkRateLimit_waits_for_the_oldest (limit : Z) (now : Time)
    (requestTimestamps : list Time) :
  0 < limit ->
  Forall (fun t => t <= now) requestTimestamps ->
  let kept := filter (fun t => now - 60000 <? t) requestTimestamps in
  let after := fst (checkRateLimit limit now requestTimestamps) in
  let wait := snd (checkRateLimit limit now requestTimestamps) in
  after = (kept ++ [now])%list /\
  Forall (fun t => now - 60000 < t <= now) after /\
  (Z.of_nat (List.length kept) < limit -> wait = no_wait) /\
  (limit <= Z.of_nat (List.length kept) ->
   exists oldest waitTime,
     hd_error kept = Some oldest /\ wait = wait_for waitTime /\
     0 < waitTime <= 60000 /\
     request_at now wait = oldest + 60000).
Proof.
  intros Hl Hpast. cbv zeta. unfold checkRateLimit. cbn [fst snd].
  set (kept := filter (fun t => now - 60000 <? t) requestTimestamps).
  assert (Hk : Forall (fun t => now - 60000 < t <= now) kept).
  { apply Forall_forall. intros t Ht. apply filter_In in Ht as [Hin Hw].
    rewrite Forall_forall in Hpast. apply Z.ltb_lt in Hw.
    specialize (Hpast t Hin). simpl in Hpast. lia. }
  split; [reflexivity|].
  split; [apply Forall_app; split; [exact Hk | repeat constructor; lia]|].
  split.
  - intros H. apply Z.leb_gt in H. now rewrite H.
  - intros H. pose proof H as H'. apply Z.leb_le in H'. rewrite H'.
    destruct kept as [|oldest kept']; [simpl in H; lia|].
    exists oldest, (60000 - (now - oldest)).
    apply Forall_inv in Hk. cbn [hd_error request_at].
    repeat split; lia.
Qed.

(** The witness of X25: the third call of a second, with a limit of 2. *)
Lemma checkRateLimit_waits_for_the_oldest_witness :
  let kept := filter (fun t => 2000 - 60000 <? t) [0; 1000] in
  let after := fst (checkRateLimit 2 2000 [0; 1000]) in
  let wait := snd (checkRateLimit 2 2000 [0; 1000]) in
  after = (kept ++ [2000])%list /\
  Forall (fun t => 2000 - 60000 < t <= 2000) after /\
  (Z.of_nat (List.length kept) < 2 -> wait = no_wait) /\
  (2 <= Z.of_nat (List.length kept) ->
   exists oldest waitTime,
     hd_error kept = Some oldest /\ wait = wait_for waitTime /\
     0 < waitTime <= 60000 /\
     request_at 2000 wait = oldest + 60000).
Proof.
  apply (checkRateLimit_waits_for_the_oldest 2 2000 [0; 1000]).
  - lia.
  - repeat constructor; lia.
Defined.

(** The timestamp recorded is the instant of the call, not the instant
    the request goes out after the wait.  With a limit of 2 and calls at
    0, 1 and 2, the third request goes out at 60000; calls at 60000 and
    60003 then go out at 60001 and 60003: three requests within four
    milliseconds. *)
Example requests_beyond_the_limit :
  requests 2 [0; 1; 2; 60000; 60003] [] = [0; 1; 60000; 60001; 60003] /\
  in_the_minute_to 60003 (requests 2 [0; 1; 2; 60000; 60003] []) = 3%nat.
Proof. split; reflexivity. Qed.

Variable getMonth : Time -> Z.

Lemma checks_in_the_month (limit : Z) (calls : list Time) (q : Quota) :
  0 <= monthlyRequests q <= limit ->
  Forall (fun now => getMonth now = getMonth (lastResetDate q)) calls ->
  let passed := fst (checks getMonth limit calls q) in
  let q' := snd (checks getMonth limit calls q) in
  Z.of_nat passed = Z.min (Z.of_nat (List.length calls))
                          (limit - monthlyRequests q) /\
  monthlyRequests q' = monthlyRequests q + Z.of_nat passed /\
  lastResetDate q' = lastResetDate q.
Proof.
  cbv zeta. intros Hq Hm. revert q Hq Hm.
  induction calls as [|now calls IH]; intros q Hq Hm.
  - simpl. lia.
  - apply Forall_cons_iff in Hm as [Hnow Hm].
    cbn [checks]. unfold checkRateLimit_serp.
    apply Z.eqb_eq in Hnow. rewrite Hnow.
    destruct (limit <=? monthlyRequests q) eqn:E.
    + apply Z.leb_le in E.
      specialize (IH q Hq Hm).
      destruct (checks getMonth limit calls q) as [passed q'].
      simpl in *. lia.
    + apply Z.leb_gt in E.
      set (q1 := {| monthlyRequests := monthlyRequests q + 1;
                    lastResetDate := lastResetDate q |}).
      assert (Hq1 : 0 <= monthlyRequests q1 <= limit) by (simpl; lia).
      specialize (IH q1 Hq1 Hm).
      destruct (checks getMonth limit calls q1) as [passed q'].
      simpl in *. lia.
Qed.

(** X26.  The counter of the SERP service never passes its limit: a call
    keeps the count between 0 and the limit, so that the remaining quota
    is never negative; it fails, with
    [Monthly SERP API rate limit exceeded], exactly when the count of the
    month has reached the limit, and then leaves the count as it is.  Of
    calls within the month of the last reset, the first to pass are as
    many as the quota that remained, and the rest fail. *)
Theorem serp_quota_is_kept (limit : Z) (now : Time) (q : Quota)
    (calls : list Time) :
  0 <= monthlyRequests q <= limit ->
  let outcome := fst (checkRateLimit_serp getMonth limit now q) in
  let q' := snd (checkRateLimit_serp getMonth limit now q) in
  0 <= monthlyRequests q' <= limit /\
  0 <= remaining (getQuotaInfo limit q') /\
  (outcome = Throws "Monthly SERP API rate limit exceeded" \/
   outcome = Returns tt) /\
  (outcome = Throws "Monthly SERP API rate limit exceeded" <->
   getMonth now = getMonth (lastResetDate q) /\ monthlyRequests q = limit \/
   getMonth now <> getMonth (lastResetDate q) /\ limit = 0) /\
  (Forall (fun t => getMonth t = getMonth (lastResetDate q)) calls ->
   Z.of_nat (fst (checks getMonth limit calls q))
   = Z.min (Z.of_nat (List.length calls)) (remaining (getQuotaInfo limit q))).
Proof.
  intros Hq. cbv zeta.
  split; [|split; [|split; [|split]]].
  - unfold checkRateLimit_serp.
    destruct (Z.eqb_spec (getMonth now) (getMonth (lastResetDate q)));
      cbn [monthlyRequests lastResetDate];
      (destruct (Z.leb_spec limit (monthlyRequests q));
       cbn [fst snd monthlyRequests]; lia) ||
      (destruct (Z.leb_spec limit 0); cbn [fst snd monthlyRequests]; lia).
  - unfold checkRateLimit_serp, getQuotaInfo.
    destruct (Z.eqb_spec (getMonth now) (getMonth (lastResetDate q)));
      cbn [monthlyRequests lastResetDate];
      (destruct (Z.leb_spec limit (monthlyRequests q));
       cbn [fst snd monthlyRequests remaining]; lia) ||
      (destruct (Z.leb_spec limit 0);
       cbn [fst snd monthlyRequests remaining]; lia).
  - unfold checkRateLimit_serp.
    destruct (getMonth now =? getMonth (lastResetDate q));
      cbn [monthlyRequests lastResetDate].
    + destruct (limit <=? monthlyRequests q); cbn [fst]; auto.
    + destruct (limit <=? 0); cbn [fst]; auto.
  - unfold checkRateLimit_serp.
    destruct (Z.eqb_spec (getMonth now) (getMonth (lastResetDate q)))
      as [Em|Em]; cbn [monthlyRequests lastResetDate].
    + destruct (Z.leb_spec limit (monthlyRequests q)) as [E|E]; cbn [fst].
      * split; [intros _; left; split; [exact Em | lia] | reflexivity].
      * split; [discriminate|]. intros [[_ H]|[H _]]; [lia | contradiction].
    + destruct (Z.leb_spec limit 0) as [E|E]; cbn [fst].
      * split; [intros _; right; split; [exact Em | lia] | reflexivity].
      * split; [discriminate|]. intros [[H _]|[_ H]]; [contradiction | lia].
  - intros Hm. unfold getQuotaInfo. cbn [remaining].
    apply (checks_in_the_month limit calls q Hq Hm).
Qed.

End RateLimits.

Section QuotaWitness.

Import RateLimit.

Local Open Scope Z_scope.

(** The witness of X26: a limit of 2, one request made, three calls in
    the month. *)
Lemma serp_quota_is_kept_witness :
  let q := {| monthlyRequests := 1; lastResetDate := 0 |} in
  let outcome := fst (checkRateLimit_serp (fun _ => 0) 2 5 q) in
  let q' := snd (checkRateLimit_serp (fun _ => 0) 2 5 q) in
  0 <= monthlyRequests q' <= 2 /\
  0 <= remaining (getQuotaInfo 2 q') /\
  (outcome = Throws "Monthly SERP API rate limit exceeded" \/
   outcome = Returns tt) /\
  (outcome = Throws "Monthly SERP API rate limit exceeded" <->
   (fun _ : Time => 0) 5 = (fun _ : Time => 0) (lastResetDate q) /\
   monthlyRequests q = 2 \/
   (fun _ : Time => 0) 5 <> (fun _ : Time => 0) (lastResetDate q) /\ 2 = 0) /\
  (Forall (fun t => (fun _ : Time => 0) t
                    = (fun _ : Time => 0) (lastResetDate q)) [5; 6; 7] ->
   Z.of_nat (fst (checks (fun _ => 0) 2 [5; 6; 7] q))
   = Z.min (Z.of_nat (List.length [5; 6; 7])) (remaining (getQuotaInfo 2 q))).
Proof.
  apply (serp_quota_is_kept (fun _ => 0) 2 5
           {| monthlyRequests := 1; lastResetDate := 0 |} [5; 6; 7]).
  simpl. lia.
Defined.

End QuotaWitness.
